(** * Replay orchestrator of keploy: a shallow embedding of
    [pkg/service/replay/replay.go] and checked properties of it.

    The Go code talks to its collaborators (test, mock and report stores,
    instrumentation, request emulator, telemetry) through interfaces.  Here
    every collaborator is a state-passing function over an arbitrary world
    [W]; the replayer is a program in a state-and-trace monad that threads
    the world through the calls in source order and records each call with
    its result.  Logging calls ([utils.LogError], [r.logger.*]) have no
    effect on control flow and are left out.

    The two tasks [RunTestSet] starts (the application supervisor and the
    watcher of [appErrChan]) are steps on an explicit state of the channels;
    a scheduler in the world says, at each point where the driver looks at
    a channel or at its scope, what the tasks did since the last one.

    Contents: the data model and the collaborators; the replayer
    ([RunTestSet], [Start], [Normalize], [GetTestSetStatus]); an in-memory
    world for concrete runs; views of traces; then the properties for all
    worlds (mock windows, pruning, empty inputs, reports and counters, the
    two modes of a run, how [Start] ends, the warm-up delay), and at the
    end concrete runs, among them three on which the code departs from its
    own intent: a [SimulateRequest] error leaves the set [PASSED], a loop
    fault never becomes [INTERNAL_ERR], and [Normalize] ignores a configured
    run. *)

From Stdlib Require Import ZArith.
From stdpp Require Import base gmap strings list.

Local Open Scope string_scope.
Local Open Scope list_scope.
Local Open Scope Z_scope.

(** ** Go values *)

(** Go's [int] (64 bits on linux): the value of an addition wraps around. *)
Definition int_wrap (z : Z) : Z := (z + 2 ^ 63) mod 2 ^ 64 - 2 ^ 63.
Definition int_add (a b : Z) : Z := int_wrap (a + b).
Definition int_len {A} (l : list A) : Z := Z.of_nat (length l).

(** [time.Time], as an instant on the integer line. *)
Definition Time := Z.

(** Go's [error] values as far as the replayer builds and inspects them:
    the sentinel [context.Canceled], a fresh error with a message, and an
    error wrapping another one ([fmt.Errorf] with [%w]).  [None] in an
    [option error] is Go's [nil]. *)
Inductive error :=
| context_Canceled
| errors_New (msg : string)
| fmt_Errorf_w (prefix : string) (wrapped : error).

Fixpoint Error (e : error) : string :=
  match e with
  | context_Canceled => "context canceled"
  | errors_New msg => msg
  | fmt_Errorf_w p w => p +:+ Error w
  end.

(** [err == context.Canceled] *)
Definition is_Canceled (e : error) : bool :=
  match e with context_Canceled => true | _ => false end.

(** [errors.Is(err, context.Canceled)] *)
Fixpoint errors_Is_Canceled (e : error) : bool :=
  match e with
  | context_Canceled => true
  | errors_New _ => false
  | fmt_Errorf_w _ w => errors_Is_Canceled w
  end.

Definition nonempty (s : string) : bool := negb (String.eqb s "").

(** ** The data model ([models], not under src: the fields the replayer
    reads or copies) *)

Record HTTPReq := {
  Method : string;
  ProtoMajor : Z;
  ProtoMinor : Z;
  URL : string;
  URLParams : list (string * string);
  ReqHeader : list (string * string);
  ReqBody : string;
  Binary : string;
  Form : list (string * list string);
  ReqTimestamp : Time }.

Record HTTPResp := {
  StatusCode : Z;
  RespHeader : list (string * string);
  RespBody : string;
  RespTimestamp : Time }.

Record TestCase := {
  Name : string;
  tcHTTPReq : HTTPReq;
  tcHTTPResp : HTTPResp;
  tcNoise : gmap string (list string) }.

Definition set_URL (u : string) (q : HTTPReq) : HTTPReq :=
  {| Method := Method q; ProtoMajor := ProtoMajor q; ProtoMinor := ProtoMinor q;
     URL := u; URLParams := URLParams q; ReqHeader := ReqHeader q;
     ReqBody := ReqBody q; Binary := Binary q; Form := Form q;
     ReqTimestamp := ReqTimestamp q |}.

Definition tc_set_URL (u : string) (tc : TestCase) : TestCase :=
  {| Name := Name tc; tcHTTPReq := set_URL u (tcHTTPReq tc);
     tcHTTPResp := tcHTTPResp tc; tcNoise := tcNoise tc |}.

Definition tc_set_HTTPResp (r : HTTPResp) (tc : TestCase) : TestCase :=
  {| Name := Name tc; tcHTTPReq := tcHTTPReq tc;
     tcHTTPResp := r; tcNoise := tcNoise tc |}.

Record TestSet := { PreScript : string; PostScript : string }.

Record Mock := { mockName : string; mockReqTime : Time; mockResTime : Time }.

(** The per-field deltas of one comparison. *)
Definition Result := list (string * (string * string) * bool).

Inductive TestStatus := TestStatusPassed | TestStatusFailed | TestStatusRunning.

Inductive TestSetStatus :=
| TestSetStatusRunning
| TestSetStatusFailed
| TestSetStatusPassed
| TestSetStatusAppHalted
| TestSetStatusUserAbort
| TestSetStatusFaultUserApp
| TestSetStatusInternalErr
| TestSetStatusFaultScript.

(** Modelled from the spec: the string constants behind [models.TestStatus]
    and [models.TestSetStatus] (the [models] package is not under src); the
    names are those of the report states in the specification. *)
Definition TestStatus_string (s : TestStatus) : string :=
  match s with
  | TestStatusPassed => "PASSED"
  | TestStatusFailed => "FAILED"
  | TestStatusRunning => "RUNNING"
  end.

Definition TestSetStatus_string (s : TestSetStatus) : string :=
  match s with
  | TestSetStatusRunning => "RUNNING"
  | TestSetStatusFailed => "FAILED"
  | TestSetStatusPassed => "PASSED"
  | TestSetStatusAppHalted => "APP_HALTED"
  | TestSetStatusUserAbort => "USER_ABORT"
  | TestSetStatusFaultUserApp => "FAULT_USER_APP"
  | TestSetStatusInternalErr => "INTERNAL_ERR"
  | TestSetStatusFaultScript => "FAULT_SCRIPT"
  end.

Definition TestSetStatus_eqb (a b : TestSetStatus) : bool :=
  match a, b with
  | TestSetStatusRunning, TestSetStatusRunning
  | TestSetStatusFailed, TestSetStatusFailed
  | TestSetStatusPassed, TestSetStatusPassed
  | TestSetStatusAppHalted, TestSetStatusAppHalted
  | TestSetStatusUserAbort, TestSetStatusUserAbort
  | TestSetStatusFaultUserApp, TestSetStatusFaultUserApp
  | TestSetStatusInternalErr, TestSetStatusInternalErr
  | TestSetStatusFaultScript, TestSetStatusFaultScript => true
  | _, _ => false
  end.

Record TestResult := {
  trName : string;
  trStatus : TestStatus;
  trStarted : Time;
  trCompleted : Time;
  TestCaseID : string;
  trReq : HTTPReq;
  trRes : HTTPResp;
  TestCasePath : string;
  MockPath : string;
  trNoise : gmap string (list string);
  trResult : Result }.

Record TestReport := {
  Version : string;
  rTestSet : string;
  Status : string;
  Total : Z;
  Success : Z;
  Failure : Z;
  Tests : list TestResult }.

Record TestReportVerdict := {
  total : Z; passed : Z; failed : Z; status : bool }.

(** [models.AppErrorType]: the kinds the replayer's switch names, and any
    other value of the underlying string type. *)
Inductive AppErrorType :=
| ErrCommandError
| ErrUnExpected
| ErrInternal
| ErrAppStopped
| ErrCtxCanceled
| ErrUnrecognized (kind : string).

Record AppError := { appErrorType : AppErrorType; appErr : option error }.

Record SetupOptions := {
  Container : string; DockerNetwork : string; DockerDelay : Z }.

Record OutgoingOptions := {
  Rules : list string; MongoPassword : string; SQLDelay : Z;
  FallBackOnMiss : bool; Mocking : bool }.

Record InstrumentState := { AppID : N; HookCancel : bool }.

(** The constants [Start] and [Update] of [MockAction]. *)
Inductive MockAction := ActionStart | ActionUpdate.

(** ** Configuration ([config.Config], the fields the replayer reads) *)

Record SelectedTests := { stTestSet : string; stTests : list string }.

Record TestConfig := {
  BasePath : string;
  Delay : Z;
  cfgSelectedTests : gmap string (list string);
  RemoveUnusedMocks : bool;
  GlobalNoiseGlobal : gmap string (gmap string (list string));
  GlobalNoiseTestsets : gmap string (gmap string (gmap string (list string)));
  IgnoreOrdering : bool;
  cfgMongoPassword : string;
  cfgFallBackOnMiss : bool;
  cfgMocking : bool;
  GoCoverage : bool }.

Record NormalizeConfig := {
  nTestRun : string;
  nSelectedTests : list SelectedTests }.

Record Config := {
  Path : string;
  Command : string;
  CommandType : string;
  ContainerName : string;
  NetworkName : string;
  BuildDelay : Z;
  EnableTesting : bool;
  BypassRules : list string;
  Test : TestConfig;
  Normalize_ : NormalizeConfig }.

(** ** Collaborators

    One record per Go interface of the package.  A method that returns
    [(v, err)] returns the pair, so that a value delivered next to an error
    is there when the source goes on to use it.  A method whose pointer
    result the source dereferences without a nil test returns the value. *)

Section Interfaces.
Context {W : Type}.

Record TestDB := {
  GetAllTestSetIDs : W → (list string * option error) * W;
  GetTestCases : string → W → (list TestCase * option error) * W;
  UpdateTestCase : TestCase → string → W → option error * W }.

Record MockDB := {
  GetFilteredMocks : string → Time → Time → W → (list Mock * option error) * W;
  GetUnFilteredMocks : string → Time → Time → W → (list Mock * option error) * W;
  UpdateMocks : string → gmap string bool → W → option error * W }.

Record ReportDB := {
  GetAllTestRunIDs : W → (list string * option error) * W;
  GetTestCaseResults : string → string → W → (list TestResult * option error) * W;
  GetReport : string → string → W → (TestReport * option error) * W;
  InsertTestCaseResult : string → string → TestResult → W → option error * W;
  InsertReport : string → string → TestReport → W → option error * W }.

(** The interface [Config] of the package (per-set configuration). *)
Record TestSetConfig := {
  Read : string → W → (option TestSet * option error) * W }.

Record Telemetry := {
  TestSetRun : Z → Z → string → string → W → W;
  TestRun : Z → Z → Z → string → W → W }.

(** [Run] is the blocking call of the supervisor task; its return is a
    background event (below), not a call of the driver. *)
Record Instrumentation := {
  Setup : string → SetupOptions → W → (N * option error) * W;
  Hook : N → bool → W → option error * W;
  MockOutgoing : N → OutgoingOptions → W → option error * W;
  SetMocks : N → list Mock → list Mock → W → option error * W;
  GetConsumedMocks : N → W → (list string * option error) * W;
  GetContainerIP : N → W → (string * option error) * W }.

Record RequestMockHandler := {
  SimulateRequest : N → TestCase → string → W → (HTTPResp * option error) * W;
  ProcessTestRunStatus : bool → string → W → W;
  FetchMockName : W → string * W;
  ProcessMockFile : string → W → W;
  AfterTestHook : string → string → Z → W → option error * W }.

(** What the tasks running next to the driver do between two of its
    observation points: the supervised application returns from [Run],
    the parent scope is canceled, or the watcher task gets to run its
    [select] ([preferCtx] settles Go's choice when both of its cases are
    ready). *)
Inductive BgEvent :=
| AppExited (e : AppError)
| ParentCanceled
| WatcherScheduled (preferCtx : bool).

(** Functions of other packages and files ([utils], [pkg], [models],
    [time], [fmt], the matcher and the URL helpers of this package), none
    under src, and the scheduler of the background tasks.  [fmt_Sprintf]
    is [fmt.Sprintf] of a format string without operands: the text [fmt]
    makes of it, which is the string itself only when that holds no
    percent sign. *)
Record Runtime := {
  time_Now : W → Time * W;
  BaseTime : Time;
  ExecuteCommand : string → W → option error * W;
  utils_Stop : string → W → option error * W;
  ReplaceBaseURL : string → string → string * option error;
  ReplaceHostToIP : string → string → string * option error;
  IsDockerKind : string → bool;
  match_ : TestCase → HTTPResp → gmap string (gmap string (list string)) →
           bool → bool * option Result;
  LeftJoinNoise : gmap string (gmap string (list string)) →
                  gmap string (gmap string (list string)) →
                  gmap string (gmap string (list string));
  NextID : list string → string → string;
  LastID : list string → string → string;
  TestRunTemplateName : string;
  GetVersion : string;
  HighlightGrayString : string → string;
  fmt_Sprintf : string → string;
  filepath_Join : list string → string;
  background : W → list BgEvent * W }.

(** The receiver [r *Replayer], together with the package-level emulator
    [requestMockemulator] that [NewReplayer] installs. *)
Record Replayer := {
  testDB : TestDB;
  mockDB : MockDB;
  reportDB : ReportDB;
  testSetConf : TestSetConfig;
  telemetry : Telemetry;
  instrumentation : Instrumentation;
  config : Config;
  requestMockemulator : RequestMockHandler;
  runtime : Runtime }.

(** ** Traces: every collaborator call with its arguments and result *)

Inductive Call :=
| CGetAllTestSetIDs (res : list string * option error)
| CGetTestCases (testSetID : string) (res : list TestCase * option error)
| CUpdateTestCase (tc : TestCase) (testSetID : string) (res : option error)
| CGetFilteredMocks (testSetID : string) (after before : Time)
    (res : list Mock * option error)
| CGetUnFilteredMocks (testSetID : string) (after before : Time)
    (res : list Mock * option error)
| CUpdateMocks (testSetID : string) (mockNames : gmap string bool)
    (res : option error)
| CGetAllTestRunIDs (res : list string * option error)
| CGetTestCaseResults (testRunID testSetID : string)
    (res : list TestResult * option error)
| CGetReport (testRunID testSetID : string) (res : TestReport * option error)
| CInsertTestCaseResult (testRunID testSetID : string) (result : TestResult)
    (res : option error)
| CInsertReport (testRunID testSetID : string) (report : TestReport)
    (res : option error)
| CConfRead (testSetID : string) (res : option TestSet * option error)
| CTestSetRun (success failure : Z) (testSet runStatus : string)
| CTestRun (success failure testSets : Z) (runStatus : string)
| CSetup (cmd : string) (opts : SetupOptions) (res : N * option error)
| CHook (id : N) (enableTesting : bool) (res : option error)
| CHookCancel
| CMockOutgoing (id : N) (opts : OutgoingOptions) (res : option error)
| CSetMocks (id : N) (filtered unfiltered : list Mock) (res : option error)
| CGetConsumedMocks (id : N) (res : list string * option error)
| CGetContainerIP (id : N) (res : string * option error)
| CGoRunApplication (id : N)
| CSimulateRequest (id : N) (tc : TestCase) (testSetID : string)
    (res : HTTPResp * option error)
| CProcessTestRunStatus (status : bool) (testSetID : string)
| CFetchMockName (res : string)
| CProcessMockFile (testSetID : string)
| CAfterTestHook (testRunID testSetID : string) (totalTestSets : Z)
    (res : option error)
| CNow (t : Time)
| CSleep (seconds : Z)
| CExecuteCommand (script : string) (res : option error)
| CStop (reason : string) (res : option error)
| CPrintTestSetSummary (testSet : string) (total success failure : Z)
| CPrintSummary (total passed failed : Z)
    (suites : gmap string TestReportVerdict) (testRunResult : bool)
| CBackground (ev : BgEvent).

(** What [Start] does: its own calls, and one event for each test set it
    runs, holding the calls of that [RunTestSet] and what it returned. *)
Inductive Event :=
| ECall (c : Call)
| ERunTestSet (testSetID : string) (calls : list Call)
    (status : TestSetStatus) (err : option error).

(** ** The monad: world, package-level variables, and the emitted trace *)

Record St := {
  world : W;
  ctxDone : bool;
  completeTestReport : gmap string TestReportVerdict;
  totalTests : Z;
  totalTestPassed : Z;
  totalTestFailed : Z }.

Definition M (E A : Type) : Type := St → A * St * list E.

Definition set_world (w : W) (s : St) : St :=
  {| world := w; ctxDone := ctxDone s;
     completeTestReport := completeTestReport s;
     totalTests := totalTests s; totalTestPassed := totalTestPassed s;
     totalTestFailed := totalTestFailed s |}.

Definition set_ctxDone (b : bool) (s : St) : St :=
  {| world := world s; ctxDone := b;
     completeTestReport := completeTestReport s;
     totalTests := totalTests s; totalTestPassed := totalTestPassed s;
     totalTestFailed := totalTestFailed s |}.

Definition ret {E A} (a : A) : M E A := λ s, (a, s, []).

Definition bind {E A B} (m : M E A) (f : A → M E B) : M E B :=
  λ s, let '(a, s1, t1) := m s in
       let '(b, s2, t2) := f a s1 in
       (b, s2, t1 ++ t2).

(** A collaborator call that returns a value. *)
Definition call {A} (op : W → A * W) (ev : A → Call) : M Call A :=
  λ s, let '(a, w) := op (world s) in (a, set_world w s, [ev a]).

(** A collaborator call without a result. *)
Definition call_ (op : W → W) (ev : Call) : M Call unit :=
  λ s, (tt, set_world (op (world s)) s, [ev]).

Definition emit {E} (e : E) : M E unit := λ s, (tt, s, [e]).

Definition get {E} : M E St := λ s, (s, s, []).

Definition modify {E} (f : St → St) : M E unit := λ s, (tt, f s, []).

(** Running a sub-program whose calls become events of the caller. *)
Definition lift {E E' A} (inj : E → E') (m : M E A) : M E' A :=
  λ s, let '(a, s1, t) := m s in (a, s1, inj <$> t).

End Interfaces.

Arguments TestDB : clear implicits.
Arguments MockDB : clear implicits.
Arguments ReportDB : clear implicits.
Arguments TestSetConfig : clear implicits.
Arguments Telemetry : clear implicits.
Arguments Instrumentation : clear implicits.
Arguments RequestMockHandler : clear implicits.
Arguments Runtime : clear implicits.
Arguments Replayer : clear implicits.
Arguments St : clear implicits.
Arguments M : clear implicits.

Global Instance M_ret {W E} : MRet (M W E) := λ A a, ret a.
Global Instance M_bind {W E} : MBind (M W E) := λ A B f m, bind m f.

(** ** The replayer *)

Section Replayer.
Context {W : Type} (r : Replayer W).

Local Abbreviation cfg := (config r).
Local Abbreviation rt := (runtime r).

(** [fmt.Errorf(format)] without operands (lines 104, 111, 121, 132 and
    152): the message is given to [fmt] as a format string. *)
Definition fmt_Errorf (format : string) : error :=
  errors_New (fmt_Sprintf rt format).

(** [GetMocks] *)
Definition GetMocks (testSetID : string) (afterTime beforeTime : Time)
  : M W Call (list Mock * list Mock * option error) :=
  if nonempty (BasePath (Test cfg)) then mret ([], [], None)
  else
    '(filtered, err) ← call (GetFilteredMocks (mockDB r) testSetID afterTime beforeTime)
                             (CGetFilteredMocks testSetID afterTime beforeTime);
    match err with
    | Some e => mret ([], [], Some e)
    | None =>
      '(unfiltered, err) ← call (GetUnFilteredMocks (mockDB r) testSetID afterTime beforeTime)
                                 (CGetUnFilteredMocks testSetID afterTime beforeTime);
      match err with
      | Some e => mret ([], [], Some e)
      | None => mret (filtered, unfiltered, None)
      end
    end.

(** [SetupOrUpdateMocks]; [time.Duration(r.config.Test.Delay)] converts the
    delay to a signed 64-bit integer. *)
Definition SetupOrUpdateMocks (appID : N) (testSetID : string)
    (afterTime beforeTime : Time) (action : MockAction) : M W Call (option error) :=
  if nonempty (BasePath (Test cfg)) then mret None
  else
    '(filteredMocks, unfilteredMocks, err) ← GetMocks testSetID afterTime beforeTime;
    match err with
    | Some e => mret (Some e)
    | None =>
      err ← match action with
            | ActionStart =>
              let opts := {| Rules := BypassRules cfg;
                             MongoPassword := cfgMongoPassword (Test cfg);
                             SQLDelay := int_wrap (Delay (Test cfg));
                             FallBackOnMiss := cfgFallBackOnMiss (Test cfg);
                             Mocking := cfgMocking (Test cfg) |} in
              call (MockOutgoing (instrumentation r) appID opts) (CMockOutgoing appID opts)
            | ActionUpdate => mret None
            end;
      match err with
      | Some e => mret (Some e)
      | None =>
        call (SetMocks (instrumentation r) appID filteredMocks unfilteredMocks)
             (CSetMocks appID filteredMocks unfilteredMocks)
      end
    end.

(** [executeScript]: the command runs under a 25 s timeout inside
    [utils.ExecuteCommand]. *)
Definition executeScript (script : string) : M W Call (option error) :=
  if String.eqb script "" then mret None
  else
    cmdErr ← call (ExecuteCommand rt script) (CExecuteCommand script);
    match cmdErr with
    | Some e => mret (Some (fmt_Errorf_w "failed to execute script: " e))
    | None => mret None
    end.

(** [compareResp] *)
Definition compareResp (tc : TestCase) (actualResponse : HTTPResp)
    (testSetID : string) : bool * option Result :=
  let noiseConfig :=
    match GlobalNoiseTestsets (Test cfg) !! testSetID with
    | Some tsNoise => LeftJoinNoise rt (GlobalNoiseGlobal (Test cfg)) tsNoise
    | None => GlobalNoiseGlobal (Test cfg)
    end in
  match_ rt tc actualResponse noiseConfig (IgnoreOrdering (Test cfg)).

(** Modelled from the spec: [ArrayToMap] of this package (its file is not
    under src) turns a slice of names into the set of its elements, the
    selection whose size is the report's [Total]. *)
Definition ArrayToMap (arr : list string) : gset string := list_to_set arr.

Definition map_len (m : gset string) : Z := Z.of_nat (size m).

(** *** The tasks [RunTestSet] starts next to its loop

    [supervisor] and [watcher] tell whether the two tasks of the error
    group are still running; [appErrChan] (capacity 1) and [exitLoopChan]
    (capacity 2, here the number of buffered values) are the channels;
    [runTestSetCtxDone] is the state of the set's own scope. *)
Record Tasks := {
  supervisor : bool;
  watcher : bool;
  appErrChan : option AppError;
  exitLoopChan : nat;
  testSetStatusByErrChan : TestSetStatus;
  runTestSetCtxDone : bool }.

(** The supervisor task, when [RunApplication] returns [e]. *)
Definition appSupervisor (e : AppError) (t : Tasks) : Tasks :=
  if supervisor t then
    {| supervisor := false; watcher := watcher t;
       appErrChan := match appErrorType e with
                     | ErrCtxCanceled => appErrChan t
                     | _ => Some e
                     end;
       exitLoopChan := exitLoopChan t;
       testSetStatusByErrChan := testSetStatusByErrChan t;
       runTestSetCtxDone := runTestSetCtxDone t |}
  else t.

(** The tail of the watcher task: [exitLoopChan <- true] and
    [runTestSetCtxCancel()], after the status [st] was stored. *)
Definition watcherSignal (st : TestSetStatus) (t : Tasks) : Tasks :=
  {| supervisor := supervisor t; watcher := false;
     appErrChan := appErrChan t;
     exitLoopChan := S (exitLoopChan t);
     testSetStatusByErrChan := st;
     runTestSetCtxDone := true |}.

Definition watcherReturn (t : Tasks) : Tasks :=
  {| supervisor := supervisor t; watcher := false;
     appErrChan := appErrChan t;
     exitLoopChan := exitLoopChan t;
     testSetStatusByErrChan := testSetStatusByErrChan t;
     runTestSetCtxDone := runTestSetCtxDone t |}.

(** The watcher's case [err := <-appErrChan]. *)
Definition watcherOnAppErr (err : AppError) (t : Tasks) : Tasks :=
  match appErrorType err with
  | ErrCommandError => watcherSignal TestSetStatusFaultUserApp t
  | ErrUnExpected => watcherSignal TestSetStatusAppHalted t
  | ErrAppStopped => watcherSignal TestSetStatusAppHalted t
  | ErrCtxCanceled => watcherReturn t
  | ErrInternal => watcherSignal TestSetStatusInternalErr t
  | ErrUnrecognized _ => watcherSignal TestSetStatusAppHalted t
  end.

(** The watcher's case [<-runTestSetCtx.Done()]. *)
Definition watcherOnCtxDone (t : Tasks) : Tasks :=
  watcherSignal TestSetStatusUserAbort t.

Definition take_appErrChan (t : Tasks) : Tasks :=
  {| supervisor := supervisor t; watcher := watcher t;
     appErrChan := None;
     exitLoopChan := exitLoopChan t;
     testSetStatusByErrChan := testSetStatusByErrChan t;
     runTestSetCtxDone := runTestSetCtxDone t |}.

(** The watcher's [select], when the task is scheduled. *)
Definition watcherSelect (preferCtx : bool) (t : Tasks) : Tasks :=
  if watcher t then
    match appErrChan t, runTestSetCtxDone t with
    | Some err, true =>
      if preferCtx then watcherOnCtxDone t
      else watcherOnAppErr err (take_appErrChan t)
    | Some err, false => watcherOnAppErr err (take_appErrChan t)
    | None, true => watcherOnCtxDone t
    | None, false => t
    end
  else t.

Definition cancel_runTestSetCtx (t : Tasks) : Tasks :=
  {| supervisor := supervisor t; watcher := watcher t;
     appErrChan := appErrChan t;
     exitLoopChan := exitLoopChan t;
     testSetStatusByErrChan := testSetStatusByErrChan t;
     runTestSetCtxDone := true |}.

Definition bgStep (t : Tasks) (ev : BgEvent) : Tasks :=
  match ev with
  | AppExited e => appSupervisor e t
  | ParentCanceled => cancel_runTestSetCtx t
  | WatcherScheduled preferCtx => watcherSelect preferCtx t
  end.

Definition isParentCanceled (ev : BgEvent) : bool :=
  match ev with ParentCanceled => true | _ => false end.

(** An observation point of the driver: what the other tasks did since the
    last one takes effect. *)
Definition observe (t : Tasks) : M W Call Tasks :=
  λ s, let '(evs, w) := background rt (world s) in
       (foldl bgStep t evs,
        set_ctxDone (ctxDone s || existsb isParentCanceled evs) (set_world w s),
        CBackground <$> evs).

(** The non-blocking receive [select { case <-exitLoopChan: ... default: }]. *)
Definition recv_exitLoopChan (t : Tasks) : option Tasks :=
  match exitLoopChan t with
  | O => None
  | S n =>
    Some {| supervisor := supervisor t; watcher := watcher t;
            appErrChan := appErrChan t;
            exitLoopChan := n;
            testSetStatusByErrChan := testSetStatusByErrChan t;
            runTestSetCtxDone := runTestSetCtxDone t |}
  end.

(** *** [RunTestSet]: the per-case loop *)

Record LoopVars := {
  tasks : Tasks;
  success : Z;
  failure : Z;
  testSetStatus : TestSetStatus;
  totalConsumedMocks : gmap string bool }.

Definition set_tasks (t : Tasks) (v : LoopVars) : LoopVars :=
  {| tasks := t; success := success v; failure := failure v;
     testSetStatus := testSetStatus v;
     totalConsumedMocks := totalConsumedMocks v |}.

Definition set_testSetStatus (st : TestSetStatus) (v : LoopVars) : LoopVars :=
  {| tasks := tasks v; success := success v; failure := failure v;
     testSetStatus := st;
     totalConsumedMocks := totalConsumedMocks v |}.

Definition incr_success (v : LoopVars) : LoopVars :=
  {| tasks := tasks v; success := int_add (success v) 1; failure := failure v;
     testSetStatus := testSetStatus v;
     totalConsumedMocks := totalConsumedMocks v |}.

Definition incr_failure (v : LoopVars) : LoopVars :=
  {| tasks := tasks v; success := success v; failure := int_add (failure v) 1;
     testSetStatus := testSetStatus v;
     totalConsumedMocks := totalConsumedMocks v |}.

(** [for _, mockName := range consumedMocks { totalConsumedMocks[mockName] = true }] *)
Definition add_consumed (consumedMocks : list string) (m : gmap string bool)
  : gmap string bool :=
  foldl (λ acc mockName, <[mockName := true]> acc) m consumedMocks.

Definition set_totalConsumedMocks (m : gmap string bool) (v : LoopVars) : LoopVars :=
  {| tasks := tasks v; success := success v; failure := failure v;
     testSetStatus := testSetStatus v;
     totalConsumedMocks := m |}.

Inductive LoopCtl := Continue | Break.

(** Lines 402-410: the request URL takes the configured base path, unless
    [ReplaceBaseURL] fails. *)
Definition replaceBase (testCase : TestCase) : TestCase :=
  if nonempty (BasePath (Test cfg)) then
    match ReplaceBaseURL rt (BasePath (Test cfg)) (URL (tcHTTPReq testCase)) with
    | (_, Some _) => testCase
    | (newURL, None) => tc_set_URL newURL testCase
    end
  else testCase.

(** Lines 436-444: for a docker command without base path, the host of the
    request URL becomes the container's IP. *)
Definition replaceHost (userIP : string) (testCase : TestCase)
  : TestCase * option error :=
  if IsDockerKind rt (CommandType cfg) && negb (nonempty (BasePath (Test cfg)))
  then let '(u, err) := ReplaceHostToIP rt (URL (tcHTTPReq testCase)) userIP in
       (tc_set_URL u testCase, err)
  else (testCase, None).

(** One iteration of [for _, testCase := range testCases] (lines 395-525). *)
Definition RunTestSet_case (testSetID testRunID : string) (appID : N)
    (userIP : string) (selectedTests : gset string)
    (testCase : TestCase) (v : LoopVars) : M W Call (LoopCtl * LoopVars) :=
  if negb (bool_decide (Name testCase ∈ selectedTests))
     && negb (map_len selectedTests =? 0)
  then mret (Continue, v)
  else
    let testCase := replaceBase testCase in
    t ← observe (tasks v);
    match recv_exitLoopChan t with
    | Some t' =>
      mret (Break, set_testSetStatus (testSetStatusByErrChan t') (set_tasks t' v))
    | None =>
      let v := set_tasks t v in
      err ← SetupOrUpdateMocks appID testSetID
              (ReqTimestamp (tcHTTPReq testCase))
              (RespTimestamp (tcHTTPResp testCase)) ActionUpdate;
      match err with
      | Some _ => mret (Break, v)
      | None =>
        let '(testCase, err) := replaceHost userIP testCase in
        match err with
        | Some _ => mret (Break, v)
        | None =>
          started ← call (time_Now rt) CNow;
          '(resp, loopErr) ← call (SimulateRequest (requestMockemulator r) appID testCase testSetID)
                                  (CSimulateRequest appID testCase testSetID);
          match loopErr with
          | Some _ => mret (Continue, incr_failure v)
          | None =>
            v ← (if nonempty (BasePath (Test cfg)) then mret v
                 else
                   '(consumedMocks, _) ← call (GetConsumedMocks (instrumentation r) appID)
                                               (CGetConsumedMocks appID);
                   mret (if RemoveUnusedMocks (Test cfg)
                         then set_totalConsumedMocks
                                (add_consumed consumedMocks (totalConsumedMocks v)) v
                         else v));
            let '(testPass, testResult) := compareResp testCase resp testSetID in
            let testStatus :=
              if testPass then TestStatusPassed else TestStatusFailed in
            let v :=
              if testPass then incr_success v
              else set_testSetStatus TestSetStatusFailed (incr_failure v) in
            match testResult with
            | Some res =>
              completed ← call (time_Now rt) CNow;
              mockFile ← call (FetchMockName (requestMockemulator r)) CFetchMockName;
              let testCaseResult :=
                {| trName := testSetID;
                   trStatus := testStatus;
                   trStarted := started;
                   trCompleted := completed;
                   TestCaseID := Name testCase;
                   trReq := tcHTTPReq testCase;
                   trRes := resp;
                   TestCasePath := filepath_Join rt [Path cfg; testSetID];
                   MockPath := filepath_Join rt [Path cfg; testSetID; mockFile];
                   trNoise := tcNoise testCase;
                   trResult := res |} in
              loopErr ← call (InsertTestCaseResult (reportDB r) testRunID testSetID testCaseResult)
                             (CInsertTestCaseResult testRunID testSetID testCaseResult);
              match loopErr with
              | Some _ => mret (Break, v)
              | None =>
                (if EnableTesting cfg then emit (CSleep 1) else mret tt);;
                mret (Continue, v)
              end
            | None => mret (Break, v)
            end
          end
        end
      end
    end.

Fixpoint RunTestSet_loop (testSetID testRunID : string) (appID : N)
    (userIP : string) (selectedTests : gset string)
    (testCases : list TestCase) (v : LoopVars) : M W Call LoopVars :=
  match testCases with
  | [] => mret v
  | testCase :: rest =>
    '(ctl, v) ← RunTestSet_case testSetID testRunID appID userIP selectedTests testCase v;
    match ctl with
    | Break => mret v
    | Continue => RunTestSet_loop testSetID testRunID appID userIP selectedTests rest v
    end
  end.

(** *** [RunTestSet]: after the loop

    Lines 527-554: the post-script, the results of the set, and the
    terminal status.  [loopErr] is the variable declared before the loop
    (line 393).  The result is [inl] when the function returns here. *)
Definition RunTestSet_status (testSetID testRunID postscript : string)
    (loopErr : option error) (v : LoopVars)
  : M W Call (TestSetStatus * option error + list TestResult * LoopVars) :=
  err ← (if nonempty (BasePath (Test cfg)) then executeScript postscript
         else mret None);
  match err with
  | Some e =>
    mret (inl (TestSetStatusFaultScript,
               Some (fmt_Errorf_w "failed to execute post-script: " e)))
  | None =>
    '(testCaseResults, err) ← call (GetTestCaseResults (reportDB r) testRunID testSetID)
                                   (CGetTestCaseResults testRunID testSetID);
    v ← match err with
        | Some _ =>
          t ← observe (tasks v);
          mret (if runTestSetCtxDone t then set_tasks t v
                else set_testSetStatus TestSetStatusInternalErr (set_tasks t v))
        | None => mret v
        end;
    v ← (if match loopErr with
            | Some e => negb (errors_Is_Canceled e)
            | None => false
            end
         then mret (set_testSetStatus TestSetStatusInternalErr v)
         else
           t ← observe (tasks v);
           match recv_exitLoopChan t with
           | Some t' =>
             mret (set_testSetStatus (testSetStatusByErrChan t') (set_tasks t' v))
           | None => mret (set_tasks t v)
           end);
    mret (inr (testCaseResults, v))
  end.

(** Lines 556-609: the terminal report, pruning, the package-level
    verdicts and the telemetry of the set. *)
Definition RunTestSet_seal (testSetID testRunID : string) (testCasesCount : Z)
    (testCaseResults : list TestResult) (testSetStatus : TestSetStatus)
    (success failure : Z) (totalConsumedMocks : gmap string bool)
  : M W Call (TestSetStatus * option error) :=
  let testReport :=
    {| Version := GetVersion rt;
       rTestSet := testSetID;
       Status := TestSetStatus_string testSetStatus;
       Total := testCasesCount;
       Success := success;
       Failure := failure;
       Tests := testCaseResults |} in
  err ← call (InsertReport (reportDB r) testRunID testSetID testReport)
             (CInsertReport testRunID testSetID testReport);
  match err with
  | Some _ =>
    mret (TestSetStatusInternalErr, Some (errors_New "failed to insert report"))
  | None =>
    (if RemoveUnusedMocks (Test cfg)
        && TestSetStatus_eqb testSetStatus TestSetStatusPassed
        && negb (nonempty (BasePath (Test cfg)))
     then
       _ ← call (UpdateMocks (mockDB r) testSetID totalConsumedMocks)
                (CUpdateMocks testSetID totalConsumedMocks);
       mret tt
     else mret tt);;
    let verdict :=
      {| total := Total testReport;
         failed := Failure testReport;
         passed := Success testReport;
         status := TestSetStatus_eqb testSetStatus TestSetStatusPassed |} in
    modify (λ s,
      {| world := world s; ctxDone := ctxDone s;
         completeTestReport := <[testSetID := verdict]> (completeTestReport s);
         totalTests := int_add (totalTests s) (Total testReport);
         totalTestPassed := int_add (totalTestPassed s) (Success testReport);
         totalTestFailed := int_add (totalTestFailed s) (Failure testReport) |});;
    (if TestSetStatus_eqb testSetStatus TestSetStatusFailed
        || TestSetStatus_eqb testSetStatus TestSetStatusPassed
     then emit (CPrintTestSetSummary (rTestSet testReport) (Total testReport)
                  (Success testReport) (Failure testReport))
     else mret tt);;
    call_ (TestSetRun (telemetry r) (Success testReport) (Failure testReport)
             testSetID (TestSetStatus_string testSetStatus))
          (CTestSetRun (Success testReport) (Failure testReport)
             testSetID (TestSetStatus_string testSetStatus));;
    mret (testSetStatus, None)
  end.

Definition RunTestSet_finish (testSetID testRunID postscript : string)
    (testCasesCount : Z) (loopErr : option error) (v : LoopVars)
  : M W Call (TestSetStatus * option error) :=
  res ← RunTestSet_status testSetID testRunID postscript loopErr v;
  match res with
  | inl ret => mret ret
  | inr (testCaseResults, v) =>
    RunTestSet_seal testSetID testRunID testCasesCount testCaseResults
      (testSetStatus v) (success v) (failure v) (totalConsumedMocks v)
  end.

(** *** [RunTestSet]: report seeding and the loop (lines 369-525)

    The loop assigns only the [loopErr] its body declares (line 427: the
    results of [SimulateRequest] and [InsertTestCaseResult] go there), so
    the variable of line 393 reaches the code after the loop as [nil]. *)
Definition RunTestSet_report (testSetID testRunID : string) (appID : N)
    (postscript userIP : string) (testCases : list TestCase) (t : Tasks)
  : M W Call (TestSetStatus * option error) :=
  let selectedTests :=
    ArrayToMap (default [] (cfgSelectedTests (Test cfg) !! testSetID)) in
  let testCasesCount :=
    if negb (map_len selectedTests =? 0) then map_len selectedTests
    else int_len testCases in
  let testReport :=
    {| Version := GetVersion rt;
       rTestSet := "";
       Status := TestStatus_string TestStatusRunning;
       Total := testCasesCount;
       Success := 0;
       Failure := 0;
       Tests := [] |} in
  err ← call (InsertReport (reportDB r) testRunID testSetID testReport)
             (CInsertReport testRunID testSetID testReport);
  match err with
  | Some e => mret (TestSetStatusFailed, Some e)
  | None =>
    let loopErr : option error := None in
    v ← RunTestSet_loop testSetID testRunID appID userIP selectedTests testCases
          {| tasks := t; success := 0; failure := 0;
             testSetStatus := TestSetStatusPassed;
             totalConsumedMocks := ∅ |};
    RunTestSet_finish testSetID testRunID postscript testCasesCount loopErr v
  end.

(** The tasks at the start of a set: which of the two are started, empty
    channels, [testSetStatusByErrChan] still [RUNNING], and the set's scope
    done when its parent already is. *)
Definition tasks0 (supervised watched parentDone : bool) : Tasks :=
  {| supervisor := supervised; watcher := watched; appErrChan := None;
     exitLoopChan := O;
     testSetStatusByErrChan := TestSetStatusRunning;
     runTestSetCtxDone := parentDone |}.

(** *** [RunTestSet]: supervision and warm-up (lines 313-367) *)
Definition RunTestSet_supervise (testSetID testRunID : string) (appID : N)
    (serveTest : bool) (postscript : string) (testCases : list TestCase)
  : M W Call (TestSetStatus * option error) :=
  s ← get;
  if nonempty (BasePath (Test cfg)) then
    RunTestSet_report testSetID testRunID appID postscript "" testCases
      (tasks0 false false (ctxDone s))
  else
    (if serveTest then mret tt else emit (CGoRunApplication appID));;
    t ← observe (tasks0 (negb serveTest) true (ctxDone s));
    if runTestSetCtxDone t
    then mret (TestSetStatusUserAbort, Some context_Canceled)
    else if IsDockerKind rt (CommandType cfg) then
      '(userIP, err) ← call (GetContainerIP (instrumentation r) appID)
                            (CGetContainerIP appID);
      match err with
      | Some e => mret (TestSetStatusFailed, Some e)
      | None =>
        RunTestSet_report testSetID testRunID appID postscript userIP testCases t
      end
    else RunTestSet_report testSetID testRunID appID postscript "" testCases t.

(** *** [RunTestSet]: test cases and the first mock window (lines 285-311) *)
Definition RunTestSet_cases (testSetID testRunID : string) (appID : N)
    (serveTest : bool) (postscript : string)
  : M W Call (TestSetStatus * option error) :=
  '(testCases, err) ← call (GetTestCases (testDB r) testSetID)
                           (CGetTestCases testSetID);
  match err with
  | Some e =>
    mret (TestSetStatusFailed, Some (fmt_Errorf_w "failed to get test cases: " e))
  | None =>
    if int_len testCases =? 0 then mret (TestSetStatusPassed, None)
    else
      now ← call (time_Now rt) CNow;
      err ← SetupOrUpdateMocks appID testSetID (BaseTime rt) now ActionStart;
      match err with
      | Some e => mret (TestSetStatusFailed, Some e)
      | None =>
        RunTestSet_supervise testSetID testRunID appID serveTest postscript testCases
      end
  end.

(** [RunTestSet] (lines 245-610).  The deferred function cancels the set's
    scope and waits for its two tasks; it calls no collaborator. *)
Definition RunTestSet (testSetID testRunID : string) (appID : N)
    (serveTest : bool) : M W Call (TestSetStatus * option error) :=
  if nonempty (BasePath (Test cfg)) then
    '(conf, err) ← call (Read (testSetConf r) testSetID) (CConfRead testSetID);
    match err with
    | Some e =>
      mret (TestSetStatusFailed,
            Some (fmt_Errorf_w "failed to read test set config: " e))
    | None =>
      match conf with
      | None =>
        mret (TestSetStatusFailed, Some (errors_New "test set config not found"))
      | Some conf =>
        err ← executeScript (PreScript conf);
        match err with
        | Some e =>
          mret (TestSetStatusFaultScript,
                Some (fmt_Errorf_w "failed to execute pre-script: " e))
        | None =>
          RunTestSet_cases testSetID testRunID appID serveTest (PostScript conf)
        end
      end
    end
  else RunTestSet_cases testSetID testRunID appID serveTest "".

(** *** [Instrument], [GetNextTestRunID], [printSummary] *)

(** The [select] on [ctx.Done()] of the run's scope. *)
Definition observeCtx : M W Call bool :=
  λ s, let '(evs, w) := background rt (world s) in
       let canceled := ctxDone s || existsb isParentCanceled evs in
       (canceled, set_ctxDone canceled (set_world w s), CBackground <$> evs).

Definition Instrument : M W Call (InstrumentState * option error) :=
  if nonempty (BasePath (Test cfg))
  then mret ({| AppID := 0%N; HookCancel := false |}, None)
  else
    let opts := {| Container := ContainerName cfg;
                   DockerNetwork := NetworkName cfg;
                   DockerDelay := BuildDelay cfg |} in
    '(appID, err) ← call (Setup (instrumentation r) (Command cfg) opts)
                         (CSetup (Command cfg) opts);
    match err with
    | Some e =>
      if errors_Is_Canceled e
      then mret ({| AppID := 0%N; HookCancel := false |}, Some e)
      else mret ({| AppID := 0%N; HookCancel := false |},
                 Some (fmt_Errorf_w "failed to setup instrumentation: " e))
    | None =>
      canceled ← observeCtx;
      if canceled : bool
      then mret ({| AppID := 0%N; HookCancel := false |}, Some context_Canceled)
      else
        err ← call (Hook (instrumentation r) appID (EnableTesting cfg))
                   (CHook appID (EnableTesting cfg));
        match err with
        | Some e =>
          emit CHookCancel;;
          if errors_Is_Canceled e
          then mret ({| AppID := 0%N; HookCancel := false |}, Some e)
          else mret ({| AppID := 0%N; HookCancel := false |},
                     Some (fmt_Errorf_w "failed to start the hooks and proxy: " e))
        | None => mret ({| AppID := appID; HookCancel := true |}, None)
        end
    end.

Definition GetNextTestRunID : M W Call (string * option error) :=
  '(testRunIDs, err) ← call (GetAllTestRunIDs (reportDB r)) CGetAllTestRunIDs;
  match err with
  | Some e =>
    if errors_Is_Canceled e then mret ("", Some e)
    else mret ("", Some (fmt_Errorf_w "failed to get all test run ids: " e))
  | None => mret (NextID rt testRunIDs (TestRunTemplateName rt), None)
  end.

(** [printSummary]: the totals and the per-suite lines it prints are one
    event; the coverage commands that may follow are left out. *)
Definition printSummary (testRunResult : bool) : M W Call unit :=
  s ← get;
  if 0 <? totalTests s
  then emit (CPrintSummary (totalTests s) (totalTestPassed s) (totalTestFailed s)
               (completeTestReport s) testRunResult)
  else mret tt.

(** *** [Start] *)

Definition runTestSet (testSetID testRunID : string) (appID : N)
  : M W Event (TestSetStatus * option error) :=
  λ s, let '(res, s1, calls) := RunTestSet testSetID testRunID appID false s in
       (res, s1, [ERunTestSet testSetID calls res.1 res.2]).

Record StartVars := {
  testSetResult : bool;
  testRunResult : bool;
  abortTestRun : bool }.

(** How the loop over the test sets ends: by a [return] of [Start] (with
    the stop reason the deferred function sees), or by falling out of the
    loop. *)
Inductive StartLoopExit :=
| Returned (err : option error) (stopReason : string)
| LoopDone (v : StartVars).

Definition stopReason0 : string := "replay completed successfully".

(** [for _, testSetID := range testSetIDs] (lines 140-181); [n] is
    [len(testSetIDs)]. *)
Fixpoint Start_loop (testRunID : string) (appID : N) (n : Z)
    (testSetIDs : list string) (v : StartVars) : M W Event StartLoopExit :=
  match testSetIDs with
  | [] => mret (LoopDone v)
  | testSetID :: rest =>
    if negb (bool_decide (is_Some (cfgSelectedTests (Test cfg) !! testSetID)))
       && negb (bool_decide (size (cfgSelectedTests (Test cfg)) = O))
    then Start_loop testRunID appID n rest v
    else
      lift ECall (call_ (ProcessMockFile (requestMockemulator r) testSetID)
                        (CProcessMockFile testSetID));;
      '(testSetStatus, err) ← runTestSet testSetID testRunID appID;
      match err with
      | Some e =>
        let stopReason := "failed to run test set: " +:+ Error e in
        if is_Canceled e then mret (Returned (Some e) stopReason)
        else mret (Returned (Some (fmt_Errorf stopReason)) stopReason)
      | None =>
        match testSetStatus with
        | TestSetStatusUserAbort => mret (Returned None stopReason0)
        | _ =>
          v ← match testSetStatus with
              | TestSetStatusAppHalted
              | TestSetStatusInternalErr
              | TestSetStatusFaultUserApp =>
                mret {| testSetResult := false;
                        testRunResult := testRunResult v;
                        abortTestRun := true |}
              | TestSetStatusFailed =>
                mret {| testSetResult := false;
                        testRunResult := testRunResult v;
                        abortTestRun := abortTestRun v |}
              | TestSetStatusPassed =>
                lift ECall (call_ (ProcessTestRunStatus (requestMockemulator r) true testSetID)
                                  (CProcessTestRunStatus true testSetID));;
                mret {| testSetResult := true;
                        testRunResult := testRunResult v;
                        abortTestRun := abortTestRun v |}
              | _ => mret v
              end;
          let v := {| testSetResult := testSetResult v;
                      testRunResult := testRunResult v && testSetResult v;
                      abortTestRun := abortTestRun v |} in
          if abortTestRun v then mret (LoopDone v)
          else
            _ ← lift ECall (call (AfterTestHook (requestMockemulator r) testRunID testSetID n)
                                 (CAfterTestHook testRunID testSetID n));
            Start_loop testRunID appID n rest v
        end
      end
  end.

(** [Start] up to its [return]: the error, the stop reason and the hook
    handle the deferred function finds. *)
Definition Start_body : M W Event (option error * string * bool) :=
  '(testSetIDs, err) ← lift ECall (call (GetAllTestSetIDs (testDB r)) CGetAllTestSetIDs);
  match err with
  | Some e =>
    let stopReason := "failed to get all test set ids: " +:+ Error e in
    if is_Canceled e then mret (Some e, stopReason, false)
    else mret (Some (fmt_Errorf stopReason), stopReason, false)
  | None =>
    if int_len testSetIDs =? 0 then
      let recordCmd := HighlightGrayString rt "keploy record" in
      let errMsg := "No test sets found in the keploy folder. Please record testcases using "
                    +:+ recordCmd +:+ " command" in
      mret (Some (fmt_Errorf errMsg), stopReason0, false)
    else
      '(testRunID, err) ← lift ECall GetNextTestRunID;
      match err with
      | Some e =>
        let stopReason := "failed to get next test run id: " +:+ Error e in
        if is_Canceled e then mret (Some e, stopReason, false)
        else mret (Some (fmt_Errorf stopReason), stopReason, false)
      | None =>
        '(inst, err) ← lift ECall Instrument;
        match err with
        | Some e =>
          let stopReason := "failed to instrument: " +:+ Error e in
          if is_Canceled e then mret (Some e, stopReason, false)
          else mret (Some (fmt_Errorf stopReason), stopReason, false)
        | None =>
          let hookCancel := HookCancel inst in
          exit ← Start_loop testRunID (AppID inst) (int_len testSetIDs) testSetIDs
                   {| testSetResult := false; testRunResult := true;
                      abortTestRun := false |};
          match exit with
          | Returned err stopReason => mret (err, stopReason, hookCancel)
          | LoopDone v =>
            let testRunStatus := if testRunResult v then "pass" else "fail" in
            s ← get;
            lift ECall (call_ (TestRun (telemetry r) (totalTestPassed s) (totalTestFailed s)
                                 (int_len testSetIDs) testRunStatus)
                              (CTestRun (totalTestPassed s) (totalTestFailed s)
                                 (int_len testSetIDs) testRunStatus));;
            (if abortTestRun v then mret tt
             else lift ECall (printSummary (testRunResult v)));;
            mret (None, stopReason0, hookCancel)
          end
        end
      end
  end.

(** [Start] (lines 68-194): the body, then the deferred function, which
    stops keploy unless the scope is already canceled, releases the hooks
    and waits for the error group. *)
Definition Start : M W Event (option error) :=
  '(err, stopReason, hookCancel) ← Start_body;
  canceled ← lift ECall observeCtx;
  (if canceled : bool then mret tt
   else _ ← lift ECall (call (utils_Stop rt stopReason) (CStop stopReason)); mret tt);;
  (if hookCancel : bool then lift ECall (emit CHookCancel) else mret tt);;
  mret err.

(** *** [NormalizeTestCases] and [Normalize] *)

(** [for _, testCaseResult := range testCaseResults
       { testCaseResultMap[testCaseResult.TestCaseID] = testCaseResult }] *)
Definition testCaseResultMap_of (testCaseResults : list TestResult)
  : gmap string TestResult :=
  foldl (λ m res, <[TestCaseID res := res]> m) ∅ testCaseResults.

Definition isTestStatusPassed (s : TestStatus) : bool :=
  match s with TestStatusPassed => true | _ => false end.

(** The loop over [selectedTestCases] (lines 854-867). *)
Fixpoint NormalizeTestCases_loop (testSetID : string)
    (testCaseResultMap : gmap string TestResult)
    (selectedTestCases : list TestCase) : M W Call (option error) :=
  match selectedTestCases with
  | [] => mret None
  | testCase :: rest =>
    match testCaseResultMap !! Name testCase with
    | None => NormalizeTestCases_loop testSetID testCaseResultMap rest
    | Some res =>
      if isTestStatusPassed (trStatus res)
      then NormalizeTestCases_loop testSetID testCaseResultMap rest
      else
        let testCase := tc_set_HTTPResp (trRes res) testCase in
        err ← call (UpdateTestCase (testDB r) testCase testSetID)
                   (CUpdateTestCase testCase testSetID);
        match err with
        | Some e => mret (Some (fmt_Errorf_w "failed to update test case: " e))
        | None => NormalizeTestCases_loop testSetID testCaseResultMap rest
        end
    end
  end.

Definition NormalizeTestCases (testRun testSetID : string)
    (selectedTestCaseIDs : list string) (testCaseResults : list TestResult)
  : M W Call (option error) :=
  res ← (if int_len testCaseResults =? 0 then
           '(testReport, err) ← call (GetReport (reportDB r) testRun testSetID)
                                     (CGetReport testRun testSetID);
           match err with
           | Some e => mret (inl (fmt_Errorf_w "failed to get test report: " e))
           | None => mret (inr (Tests testReport))
           end
         else mret (inr testCaseResults));
  match res with
  | inl e => mret (Some e)
  | inr testCaseResults =>
    '(testCases, err) ← call (GetTestCases (testDB r) testSetID)
                             (CGetTestCases testSetID);
    match err with
    | Some e => mret (Some (fmt_Errorf_w "failed to get test cases: " e))
    | None =>
      let selectedTestCases :=
        if int_len selectedTestCaseIDs =? 0 then testCases
        else filter (λ testCase, Name testCase ∈ ArrayToMap selectedTestCaseIDs)
                    testCases in
      NormalizeTestCases_loop testSetID (testCaseResultMap_of testCaseResults)
        selectedTestCases
    end
  end.

(** The loop over [r.config.Normalize.SelectedTests] (lines 811-818). *)
Fixpoint Normalize_loop (testRun : string) (selected : list SelectedTests)
  : M W Call (option error) :=
  match selected with
  | [] => mret None
  | testSet :: rest =>
    err ← NormalizeTestCases testRun (stTestSet testSet) (stTests testSet) [];
    match err with
    | Some e => mret (Some e)
    | None => Normalize_loop testRun rest
    end
  end.

(** [Normalize] (lines 784-821).  [testRun] is declared empty and assigned
    only inside the test on an empty configured run. *)
Definition Normalize : M W Call (option error) :=
  let testRun := "" in
  res ← (if String.eqb (nTestRun (Normalize_ cfg)) "" then
           '(testRunIDs, err) ← call (GetAllTestRunIDs (reportDB r)) CGetAllTestRunIDs;
           match err with
           | Some e =>
             if errors_Is_Canceled e then mret (inl e)
             else mret (inl (fmt_Errorf_w "failed to get all test run ids: " e))
           | None => mret (inr (LastID rt testRunIDs (TestRunTemplateName rt)))
           end
         else mret (inr testRun));
  match res with
  | inl e => mret (Some e)
  | inr testRun =>
    res ← (if int_len (nSelectedTests (Normalize_ cfg)) =? 0 then
             '(testSetIDs, err) ← call (GetAllTestSetIDs (testDB r)) CGetAllTestSetIDs;
             match err with
             | Some e =>
               if errors_Is_Canceled e then mret (inl e)
               else mret (inl (fmt_Errorf_w "failed to get all test set ids: " e))
             | None =>
               mret (inr (nSelectedTests (Normalize_ cfg) ++
                          ((λ testSetID, {| stTestSet := testSetID; stTests := [] |})
                             <$> testSetIDs)))
             end
           else mret (inr (nSelectedTests (Normalize_ cfg))));
    match res with
    | inl e => mret (Some e)
    | inr selected => Normalize_loop testRun selected
    end
  end.

End Replayer.

(** ** Runs

    [wp m Q s] holds when running [m] from [s] ends with a result, a state
    and a trace that satisfy [Q]. *)
Definition wp {W E A} (m : M W E A) (Q : A → St W → list E → Prop) (s : St W) : Prop :=
  Q (m s).1.1 (m s).1.2 (m s).2.

(** ** An in-memory world

    Stores kept in lists, an emulator that answers from a table of live
    responses, a matcher that compares status code and body, and a script
    of background events, one batch per observation point.  The concrete
    runs below use it. *)

Module Mem.

Record World := {
  testSets : list (string * list TestCase);
  testRuns : list string;
  reports : list (string * string * TestReport);
  results : list (string * string * TestResult);
  mocks : list (string * Mock);
  live : list (string * HTTPResp);
  consumed : list string;
  insertResultFails : bool;
  clock : Z;
  script : list (list BgEvent) }.

Definition lookup_assoc {A} (k : string) (l : list (string * A)) : option A :=
  snd <$> List.find (λ p, String.eqb (fst p) k) l.

Definition set_reports (x : list (string * string * TestReport)) (w : World) : World :=
  {| testSets := testSets w; testRuns := testRuns w; reports := x;
     results := results w; mocks := mocks w; live := live w;
     consumed := consumed w; insertResultFails := insertResultFails w;
     clock := clock w; script := script w |}.

Definition set_results (x : list (string * string * TestResult)) (w : World) : World :=
  {| testSets := testSets w; testRuns := testRuns w; reports := reports w;
     results := x; mocks := mocks w; live := live w;
     consumed := consumed w; insertResultFails := insertResultFails w;
     clock := clock w; script := script w |}.

Definition set_testSets (x : list (string * list TestCase)) (w : World) : World :=
  {| testSets := x; testRuns := testRuns w; reports := reports w;
     results := results w; mocks := mocks w; live := live w;
     consumed := consumed w; insertResultFails := insertResultFails w;
     clock := clock w; script := script w |}.

Definition tick (w : World) : World :=
  {| testSets := testSets w; testRuns := testRuns w; reports := reports w;
     results := results w; mocks := mocks w; live := live w;
     consumed := consumed w; insertResultFails := insertResultFails w;
     clock := clock w + 1; script := script w |}.

Definition next_batch (w : World) : list BgEvent * World :=
  (hd [] (script w),
   {| testSets := testSets w; testRuns := testRuns w; reports := reports w;
      results := results w; mocks := mocks w; live := live w;
      consumed := consumed w; insertResultFails := insertResultFails w;
      clock := clock w; script := tl (script w) |}).

Definition memTestDB : TestDB World := {|
  GetAllTestSetIDs w := ((fst <$> testSets w, None), w);
  GetTestCases id w := ((default [] (lookup_assoc id (testSets w)), None), w);
  UpdateTestCase tc id w :=
    (None,
     set_testSets
       ((λ p : string * list TestCase,
           if String.eqb (fst p) id
           then (fst p, (λ c, if String.eqb (Name c) (Name tc) then tc else c) <$> snd p)
           else p) <$> testSets w) w) |}.

Definition in_window (after before : Time) (m : Mock) : bool :=
  (after <=? mockReqTime m) && (mockResTime m <=? before).

Definition memMockDB : MockDB World := {|
  GetFilteredMocks id after before w :=
    ((snd <$> List.filter (λ p, String.eqb (fst p) id && in_window after before (snd p))
                (mocks w), None), w);
  GetUnFilteredMocks id after before w :=
    ((snd <$> List.filter (λ p, String.eqb (fst p) id && negb (in_window after before (snd p)))
                (mocks w), None), w);
  UpdateMocks id names w := (None, w) |}.

Definition emptyReport : TestReport :=
  {| Version := ""; rTestSet := ""; Status := ""; Total := 0; Success := 0;
     Failure := 0; Tests := [] |}.

Definition memReportDB : ReportDB World := {|
  GetAllTestRunIDs w := ((testRuns w, None), w);
  GetTestCaseResults run id w :=
    ((snd <$> List.filter (λ p, String.eqb (fst (fst p)) run && String.eqb (snd (fst p)) id)
                (results w), None), w);
  GetReport run id w :=
    match List.find (λ p, String.eqb (fst (fst p)) run && String.eqb (snd (fst p)) id)
            (reports w) with
    | Some p => ((snd p, None), w)
    | None => ((emptyReport, Some (errors_New "report not found")), w)
    end;
  InsertTestCaseResult run id res w :=
    if insertResultFails w then (Some (errors_New "disk full"), w)
    else (None, set_results (results w ++ [(run, id, res)]) w);
  InsertReport run id rep w := (None, set_reports ((run, id, rep) :: reports w) w) |}.

Definition memConf : TestSetConfig World := {|
  Read id w := ((Some {| PreScript := ""; PostScript := "" |}, None), w) |}.

Definition memTelemetry : Telemetry World := {|
  TestSetRun _ _ _ _ w := w;
  TestRun _ _ _ _ w := w |}.

Definition memInstrumentation : Instrumentation World := {|
  Setup cmd opts w := ((7%N, None), w);
  Hook id enableTesting w := (None, w);
  MockOutgoing id opts w := (None, w);
  SetMocks id filtered unfiltered w := (None, w);
  GetConsumedMocks id w := ((consumed w, None), w);
  GetContainerIP id w := (("172.17.0.2", None), w) |}.

Definition noResp : HTTPResp :=
  {| StatusCode := 0; RespHeader := []; RespBody := ""; RespTimestamp := 0 |}.

Definition memEmulator : RequestMockHandler World := {|
  SimulateRequest id tc testSetID w :=
    match lookup_assoc (Name tc) (live w) with
    | Some resp => ((resp, None), w)
    | None => ((noResp, Some (errors_New "connection refused")), w)
    end;
  ProcessTestRunStatus _ _ w := w;
  FetchMockName w := ("mocks", w);
  ProcessMockFile _ w := w;
  AfterTestHook _ _ _ w := (None, w) |}.

Definition memMatch (tc : TestCase) (actual : HTTPResp)
    (noise : gmap string (gmap string (list string))) (ignoreOrdering : bool)
  : bool * option Result :=
  let ok := (StatusCode (tcHTTPResp tc) =? StatusCode actual)
            && String.eqb (RespBody (tcHTTPResp tc)) (RespBody actual) in
  (ok, Some [("body", (RespBody (tcHTTPResp tc), RespBody actual), ok)]).

(** The part of a URL after its scheme and authority. *)
Definition pathOf (url : string) : string :=
  match String.index 0 "://" url with
  | Some i =>
    let rest := String.substring (i + 3) (String.length url) url in
    match String.index 0 "/" rest with
    | Some j => String.substring j (String.length rest) rest
    | None => ""
    end
  | None => url
  end.

(** A matcher that delivers no [Result]. *)
Definition nilMatch (tc : TestCase) (actual : HTTPResp)
    (noise : gmap string (gmap string (list string))) (ignoreOrdering : bool)
  : bool * option Result :=
  ((StatusCode (tcHTTPResp tc) =? StatusCode actual)
   && String.eqb (RespBody (tcHTTPResp tc)) (RespBody actual), None).

(** *** [fmt.Sprintf] of a format string without operands

    After [doPrintf] of Go's [fmt] package, on the bytes of the string:
    text is copied; of a verb, the flags, an argument index, the width and
    the precision are read and dropped, and the verb is reported as
    missing (after an argument index, as a bad index); a doubled percent
    sign is a percent sign. *)
Definition fmtFlag (c : N) : bool :=
  ((c =? 35) || (c =? 48) || (c =? 43) || (c =? 45) || (c =? 32))%N.

Definition fmtDigit (c : N) : bool := ((48 <=? c) && (c <=? 57))%N.

(** [parsenum]: whether a number was read, and what follows it; a number
    above a million gives up and skips the rest. *)
Fixpoint fmtNum (num : N) (isnum : bool) (l : list N) : bool * list N :=
  match l with
  | c :: l' =>
      if fmtDigit c then
        if (1000000 <? num)%N then (false, [])
        else fmtNum (num * 10 + (c - 48))%N true l'
      else (isnum, l)
  | [] => (isnum, [])
  end.

(** [parseArgNumber], on the bytes after the opening bracket: the number
    of bytes the index takes with its brackets, and whether it is well
    formed. *)
Definition fmtIndex (l : list N) : nat * bool :=
  if decide (List.length l < 2)%nat then (1%nat, false)
  else
    match list_find (λ c, c = 93%N) l with
    | Some (i, _) =>
        let '(isnum, rest) := fmtNum 0 false (take i l) in
        (S (S i), isnum && bool_decide (rest = []))
    | None => (1%nat, false)
    end.

(** [argNumber] without operands: where the format goes on, whether an
    index was read, and whether the verb still has a good argument (after
    an index it has none). *)
Definition fmtArgNumber (l : list N) (good : bool) : list N * bool * bool :=
  match l with
  | 91%N :: l' => let '(wid, ok) := fmtIndex l' in (drop wid l, ok, false)
  | _ => (l, false, good)
  end.

Definition fmtCont (lo hi c : N) : bool := ((lo <=? c) && (c <=? hi))%N.

Definition fmtRuneError : list N := [239; 191; 189]%N.

(** [utf8.DecodeRuneInString] and [writeRune]: the bytes written for the
    verb, and what follows it. *)
Definition fmtRune (l : list N) : list N * list N :=
  match l with
  | [] => ([], [])
  | c :: l' =>
      if (c <? 128)%N then ([c], l')
      else if ((c <? 194) || (244 <? c))%N then (fmtRuneError, l')
      else
        let size : nat :=
          if (c <? 224)%N then 2%nat else if (c <? 240)%N then 3%nat else 4%nat in
        let '(lo, hi) :=
          if (c =? 224)%N then (160, 191)%N
          else if (c =? 237)%N then (128, 159)%N
          else if (c =? 240)%N then (144, 191)%N
          else if (c =? 244)%N then (128, 143)%N
          else (128, 191)%N in
        if decide (List.length l < size)%nat then (fmtRuneError, l')
        else
          match l' with
          | c1 :: l1 =>
              if negb (fmtCont lo hi c1) then (fmtRuneError, l')
              else if decide (size = 2%nat) then ([c; c1], l1)
              else
                match l1 with
                | c2 :: l2 =>
                    if negb (fmtCont 128 191 c2) then (fmtRuneError, l')
                    else if decide (size = 3%nat) then ([c; c1; c2], l2)
                    else
                      match l2 with
                      | c3 :: l3 =>
                          if negb (fmtCont 128 191 c3) then (fmtRuneError, l')
                          else ([c; c1; c2; c3], l3)
                      | [] => (fmtRuneError, l')
                      end
                | [] => (fmtRuneError, l')
                end
          | [] => (fmtRuneError, l')
          end
  end.

Definition fmtBytes (s : string) : list N :=
  Ascii.N_of_ascii <$> String.list_ascii_of_string s.

Definition fmtString (l : list N) : string :=
  String.string_of_list_ascii (Ascii.ascii_of_N <$> l).

(** The flags of a verb are read and dropped. *)
Fixpoint fmtFlags (l : list N) : list N :=
  match l with
  | c :: l' => if fmtFlag c then fmtFlags l' else l
  | [] => []
  end.

Definition fmtText (s : string) : list N := fmtBytes s.

(** One verb, from the byte after the percent sign: what is written for
    it, and the rest of the format. *)
Definition fmtVerb (l : list N) : list N * list N :=
  let l := fmtFlags l in
  let '(l, afterIndex, good) := fmtArgNumber l true in
  let '(outw, l, afterIndex, good) :=
    match l with
    | 42%N :: l' => (fmtText "%!(BADWIDTH)", l', false, good)
    | _ => let '(isnum, l') := fmtNum 0 false l in
           ([], l', afterIndex, good && negb (afterIndex && isnum))
    end in
  let '(outp, l, afterIndex, good) :=
    match l with
    | 46%N :: l' =>
        let good := good && negb afterIndex in
        let '(l', afterIndex, good) := fmtArgNumber l' good in
        match l' with
        | 42%N :: l'' => (fmtText "%!(BADPREC)", l'', false, good)
        | _ => let '(_, l'') := fmtNum 0 false l' in ([], l'', afterIndex, good)
        end
    | _ => ([], l, afterIndex, good)
    end in
  let '(l, _, good) :=
    if afterIndex then (l, afterIndex, good) else fmtArgNumber l good in
  match l with
  | [] => (outw ++ outp ++ fmtText "%!(NOVERB)", [])
  | _ =>
      let '(verb, rest) := fmtRune l in
      (outw ++ outp ++
       (if decide (verb = [37%N]) then [37%N]
        else fmtText "%!" ++ verb
             ++ fmtText (if good then "(MISSING)" else "(BADINDEX)")),
       rest)
  end.

(** The loop over the format; every round takes at least one byte. *)
Fixpoint fmtLoop (fuel : nat) (l : list N) : list N :=
  match fuel, l with
  | S fuel, c :: l' =>
      if (c =? 37)%N then
        let '(out, rest) := fmtVerb l' in out ++ fmtLoop fuel rest
      else c :: fmtLoop fuel l'
  | _, _ => []
  end.

Definition go_Sprintf (format : string) : string :=
  let l := fmtBytes format in fmtString (fmtLoop (S (List.length l)) l).

(** The runtime of this world. *)
Definition memRuntime (matcher : TestCase → HTTPResp →
                         gmap string (gmap string (list string)) → bool →
                         bool * option Result) : Runtime World := {|
  time_Now w := (clock w, tick w);
  BaseTime := 0;
  ExecuteCommand _ w := (None, w);
  utils_Stop _ w := (None, w);
  ReplaceBaseURL base url := (base +:+ pathOf url, None);
  ReplaceHostToIP url ip := (url, None);
  IsDockerKind ct := String.eqb ct "docker";
  match_ := matcher;
  LeftJoinNoise g t := t ∪ g;
  NextID ids template := template +:+ "-next";
  LastID ids template := List.last ids (template +:+ "-0");
  TestRunTemplateName := "test-run";
  GetVersion := "api.keploy.io/v1beta1";
  HighlightGrayString s := s;
  fmt_Sprintf := go_Sprintf;
  filepath_Join parts :=
    match parts with
    | [] => ""
    | a :: rest => foldl (λ acc b, acc +:+ "/" +:+ b) a rest
    end;
  background := next_batch |}.

Definition testConfig : TestConfig :=
  {| BasePath := ""; Delay := 5; cfgSelectedTests := ∅;
     RemoveUnusedMocks := false; GlobalNoiseGlobal := ∅;
     GlobalNoiseTestsets := ∅; IgnoreOrdering := false;
     cfgMongoPassword := ""; cfgFallBackOnMiss := false;
     cfgMocking := true; GoCoverage := false |}.

Definition baseConfig (tc : TestConfig) (nc : NormalizeConfig) : Config :=
  {| Path := "keploy"; Command := "./app"; CommandType := "native";
     ContainerName := ""; NetworkName := ""; BuildDelay := 30;
     EnableTesting := false; BypassRules := [];
     Test := tc; Normalize_ := nc |}.

Definition replayerWith (matcher : TestCase → HTTPResp →
                           gmap string (gmap string (list string)) → bool →
                           bool * option Result) (c : Config) : Replayer World :=
  {| testDB := memTestDB; mockDB := memMockDB; reportDB := memReportDB;
     testSetConf := memConf; telemetry := memTelemetry;
     instrumentation := memInstrumentation; config := c;
     requestMockemulator := memEmulator; runtime := memRuntime matcher |}.

Definition replayer (c : Config) : Replayer World := replayerWith memMatch c.

Definition state0 (w : World) : St World :=
  {| world := w; ctxDone := false; completeTestReport := ∅;
     totalTests := 0; totalTestPassed := 0; totalTestFailed := 0 |}.

Definition mkReq (url : string) (ts : Time) : HTTPReq :=
  {| Method := "GET"; ProtoMajor := 1; ProtoMinor := 1; URL := url;
     URLParams := []; ReqHeader := []; ReqBody := ""; Binary := "";
     Form := []; ReqTimestamp := ts |}.

Definition mkResp (code : Z) (body : string) (ts : Time) : HTTPResp :=
  {| StatusCode := code; RespHeader := []; RespBody := body; RespTimestamp := ts |}.

Definition mkCase (name url : string) (t1 t2 : Time) (code : Z) (body : string)
  : TestCase :=
  {| Name := name; tcHTTPReq := mkReq url t1; tcHTTPResp := mkResp code body t2;
     tcNoise := ∅ |}.

Definition world0 : World :=
  {| testSets := []; testRuns := []; reports := []; results := [];
     mocks := []; live := []; consumed := []; insertResultFails := false;
     clock := 100; script := [] |}.

(** *** The runs used below *)

Definition noNormalize : NormalizeConfig := {| nTestRun := ""; nSelectedTests := [] |}.

Definition c1 : TestCase := mkCase "c1" "http://service.internal:8080/v1/x" 10 11 200 "ok".
Definition c2 : TestCase := mkCase "c2" "http://service.internal:8080/v1/y" 12 13 201 "made".

Definition m1 : Mock := {| mockName := "m1"; mockReqTime := 10; mockResTime := 11 |}.
Definition m2 : Mock := {| mockName := "m2"; mockReqTime := 12; mockResTime := 13 |}.
Definition m3 : Mock := {| mockName := "m3"; mockReqTime := 50; mockResTime := 51 |}.

(** One set with two cases; the application answers both as recorded. *)
Definition worldOK : World :=
  {| testSets := [("test-set-0", [c1; c2])]; testRuns := [];
     reports := []; results := [];
     mocks := [("test-set-0", m1); ("test-set-0", m2); ("test-set-0", m3)];
     live := [("c1", mkResp 200 "ok" 60); ("c2", mkResp 201 "made" 61)];
     consumed := ["m1"; "m2"]; insertResultFails := false;
     clock := 100; script := [] |}.

(** One set with one case; the application does not answer. *)
Definition worldDown : World :=
  {| testSets := [("test-set-0", [c1])]; testRuns := [];
     reports := []; results := []; mocks := [("test-set-0", m1)];
     live := []; consumed := []; insertResultFails := false;
     clock := 100; script := [] |}.

(** One set with one case that passes; the report store refuses results. *)
Definition worldDiskFull : World :=
  {| testSets := [("test-set-0", [c1])]; testRuns := [];
     reports := []; results := []; mocks := [("test-set-0", m1)];
     live := [("c1", mkResp 200 "ok" 60)]; consumed := ["m1"];
     insertResultFails := true;
     clock := 100; script := [] |}.

(** A set without test cases. *)
Definition worldEmptySet : World :=
  {| testSets := [("test-set-0", [])]; testRuns := [];
     reports := []; results := []; mocks := [];
     live := []; consumed := []; insertResultFails := false;
     clock := 100; script := [] |}.

(** [worldOK] with a second test set and a script for the background
    tasks: one batch of events per observation point ([Instrument], the
    warm-up delay, the check before each case, ...). *)
Definition worldScript (sc : list (list BgEvent)) : World :=
  {| testSets := [("test-set-0", [c1; c2]); ("test-set-1", [c2])];
     testRuns := []; reports := []; results := [];
     mocks := mocks worldOK; live := live worldOK; consumed := consumed worldOK;
     insertResultFails := false; clock := 100; script := sc |}.

Definition appStopped : AppError :=
  {| appErrorType := ErrAppStopped; appErr := Some (errors_New "exit status 1") |}.

Definition cfgPlain : Config := baseConfig testConfig noNormalize.

Definition cfgPrune : Config :=
  baseConfig
    {| BasePath := ""; Delay := 5; cfgSelectedTests := ∅;
       RemoveUnusedMocks := true; GlobalNoiseGlobal := ∅;
       GlobalNoiseTestsets := ∅; IgnoreOrdering := false;
       cfgMongoPassword := ""; cfgFallBackOnMiss := false;
       cfgMocking := true; GoCoverage := false |} noNormalize.

Definition cfgBasePath : Config :=
  baseConfig
    {| BasePath := "https://api.test/prefix"; Delay := 5; cfgSelectedTests := ∅;
       RemoveUnusedMocks := false; GlobalNoiseGlobal := ∅;
       GlobalNoiseTestsets := ∅; IgnoreOrdering := false;
       cfgMongoPassword := ""; cfgFallBackOnMiss := false;
       cfgMocking := true; GoCoverage := false |} noNormalize.

(** A past run "test-run-1" in which [c1] failed with a live body "new",
    and a configuration that asks to normalize from that run. *)
Definition failedResult : TestResult :=
  {| trName := "test-set-0"; trStatus := TestStatusFailed; trStarted := 1;
     trCompleted := 2; TestCaseID := "c1"; trReq := tcHTTPReq c1;
     trRes := mkResp 200 "new" 60; TestCasePath := ""; MockPath := "";
     trNoise := ∅; trResult := [] |}.

Definition pastReport : TestReport :=
  {| Version := "api.keploy.io/v1beta1"; rTestSet := "test-set-0";
     Status := "FAILED"; Total := 1; Success := 0; Failure := 1;
     Tests := [failedResult] |}.

Definition worldPastRun : World :=
  {| testSets := [("test-set-0", [c1])]; testRuns := ["test-run-1"];
     reports := [("test-run-1", "test-set-0", pastReport)]; results := [];
     mocks := []; live := []; consumed := []; insertResultFails := false;
     clock := 100; script := [] |}.

Definition cfgNormalize (run : string) : Config :=
  baseConfig testConfig {| nTestRun := run; nSelectedTests := [] |}.

End Mem.

(** ** What is looked for in a trace *)

(** Calls that write to a store. *)
Definition isWrite (c : Call) : bool :=
  match c with
  | CInsertReport _ _ _ _ | CInsertTestCaseResult _ _ _ _
  | CUpdateMocks _ _ _ | CUpdateTestCase _ _ _ => true
  | _ => false
  end.

(** An event of [Start] that neither runs a test set nor writes. *)
Definition readOnly (e : Event) : bool :=
  match e with
  | ECall c => negb (isWrite c)
  | ERunTestSet _ _ _ _ => false
  end.

Definition isRunTestSet (e : Event) : bool :=
  match e with ERunTestSet _ _ _ _ => true | ECall _ => false end.

(** The calls of the deferred function of [Start]. *)
Definition isCleanup (e : Event) : bool :=
  match e with
  | ECall (CBackground _) | ECall (CStop _ _) | ECall CHookCancel => true
  | _ => false
  end.

Definition noTestSetsError {W} (r : Replayer W) : error :=
  fmt_Errorf r ("No test sets found in the keploy folder. Please record testcases using "
                +:+ HighlightGrayString (runtime r) "keploy record" +:+ " command").

(** *** Footprints: the kinds of call each part of [RunTestSet] makes *)

Definition isMockCall (c : Call) : bool :=
  match c with
  | CGetFilteredMocks _ _ _ _ | CGetUnFilteredMocks _ _ _ _
  | CMockOutgoing _ _ _ | CSetMocks _ _ _ _ => true
  | _ => false
  end.

Definition isScriptCall (c : Call) : bool :=
  match c with CExecuteCommand _ _ => true | _ => false end.

Definition isLoopCall (c : Call) : bool :=
  match c with
  | CBackground _
  | CGetFilteredMocks _ _ _ _ | CGetUnFilteredMocks _ _ _ _
  | CMockOutgoing _ _ _ | CSetMocks _ _ _ _
  | CNow _ | CSimulateRequest _ _ _ _ | CGetConsumedMocks _ _
  | CFetchMockName _ | CInsertTestCaseResult _ _ _ _ | CSleep _ => true
  | _ => false
  end.

Definition isStatusCall (c : Call) : bool :=
  match c with
  | CExecuteCommand _ _ | CGetTestCaseResults _ _ _ | CBackground _ => true
  | _ => false
  end.

Definition isSealCall (c : Call) : bool :=
  match c with
  | CInsertReport _ _ _ _ | CUpdateMocks _ _ _
  | CPrintTestSetSummary _ _ _ _ | CTestSetRun _ _ _ _ => true
  | _ => false
  end.

Definition isFinishCall (c : Call) : bool := isStatusCall c || isSealCall c.

(** From the seeding of the report on. *)
Definition isReportCall (c : Call) : bool :=
  isLoopCall c || isFinishCall c.

(** From the start of the tasks on. *)
Definition isSuperviseCall (c : Call) : bool :=
  match c with
  | CGoRunApplication _ | CGetContainerIP _ _ => true
  | _ => isReportCall c
  end.

(** The package-level variables are the same in two states. *)
Definition sameGlobals {W} (s s' : St W) : Prop :=
  completeTestReport s' = completeTestReport s
  ∧ totalTests s' = totalTests s
  ∧ totalTestPassed s' = totalTestPassed s
  ∧ totalTestFailed s' = totalTestFailed s.

(** *** Views of a trace *)

(** The names fetched by [GetConsumedMocks], in call order. *)
Definition consumedOf (c : Call) : list string :=
  match c with CGetConsumedMocks _ (names, _) => names | _ => [] end.
Definition consumedNames (t : list Call) : list string := t ≫= consumedOf.

(** The [UpdateMocks] calls: test set and argument. *)
Definition updateOf (c : Call) : list (string * gmap string bool) :=
  match c with CUpdateMocks id m _ => [(id, m)] | _ => [] end.
Definition updateMocksCalls (t : list Call) : list (string * gmap string bool) :=
  t ≫= updateOf.

(** The reports handed to [InsertReport]; the last one is the terminal
    report of the set. *)
Definition reportOf (c : Call) : list TestReport :=
  match c with CInsertReport _ _ rep _ => [rep] | _ => [] end.
Definition finalReport (t : list Call) : option TestReport := last (t ≫= reportOf).

(** What a run of [RunTestSet] for the set [id] with result [res] and
    trace [t] does about pruning: [UpdateMocks] is not called, or it is
    called once, pruning is enabled, no base path is configured, the run
    returned [PASSED], the terminal report says so, and the argument holds
    the names fetched by [GetConsumedMocks] during the run. *)
Definition pruneSpec (c : Config) (id : string)
    (res : TestSetStatus * option error) (t : list Call) : Prop :=
  updateMocksCalls t = []
  ∨ (updateMocksCalls t = [(id, add_consumed (consumedNames t) ∅)]
     ∧ RemoveUnusedMocks (Test c) = true
     ∧ BasePath (Test c) = ""
     ∧ res = (TestSetStatusPassed, None)
     ∧ ∃ rep, finalReport t = Some rep ∧ Status rep = "PASSED").

(** *** The mock protocol: fetching and installing mock windows, and
    simulating requests *)

Definition isMockProtocol (c : Call) : bool :=
  match c with
  | CGetFilteredMocks _ _ _ _ | CGetUnFilteredMocks _ _ _ _
  | CSetMocks _ _ _ _ | CSimulateRequest _ _ _ _ => true
  | _ => false
  end.

Definition mockProtoOf (c : Call) : list Call :=
  if isMockProtocol c then [c] else [].

Definition mockView (t : list Call) : list Call := t ≫= mockProtoOf.

Definition isSimulate (c : Call) : bool :=
  match c with CSimulateRequest _ _ _ _ => true | _ => false end.

(** A successful [SetupOrUpdateMocks] for the window [[after, before]]: both
    mock sets of the window are fetched and handed to [SetMocks]. *)
Definition mockWindow (app : N) (id : string) (after before : Time)
    (f u : list Mock) : list Call :=
  [CGetFilteredMocks id after before (f, None);
   CGetUnFilteredMocks id after before (u, None);
   CSetMocks app f u None].

(** A test case that reached [SimulateRequest]: the case as sent, the mocks
    of its window, and what the emulator returned. *)
Record Driven := {
  dCase : TestCase;
  dFiltered : list Mock;
  dUnfiltered : list Mock;
  dResp : HTTPResp * option error }.

Definition caseView (app : N) (id : string) (d : Driven) : list Call :=
  mockWindow app id (ReqTimestamp (tcHTTPReq (dCase d)))
    (RespTimestamp (tcHTTPResp (dCase d))) (dFiltered d) (dUnfiltered d)
  ++ [CSimulateRequest app (dCase d) id (dResp d)].

(** The mock protocol of a run for the set [id]: no request is simulated,
    or the first window is [[BaseTime, now]] with [now] read from the clock
    just before, followed by the window and the request of each driven
    case, and then at most an unfinished step without a request. *)
Definition protoSpec {W} (r : Replayer W) (app : N) (id : string)
    (t : list Call) : Prop :=
  Forall (λ c, isSimulate c = false) (mockView t)
  ∨ ∃ now f0 u0 driven tail,
      mockView t = mockWindow app id (BaseTime (runtime r)) now f0 u0
                   ++ (driven ≫= caseView app id) ++ tail
      ∧ Forall (λ c, isSimulate c = false) tail
      ∧ ∃ t1 t2, t = t1 ++ CNow now
                      :: CGetFilteredMocks id (BaseTime (runtime r)) now (f0, None)
                      :: t2
                 ∧ mockView t1 = [].

(** *** The classification of application errors, in the words of the
    specification

    [ErrCommandError] is [FAULT_USER_APP]; [ErrAppStopped], [ErrUnExpected]
    and unrecognized kinds are [APP_HALTED]; [ErrInternal] is
    [INTERNAL_ERR]; [ErrCtxCanceled] sets no status. *)
Definition classifySpec (k : AppErrorType) : option TestSetStatus :=
  match k with
  | ErrCommandError => Some TestSetStatusFaultUserApp
  | ErrAppStopped | ErrUnExpected | ErrUnrecognized _ => Some TestSetStatusAppHalted
  | ErrInternal => Some TestSetStatusInternalErr
  | ErrCtxCanceled => None
  end.

(** What [RunTestSet] returns next to [USER_ABORT]: no error, or
    [context.Canceled] after a run that wrote nothing. *)
Definition userAbortSpec (res : TestSetStatus * option error) (t : list Call) : Prop :=
  res.1 = TestSetStatusUserAbort →
  res.2 = None
  ∨ (res.2 = Some context_Canceled ∧ Forall (λ c, isWrite c = false) t).

(** When the trace [t] of [RunTestSet] holds a successful [InsertReport] of
    a report whose status is not [RUNNING], the function returned that
    status and no error. *)
Definition terminalSpec (res : TestSetStatus * option error) (t : list Call) : Prop :=
  ∀ run id rep st,
    CInsertReport run id rep None ∈ t →
    Status rep = TestSetStatus_string st →
    st ≠ TestSetStatusRunning →
    res = (st, None).

Definition isInsertReport (c : Call) : bool :=
  match c with CInsertReport _ _ _ _ => true | _ => false end.

(** The calls of a run before its first [InsertReport], that is, before
    the report of the set is seeded. *)
Fixpoint beforeReport (t : list Call) : list Call :=
  match t with
  | [] => []
  | c :: t' => if isInsertReport c then [] else c :: beforeReport t'
  end.

(** The parent scope is canceled during the warm-up delay: the [select] of
    the delay is the only point at which [RunTestSet] looks at its scope
    before the report is seeded, so the cancellation is among the events
    observed before the first [InsertReport]. *)
Definition canceledInWarmup (t : list Call) : Prop :=
  CBackground ParentCanceled ∈ beforeReport t.

(** What a cancellation during the warm-up delay leads to: [RunTestSet]
    returns [USER_ABORT] with [context.Canceled], and has written
    nothing. *)
Definition warmupSpec (res : TestSetStatus * option error) (t : list Call) : Prop :=
  canceledInWarmup t →
  res = (TestSetStatusUserAbort, Some context_Canceled)
  ∧ Forall (λ c, isWrite c = false) t.

(** The calls [RunTestSet] makes before the warm-up delay, and
    [GetContainerIP] after it. *)
Definition isSetupCall (c : Call) : bool :=
  match c with
  | CConfRead _ _ | CExecuteCommand _ _ | CGetTestCases _ _ | CNow _
  | CGetFilteredMocks _ _ _ _ | CGetUnFilteredMocks _ _ _ _
  | CMockOutgoing _ _ _ | CSetMocks _ _ _ _
  | CGoRunApplication _ | CGetContainerIP _ _ => true
  | _ => false
  end.

(** What holds of every test set [Start] runs, as to the warm-up. *)
Definition warmupOK (ev : Event) : Prop :=
  match ev with
  | ERunTestSet _ calls st e => warmupSpec (st, e) calls
  | ECall _ => True
  end.

(** *** How a run of [Start] ends *)

(** The test set of the event [ev] ended with status [st]: [RunTestSet]
    returned [st] and a nil error, or it wrote its terminal report with
    status [st]. *)
Definition endedWith (st : TestSetStatus) (ev : Event) : Prop :=
  match ev with
  | ERunTestSet _ calls st0 e =>
      (st0 = st ∧ e = None)
      ∨ ∃ run id rep, CInsertReport run id rep None ∈ calls
                      ∧ Status rep = TestSetStatus_string st
  | ECall _ => False
  end.

(** What holds of every test set [Start] runs. *)
Definition eventOK (ev : Event) : Prop :=
  match ev with
  | ERunTestSet _ calls st e => terminalSpec (st, e) calls
  | ECall _ => True
  end.


Definition isAbortStatus (st : TestSetStatus) : bool :=
  match st with
  | TestSetStatusAppHalted | TestSetStatusInternalErr
  | TestSetStatusFaultUserApp => true
  | _ => false
  end.

Definition isUserAbort (st : TestSetStatus) : bool :=
  match st with TestSetStatusUserAbort => true | _ => false end.

(** An event after which [Start] goes on: a call of its own, or a test set
    that returned no error and a status that neither aborts the run nor is
    [USER_ABORT]. *)
Definition continues (e : Event) : bool :=
  match e with
  | ECall _ => true
  | ERunTestSet _ _ st None => negb (isAbortStatus st) && negb (isUserAbort st)
  | ERunTestSet _ _ _ (Some _) => false
  end.

Definition runTestSetError {W} (r : Replayer W) (e : error) : error :=
  if is_Canceled e then e
  else fmt_Errorf r ("failed to run test set: " +:+ Error e).

(** The events after the test set that stopped the run, and the error
    [Start] returns. *)
Definition afterStop {W} (r : Replayer W) (st : TestSetStatus)
    (e : option error) (err : option error) (tail : list Event) : Prop :=
  match e with
  | Some e' =>
      err = Some (runTestSetError r e') ∧ Forall (λ x, isCleanup x = true) tail
  | None =>
      if isAbortStatus st then
        err = None
        ∧ ∃ p f n cleanup,
            tail = ECall (CTestRun p f n "fail") :: cleanup
            ∧ Forall (λ x, isCleanup x = true) cleanup
      else
        st = TestSetStatusUserAbort ∧ err = None
        ∧ Forall (λ x, isCleanup x = true) tail
  end.

(** A run of [Start] with result [err] and trace [t]: every test set let
    the run go on, or the run stopped at one test set. *)
Definition startSpec {W} (r : Replayer W) (err : option error)
    (t : list Event) : Prop :=
  Forall (λ x, continues x = true) t
  ∨ ∃ pre id calls st e tail,
      t = pre ++ ERunTestSet id calls st e :: tail
      ∧ Forall (λ x, continues x = true) pre
      ∧ userAbortSpec (st, e) calls
      ∧ afterStop r st e err tail.

(** The same for the loop over the test sets alone. *)
Definition loopSpec {W} (r : Replayer W) (exit : StartLoopExit)
    (t : list Event) : Prop :=
  match exit with
  | LoopDone v' =>
      if abortTestRun v' then
        testRunResult v' = false
        ∧ ∃ pre id calls st,
            t = pre ++ [ERunTestSet id calls st None]
            ∧ Forall (λ x, continues x = true) pre
            ∧ isAbortStatus st = true
      else Forall (λ x, continues x = true) t
  | Returned err reason =>
      ∃ pre id calls st e,
        t = pre ++ [ERunTestSet id calls st e]
        ∧ Forall (λ x, continues x = true) pre
        ∧ userAbortSpec (st, e) calls
        ∧ match e with
          | Some e' => err = Some (runTestSetError r e')
          | None => st = TestSetStatusUserAbort ∧ err = None
          end
  end.

(** The calls of the test set at position [i] of a trace of [Start]. *)
Definition callsAt (t : list Event) (i : nat) : list Call :=
  match t !! i with
  | Some (ERunTestSet _ calls _ _) => calls
  | _ => []
  end.

(** Every report a trace asks [GetReport] for belongs to the run [run]. *)
Definition reportsOfRun (run : string) (t : list Call) : Prop :=
  Forall (λ c, match c with CGetReport run' _ _ => run' = run | _ => True end) t.

(** The report of the [InsertReport] call at position [i] of a trace. *)
Definition reportAt (t : list Call) (i : nat) : TestReport :=
  match t !! i with
  | Some (CInsertReport _ _ rep _) => rep
  | _ => {| Version := ""; rTestSet := ""; Status := ""; Total := 0;
            Success := 0; Failure := 0; Tests := [] |}
  end.

(** ** More views of a run of [RunTestSet] *)

(** The package-level variables of a state. *)
Definition globals {W} (s : St W)
  : gmap string TestReportVerdict * Z * Z * Z :=
  (completeTestReport s, totalTests s, totalTestPassed s, totalTestFailed s).

(** The calls [RunTestSet] makes before it seeds the report of the set. *)
Definition isPreCall (c : Call) : bool :=
  match c with
  | CConfRead _ _ | CExecuteCommand _ _ | CGetTestCases _ _ | CNow _
  | CGetFilteredMocks _ _ _ _ | CGetUnFilteredMocks _ _ _ _
  | CMockOutgoing _ _ _ | CSetMocks _ _ _ _
  | CGoRunApplication _ | CBackground _ | CGetContainerIP _ _ => true
  | _ => false
  end.

(** What the watcher task stores in [testSetStatusByErrChan]. *)
Definition isErrChanStatus (st : TestSetStatus) : bool :=
  match st with
  | TestSetStatusFaultUserApp | TestSetStatusAppHalted
  | TestSetStatusInternalErr | TestSetStatusUserAbort => true
  | _ => false
  end.

(** The channels and the stored status agree: nothing was sent on
    [exitLoopChan] while [testSetStatusByErrChan] is still [RUNNING], and
    otherwise the watcher stored one of its four statuses. *)
Definition tasksOK (t : Tasks) : Prop :=
  (testSetStatusByErrChan t = TestSetStatusRunning ∧ exitLoopChan t = O)
  ∨ isErrChanStatus (testSetStatusByErrChan t) = true.

(** The statuses the [switch] of [Start] names. *)
Definition isSwitchStatus (st : TestSetStatus) : bool :=
  match st with
  | TestSetStatusRunning | TestSetStatusFaultScript => false
  | _ => true
  end.

Definition preScriptError (e : error) : error :=
  fmt_Errorf_w "failed to execute pre-script: "
    (fmt_Errorf_w "failed to execute script: " e).

(** What [RunTestSet] returns when it returns before seeding the report,
    [t] being its calls: [PASSED] for a set without test cases, an error
    with [FAILED], [context.Canceled] with [USER_ABORT], or, with
    [FAULT_SCRIPT], the error of the pre-script, whose command is then the
    last call. *)
Definition earlyResult (res : TestSetStatus * option error) (t : list Call) : Prop :=
  res = (TestSetStatusPassed, None)
  ∨ (∃ e, res = (TestSetStatusFailed, Some e))
  ∨ res = (TestSetStatusUserAbort, Some context_Canceled)
  ∨ (∃ script e t0, res = (TestSetStatusFaultScript, Some (preScriptError e))
                    ∧ t = t0 ++ [CExecuteCommand script (Some e)]).

(** The pairs of status and error [RunTestSet] returns. *)
Definition resultSpec (res : TestSetStatus * option error) : Prop :=
  match res.2 with
  | None => isSwitchStatus res.1 = true
  | Some e =>
      res.1 = TestSetStatusFailed
      ∨ res.1 = TestSetStatusFaultScript
      ∨ (res.1 = TestSetStatusUserAbort ∧ e = context_Canceled)
      ∨ (res.1 = TestSetStatusInternalErr ∧ e = errors_New "failed to insert report")
  end.

(** The requests handed to [SimulateRequest], with what came back. *)
Definition simOf (c : Call) : list (TestCase * (HTTPResp * option error)) :=
  match c with CSimulateRequest _ tc _ res => [(tc, res)] | _ => [] end.
Definition simulated (t : list Call) : list (TestCase * (HTTPResp * option error)) :=
  t ≫= simOf.

(** The verdict of the comparison for a simulated request: [Some true]
    when the response matched, [Some false] when it differed, [None] when
    no response came back. *)
Definition verdictOf {W} (r : Replayer W) (id : string)
    (x : TestCase * (HTTPResp * option error)) : option bool :=
  match x.2.2 with
  | None => Some (compareResp r x.1 x.2.1 id).1
  | Some _ => None
  end.

(** The requests counted as a success, and those counted as a failure (no
    response, or one that differed). *)
Definition countsSuccess {W} (r : Replayer W) (id : string)
    (x : TestCase * (HTTPResp * option error)) : bool :=
  match verdictOf r id x with Some true => true | _ => false end.

Definition countsFailure {W} (r : Replayer W) (id : string)
    (x : TestCase * (HTTPResp * option error)) : bool :=
  negb (countsSuccess r id x).

(** [n] times [x++] on a Go [int]. *)
Definition int_incr (n : nat) (x : Z) : Z := Nat.iter n (λ y, int_add y 1) x.

(** The selection of test cases of a set, as [RunTestSet] reads it from the
    configuration, and the test cases the loop does not skip. *)
Definition selectedTestsOf (c : Config) (id : string) : gset string :=
  ArrayToMap (default [] (cfgSelectedTests (Test c) !! id)).

Definition isSelected (sel : gset string) (tc : TestCase) : bool :=
  negb (negb (bool_decide (Name tc ∈ sel)) && negb (map_len sel =? 0)).

(** [testCasesCount]: the [Total] of both reports of a set. *)
Definition testCasesCountOf (c : Config) (id : string) (tcs : list TestCase) : Z :=
  if negb (map_len (selectedTestsOf c id) =? 0) then map_len (selectedTestsOf c id)
  else int_len tcs.

(** The report [RunTestSet] seeds before the loop. *)
Definition seedReport {W} (r : Replayer W) (id : string) (tcs : list TestCase)
  : TestReport :=
  {| Version := GetVersion (runtime r); rTestSet := "";
     Status := "RUNNING"; Total := testCasesCountOf (config r) id tcs;
     Success := 0; Failure := 0; Tests := [] |}.

(** The results handed to [InsertTestCaseResult]. *)
Definition resultOf (c : Call) : list TestResult :=
  match c with CInsertTestCaseResult _ _ res _ => [res] | _ => [] end.

(** The [InsertReport] calls: run, test set, report and result. *)
Definition insertReportOf (c : Call)
  : list (string * string * TestReport * option error) :=
  match c with CInsertReport run id rep e => [(run, id, rep, e)] | _ => [] end.

(** The terminal report of a run: the second report handed to
    [InsertReport]. *)
Definition terminalReport (t : list Call) : option TestReport :=
  match t ≫= reportOf with
  | [_; rep] => Some rep
  | _ => None
  end.

(** The [TestSetRun] telemetry events. *)
Definition testSetRunOf (c : Call) : list (Z * Z * string * string) :=
  match c with CTestSetRun sc fl id st => [(sc, fl, id, st)] | _ => [] end.

(** The results read back by [GetTestCaseResults]. *)
Definition readBackOf (c : Call) : list (list TestResult) :=
  match c with CGetTestCaseResults _ _ (results, _) => [results] | _ => [] end.

(** The test cases a run fetched. *)
Definition fetchedOf (c : Call) : list (list TestCase) :=
  match c with CGetTestCases _ (tcs, None) => [tcs] | _ => [] end.

(** A run that returned before the report of the set was seeded: it made
    only calls of the kinds above and left the package-level variables [g]
    as they were. *)
Definition returnsEarly {W} (g : gmap string TestReportVerdict * Z * Z * Z)
    (res : TestSetStatus * option error) (s' : St W) (t : list Call) : Prop :=
  Forall (λ c, isPreCall c = true) t ∧ globals s' = g ∧ earlyResult res t.

(** A run that got as far as seeding the report: its trace [t] is a prefix
    of calls that left the package-level variables [g] alone, followed by
    the trace of [RunTestSet_report] on the test cases [tcs]. *)
Definition reaches {W} (r : Replayer W) (id run : string) (app : N)
    (g : gmap string TestReportVerdict * Z * Z * Z)
    (res : TestSetStatus * option error) (s' : St W) (t : list Call)
    (tcs : list TestCase) : Prop :=
  ∃ pre t' post ip tk s1,
    t = pre ++ t'
    ∧ Forall (λ c, isPreCall c = true) pre
    ∧ RunTestSet_report r id run app post ip tcs tk s1 = (res, s', t')
    ∧ globals s1 = g
    ∧ tasksOK tk.

(** How a run of [RunTestSet] is put together. *)
Definition runInv {W} (r : Replayer W) (id run : string) (app : N)
    (g : gmap string TestReportVerdict * Z * Z * Z)
    (res : TestSetStatus * option error) (s' : St W) (t : list Call) : Prop :=
  returnsEarly g res s' t
  ∨ ∃ tcs, tcs ≠ [] ∧ t ≫= fetchedOf = [tcs] ∧ reaches r id run app g res s' t tcs.

Definition countOf {A} (f : A → bool) (l : list A) : nat :=
  length (List.filter f l).

(** What the variables of the loop say after the requests [sims] were
    simulated, [v] being the variables before and [v'] those after: the
    two counters went up once for each request counted as a success or as
    a failure; [testSetStatus] is still [PASSED] only if it was and no
    response differed; it is [FAILED] only if it was or a response
    differed. *)
Definition loopVarsSpec {W} (r : Replayer W) (id : string) (v v' : LoopVars)
    (sims : list (TestCase * (HTTPResp * option error))) : Prop :=
  success v' = int_incr (countOf (countsSuccess r id) sims) (success v)
  ∧ failure v' = int_incr (countOf (countsFailure r id) sims) (failure v)
  ∧ tasksOK (tasks v')
  ∧ isSwitchStatus (testSetStatus v') = true
  ∧ (testSetStatus v' = TestSetStatusPassed →
     testSetStatus v = TestSetStatusPassed
     ∧ Forall (λ x, verdictOf r id x ≠ Some false) sims)
  ∧ (testSetStatus v' = TestSetStatusFailed →
     testSetStatus v = TestSetStatusFailed
     ∨ Exists (λ x, verdictOf r id x = Some false) sims).

(** The terminal report of a set: [sims] are the requests simulated,
    [results] the results read back from the report store, [st] the final
    value of [testSetStatus]. *)
Definition terminalReportOf {W} (r : Replayer W) (id : string)
    (tcs : list TestCase) (sims : list (TestCase * (HTTPResp * option error)))
    (results : list TestResult) (st : TestSetStatus) : TestReport :=
  {| Version := GetVersion (runtime r); rTestSet := id;
     Status := TestSetStatus_string st;
     Total := testCasesCountOf (config r) id tcs;
     Success := int_incr (countOf (countsSuccess r id) sims) 0;
     Failure := int_incr (countOf (countsFailure r id) sims) 0;
     Tests := results |}.

(** The package-level variables [g'] after the terminal report [rep] of
    the set [id] was recorded with final status [st], from [g]. *)
Definition sealedGlobals (id : string) (rep : TestReport) (st : TestSetStatus)
    (g g' : gmap string TestReportVerdict * Z * Z * Z) : Prop :=
  let '(verdicts, tests, testsPassed, testsFailed) := g in
  g' = (<[id := {| total := Total rep; passed := Success rep;
                   failed := Failure rep;
                   status := TestSetStatus_eqb st TestSetStatusPassed |}]> verdicts,
        int_add tests (Total rep),
        int_add testsPassed (Success rep),
        int_add testsFailed (Failure rep)).

Definition postScriptError (e : error) : error :=
  fmt_Errorf_w "failed to execute post-script: "
    (fmt_Errorf_w "failed to execute script: " e).

(** How [RunTestSet] ends once the terminal report [rep] is handed to
    [InsertReport] with result [e1]: [body] are the calls after the seeding
    of the report, [g] the package-level variables before the run. *)
Definition sealSpec (id : string) (rep : TestReport) (st : TestSetStatus)
    (e1 : option error) (g g' : gmap string TestReportVerdict * Z * Z * Z)
    (res : TestSetStatus * option error) (body : list Call) : Prop :=
  match e1 with
  | Some _ =>
      res = (TestSetStatusInternalErr, Some (errors_New "failed to insert report"))
      ∧ g' = g
      ∧ body ≫= testSetRunOf = []
  | None =>
      res = (st, None)
      ∧ sealedGlobals id rep st g g'
      ∧ body ≫= testSetRunOf = [(Success rep, Failure rep, id, Status rep)]
  end.

(** What [RunTestSet] does from the seeding of the report on, for the test
    cases [tcs] and package-level variables [g]: the seeding fails; or the
    post-script fails and the seeded report is the only one; or a terminal
    report is handed to [InsertReport]. *)
Definition reportSpec {W} (r : Replayer W) (id run : string)
    (tcs : list TestCase) (g : gmap string TestReportVerdict * Z * Z * Z)
    (res : TestSetStatus * option error) (s' : St W) (t : list Call) : Prop :=
  (∃ e, t = [CInsertReport run id (seedReport r id tcs) (Some e)]
        ∧ res = (TestSetStatusFailed, Some e) ∧ globals s' = g)
  ∨ ∃ body, t = CInsertReport run id (seedReport r id tcs) None :: body
      ∧ ((∃ body' post e,
            body = body' ++ [CExecuteCommand post (Some e)]
            ∧ body' ≫= insertReportOf = []
            ∧ body ≫= testSetRunOf = []
            ∧ res = (TestSetStatusFaultScript, Some (postScriptError e))
            ∧ globals s' = g
            ∧ nonempty (BasePath (Test (config r))) = true)
         ∨ (∃ st results e1,
              let rep := terminalReportOf r id tcs (simulated body) results st in
              body ≫= insertReportOf = [(run, id, rep, e1)]
              ∧ body ≫= readBackOf = [results]
              ∧ isSwitchStatus st = true
              ∧ (st = TestSetStatusPassed →
                 Forall (λ x, verdictOf r id x ≠ Some false) (simulated body))
              ∧ (st = TestSetStatusFailed →
                 Exists (λ x, verdictOf r id x = Some false) (simulated body))
              ∧ sealSpec id rep st e1 g (globals s') res body)).

(** A run of [RunTestSet] on package-level variables [g]: it returns
    before the report is seeded; or it fetched the test cases [tcs], made
    the calls [pre] and then did what [reportSpec] says. *)
Definition runSpec {W} (r : Replayer W) (id run : string)
    (g : gmap string TestReportVerdict * Z * Z * Z)
    (res : TestSetStatus * option error) (s' : St W) (t : list Call) : Prop :=
  returnsEarly g res s' t
  ∨ ∃ tcs pre t',
      tcs ≠ []
      ∧ t ≫= fetchedOf = [tcs]
      ∧ t = pre ++ t'
      ∧ Forall (λ c, isPreCall c = true) pre
      ∧ Forall (λ c, isReportCall c = true) t'
      ∧ reportSpec r id run tcs g res s' t'.

(** A simulated request that got no response. *)
Definition noResponse (x : TestCase * (HTTPResp * option error)) : bool :=
  match x.2.2 with Some _ => true | None => false end.

(** Calls to the mock store and to the instrumentation, and the start of
    the application. *)
Definition isInstrumentationCall (c : Call) : bool :=
  match c with
  | CGetFilteredMocks _ _ _ _ | CGetUnFilteredMocks _ _ _ _ | CUpdateMocks _ _ _
  | CMockOutgoing _ _ _ | CSetMocks _ _ _ _ | CGetConsumedMocks _ _
  | CGetContainerIP _ _ | CGoRunApplication _ => true
  | _ => false
  end.

(** Reading the configuration of a test set and running its scripts. *)
Definition isOverrideCall (c : Call) : bool :=
  match c with
  | CConfRead _ _ | CExecuteCommand _ _ => true
  | _ => false
  end.

(** The calls [RunTestSet] makes in each of its two modes: with a base
    path it leaves mocks, instrumentation and application alone; without
    one it reads no test-set configuration and runs no script. *)
Definition modeOK (c : Config) (call : Call) : bool :=
  if nonempty (BasePath (Test c)) then negb (isInstrumentationCall call)
  else negb (isOverrideCall call).

Definition isGoRun (c : Call) : bool :=
  match c with CGoRunApplication _ => true | _ => false end.

(** When the application is started in a run of [RunTestSet]: not at all,
    or once, by a run that does not serve the test itself, after
    [MockOutgoing] and [SetMocks] succeeded and before any request is
    simulated. *)
Definition appStartSpec (app : N) (serveTest : bool) (t : list Call) : Prop :=
  Forall (λ c, isGoRun c = false) t
  ∨ (serveTest = false
     ∧ ∃ pre rest opts f u,
         t = pre ++ CGoRunApplication app :: rest
         ∧ CMockOutgoing app opts None ∈ pre
         ∧ CSetMocks app f u None ∈ pre
         ∧ Forall (λ c, isGoRun c = false) pre
         ∧ Forall (λ c, isSimulate c = false) pre
         ∧ Forall (λ c, isGoRun c = false) rest).

(** The request [x] sent for the test case [tc]: the test case itself, up
    to the URL of its request. *)
Definition sentFor (x : TestCase * (HTTPResp * option error)) (tc : TestCase) : Prop :=
  x.1 = tc_set_URL (URL (tcHTTPReq x.1)) tc.

(** The requests [sims] were sent for the first of the selected test cases
    of [tcs], one each, in their order. *)
Definition orderSpec (sel : gset string) (tcs : list TestCase)
    (sims : list (TestCase * (HTTPResp * option error))) : Prop :=
  ∃ sent rest,
    List.filter (isSelected sel) tcs = sent ++ rest ∧ Forall2 sentFor sims sent.

(** The result [tr] records the request [tc] of the set [id] and its
    response [resp]. *)
Definition recordsSim {W} (r : Replayer W) (id : string) (tr : TestResult)
    (tc : TestCase) (resp : HTTPResp) : Prop :=
  trName tr = id
  ∧ TestCaseID tr = Name tc
  ∧ trReq tr = tcHTTPReq tc
  ∧ trRes tr = resp
  ∧ trNoise tr = tcNoise tc
  ∧ TestCasePath tr = filepath_Join (runtime r) [Path (config r); id]
  ∧ trStatus tr ≠ TestStatusRunning
  ∧ compareResp r tc resp id = (isTestStatusPassed (trStatus tr), Some (trResult tr)).

(** Every result handed to [InsertTestCaseResult] in the trace [t] is for
    the run [run] and the set [id] and records a request simulated in [t]
    that got a response; its two times are readings of the clock. *)
Definition resultsSpec {W} (r : Replayer W) (id run : string) (app : N)
    (t : list Call) : Prop :=
  ∀ run' id' tr e,
    CInsertTestCaseResult run' id' tr e ∈ t →
    run' = run ∧ id' = id
    ∧ CNow (trStarted tr) ∈ t ∧ CNow (trCompleted tr) ∈ t
    ∧ ∃ tc resp, CSimulateRequest app tc id (resp, None) ∈ t
                 ∧ recordsSim r id tr tc resp.

Definition isInsertResult (c : Call) : bool :=
  match c with CInsertTestCaseResult _ _ _ _ => true | _ => false end.

(** ** Views of a run of [Start] *)

(** The calls that start and release the hooks. *)
Definition hookOf (c : Call) : list Call :=
  match c with
  | CHook _ _ _ | CHookCancel => [c]
  | _ => []
  end.

Definition hookOfEvent (e : Event) : list Call :=
  match e with
  | ECall c => hookOf c
  | ERunTestSet _ calls _ _ => calls ≫= hookOf
  end.

(** An event without a call that starts or releases the hooks. *)
Definition noHook (e : Event) : Prop := hookOfEvent e = [].

(** The hooks in a trace of [Start], but for the case that none is
    started: [Hook] succeeded and its scope is not released yet; [Hook]
    failed and its scope was released at once; [Hook] succeeded and the
    release of its scope is the last event. *)
Definition hookOpen (t : list Event) : Prop :=
  ∃ pre app et mid,
    t = pre ++ ECall (CHook app et None) :: mid
    ∧ Forall noHook pre ∧ Forall noHook mid.

Definition hookFailed (t : list Event) : Prop :=
  ∃ pre app et e rest,
    t = pre ++ ECall (CHook app et (Some e)) :: ECall CHookCancel :: rest
    ∧ Forall noHook pre ∧ Forall noHook rest.

Definition hookReleased (t : list Event) : Prop :=
  ∃ pre app et mid,
    t = pre ++ ECall (CHook app et None) :: mid ++ [ECall CHookCancel]
    ∧ Forall noHook pre ∧ Forall noHook mid.

(** The calls of [utils.Stop]. *)
Definition stopOf (e : Event) : list (string * option error) :=
  match e with ECall (CStop reason res) => [(reason, res)] | _ => [] end.

(** The [TestRun] telemetry events. *)
Definition testRunOf (e : Event) : list (Z * Z * Z * string) :=
  match e with ECall (CTestRun p f n st) => [(p, f, n, st)] | _ => [] end.

(** The summaries printed. *)
Definition summaryOf (e : Event)
  : list (Z * Z * Z * gmap string TestReportVerdict * bool) :=
  match e with
  | ECall (CPrintSummary tot p f suites res) => [(tot, p, f, suites, res)]
  | _ => []
  end.

(** A trace of [Start] that ends with the [TestRun] event, the summary
    printed next, and then only calls of the deferred function. *)
Definition summaryLast (t : list Event) : Prop :=
  ∃ pre p f n st tot suites res cleanup,
    t = pre ++ ECall (CTestRun p f n st)
            :: ECall (CPrintSummary tot p f suites res) :: cleanup
    ∧ pre ≫= testRunOf = [] ∧ pre ≫= summaryOf = []
    ∧ Forall (λ x, isCleanup x = true) cleanup.

(** The test sets announced to the emulator ([inl]) and run ([inr]). *)
Definition setOf (e : Event) : list (string + string) :=
  match e with
  | ECall (CProcessMockFile id) => [inl id]
  | ERunTestSet id _ _ _ => [inr id]
  | _ => []
  end.

(** The test sets [Start] does not skip. *)
Definition isSelectedSet (c : Config) (id : string) : bool :=
  negb (negb (bool_decide (is_Some (cfgSelectedTests (Test c) !! id)))
        && negb (bool_decide (size (cfgSelectedTests (Test c)) = O))).

(** A test set that did not end [PASSED]. *)
Definition setNotPassed (e : Event) : bool :=
  match e with
  | ERunTestSet _ _ TestSetStatusPassed None => false
  | ERunTestSet _ _ _ _ => true
  | ECall _ => false
  end.

(** What [utils.Stop] is told, given the error [Start] returns: the
    reason is the format string of that error ([fmt.Errorf(stopReason)]);
    for [context.Canceled], a message that ends with its text; and
    "replay completed successfully" both when [Start] returns nil and when
    it found no test sets. *)
Definition stopReasonSpec {W} (r : Replayer W) (err : option error)
    (reason : string) : Prop :=
  match err with
  | None => reason = stopReason0
  | Some e =>
      (e = noTestSetsError r ∧ reason = stopReason0)
      ∨ e = fmt_Errorf r reason
      ∨ (e = context_Canceled ∧ ∃ p, reason = p +:+ "context canceled")
  end.

Definition isGetRunIDs (c : Call) : bool :=
  match c with CGetAllTestRunIDs _ => true | _ => false end.

(** The call [c] is for the test set [id], the run [run] and the
    application [app], as far as it names any of them. *)
Definition addressed (id run : string) (app : N) (c : Call) : Prop :=
  match c with
  | CGetTestCases id' _ | CConfRead id' _ | CUpdateMocks id' _ _
  | CGetFilteredMocks id' _ _ _ | CGetUnFilteredMocks id' _ _ _
  | CTestSetRun _ _ id' _ | CPrintTestSetSummary id' _ _ _ => id' = id
  | CInsertReport run' id' _ _ | CInsertTestCaseResult run' id' _ _
  | CGetTestCaseResults run' id' _ => run' = run ∧ id' = id
  | CSimulateRequest app' _ id' _ => app' = app ∧ id' = id
  | CMockOutgoing app' _ _ | CSetMocks app' _ _ _ | CGetConsumedMocks app' _
  | CGetContainerIP app' _ | CGoRunApplication app' => app' = app
  | _ => True
  end.

(** The event [e] of [Start] belongs to the run [run] against the
    application [app]: a test set makes only calls for itself, that run
    and that application; the run is the one after the stored runs; the
    application is the one [Setup] returned. *)
Definition ofRun {W} (r : Replayer W) (run : string) (app : N) (e : Event) : Prop :=
  match e with
  | ERunTestSet id calls _ _ => Forall (addressed id run app) calls
  | ECall (CGetAllTestRunIDs (ids, None)) =>
      run = NextID (runtime r) ids (TestRunTemplateName (runtime r))
  | ECall (CHook app' _ None) => app' = app
  | ECall (CAfterTestHook run' _ _ _) => run' = run
  | ECall _ => True
  end.

(** ** Views of [NormalizeTestCases] and [Normalize] *)

(** The [UpdateTestCase] calls: test case, test set and result. *)
Definition updateTCOf (c : Call) : list (TestCase * string * option error) :=
  match c with CUpdateTestCase tc id e => [(tc, id, e)] | _ => [] end.

(** The reports asked for: run and test set. *)
Definition getReportOf (c : Call) : list (string * string) :=
  match c with CGetReport run id _ => [(run, id)] | _ => [] end.

(** The test cases [NormalizeTestCases] considers: all of the set, or those
    named by a non-empty selection. *)
Definition selectedCases (sel : list string) (tcs : list TestCase) : list TestCase :=
  if int_len sel =? 0 then tcs
  else filter (λ tc, Name tc ∈ ArrayToMap sel) tcs.

(** The test cases to rewrite, given the result recorded for each name: a
    test case with a recorded result that is not [PASSED] takes the
    response of that result; the others are left out. *)
Definition normalized (m : gmap string TestResult) (tcs : list TestCase)
  : list TestCase :=
  omap (λ tc, match m !! Name tc with
              | Some res =>
                  if isTestStatusPassed (trStatus res) then None
                  else Some (tc_set_HTTPResp (trRes res) tc)
              | None => None
              end) tcs.

(** The [UpdateTestCase] calls [ups] of a pass over the test cases
    [expected] of the set [id] that returned [err]: all of them were
    written, in order; or the pass stopped at the first one the store
    refused, with its error. *)
Definition updatesSpec (id : string) (expected : list TestCase)
    (err : option error) (ups : list (TestCase * string * option error)) : Prop :=
  (err = None ∧ ups = (λ tc, (tc, id, None)) <$> expected)
  ∨ ∃ written tc e rest,
      expected = written ++ tc :: rest
      ∧ ups = ((λ tc, (tc, id, None)) <$> written) ++ [(tc, id, Some e)]
      ∧ err = Some (fmt_Errorf_w "failed to update test case: " e).

Definition isUpdateTC (c : Call) : bool :=
  match c with CUpdateTestCase _ _ _ => true | _ => false end.


(** ** [GetTestSetStatus] *)

Section GetTestSetStatus.
Context {W : Type} (r : Replayer W).

(** [models.StringToTestSetStatus] is a parameter of the model. *)
Variable StringToTestSetStatus : string → TestSetStatus * option error.

Definition GetTestSetStatus (testRunID testSetID : string)
  : M W Call (TestSetStatus * option error) :=
  '(testReport, err) ← call (GetReport (reportDB r) testRunID testSetID)
                            (CGetReport testRunID testSetID);
  match err with
  | Some e =>
      mret (TestSetStatusFailed, Some (fmt_Errorf_w "failed to get report: " e))
  | None =>
      let '(status, err) := StringToTestSetStatus (Status testReport) in
      match err with
      | Some e =>
          mret (TestSetStatusFailed,
                Some (fmt_Errorf_w
                        "failed to convert string to test set status: " e))
      | None => mret (status, None)
      end
  end.

End GetTestSetStatus.

(** ** More of the in-memory world *)

Module MemMore.
Import Mem.

(** [worldOK], but the application answers the first case with another
    body than the recorded one. *)
Definition worldChanged : World :=
  {| testSets := [("test-set-0", [c1; c2])]; testRuns := [];
     reports := []; results := [];
     mocks := mocks worldOK;
     live := [("c1", mkResp 200 "changed" 60); ("c2", mkResp 201 "made" 61)];
     consumed := ["m1"; "m2"]; insertResultFails := false;
     clock := 100; script := [] |}.

(** Test sets that come with a script to run before and one to run after
    the test cases. *)
Definition scriptConf : TestSetConfig World := {|
  Read id w := ((Some {| PreScript := "./seed.sh"; PostScript := "./cleanup.sh" |},
                 None), w) |}.

(** The runtime of [Mem], but the command "./cleanup.sh" fails. *)
Definition cleanupFails : Runtime World :=
  let rt := memRuntime memMatch in
  {| time_Now := time_Now rt; BaseTime := BaseTime rt;
     ExecuteCommand cmd w :=
       if String.eqb cmd "./cleanup.sh"
       then (Some (errors_New "exit status 2"), w) else (None, w);
     utils_Stop := utils_Stop rt; ReplaceBaseURL := ReplaceBaseURL rt;
     ReplaceHostToIP := ReplaceHostToIP rt; IsDockerKind := IsDockerKind rt;
     match_ := match_ rt; LeftJoinNoise := LeftJoinNoise rt;
     NextID := NextID rt; LastID := LastID rt;
     TestRunTemplateName := TestRunTemplateName rt;
     GetVersion := GetVersion rt;
     HighlightGrayString := HighlightGrayString rt;
     fmt_Sprintf := fmt_Sprintf rt;
     filepath_Join := filepath_Join rt; background := background rt |}.

Definition scriptReplayer : Replayer World :=
  {| testDB := memTestDB; mockDB := memMockDB; reportDB := memReportDB;
     testSetConf := scriptConf; telemetry := memTelemetry;
     instrumentation := memInstrumentation; config := cfgBasePath;
     requestMockemulator := memEmulator; runtime := cleanupFails |}.

(** A report store that takes the first report of a run and set and
    refuses every later one for them: the terminal report of a set is
    refused. *)
Definition reportDBOnce : ReportDB World := {|
  GetAllTestRunIDs := GetAllTestRunIDs memReportDB;
  GetTestCaseResults := GetTestCaseResults memReportDB;
  GetReport := GetReport memReportDB;
  InsertTestCaseResult := InsertTestCaseResult memReportDB;
  InsertReport run id rep w :=
    if existsb (λ p, String.eqb (fst (fst p)) run && String.eqb (snd (fst p)) id)
         (reports w)
    then (Some (errors_New "report exists"), w)
    else InsertReport memReportDB run id rep w |}.

Definition replayerOnce : Replayer World :=
  {| testDB := memTestDB; mockDB := memMockDB; reportDB := reportDBOnce;
     testSetConf := memConf; telemetry := memTelemetry;
     instrumentation := memInstrumentation; config := cfgPlain;
     requestMockemulator := memEmulator; runtime := memRuntime memMatch |}.

(** The result handed to the [i]-th call of a trace, an
    [InsertTestCaseResult]. *)
Definition resultAt (t : list Call) (i : nat) : TestResult :=
  match t !! i with
  | Some (CInsertTestCaseResult _ _ res _) => res
  | _ => failedResult
  end.

(** A conversion that inverts [TestSetStatus_string]. *)
Definition statusOfString (s : string) : TestSetStatus * option error :=
  match List.find (λ st, String.eqb (TestSetStatus_string st) s)
          [TestSetStatusRunning; TestSetStatusFailed; TestSetStatusPassed;
           TestSetStatusAppHalted; TestSetStatusUserAbort;
           TestSetStatusFaultUserApp; TestSetStatusInternalErr;
           TestSetStatusFaultScript] with
  | Some st => (st, None)
  | None => (TestSetStatusFailed, Some (errors_New "invalid TestSetStatus value"))
  end.

End MemMore.
(** * Properties

    ** Rules for [wp] *)

Section WP.
Context {W : Type}.

Lemma wp_run {E A} (m : M W E A) Q s a s' t :
  m s = (a, s', t) → wp m Q s → Q a s' t.
Proof. unfold wp. intros ->. done. Qed.

Lemma wp_intro {E A} (m : M W E A) (Q : A → St W → list E → Prop) s :
  (∀ a s' t, m s = (a, s', t) → Q a s' t) → wp m Q s.
Proof. intros H. unfold wp. apply H. by destruct (m s) as [[??]?]. Qed.

Lemma wp_mono {E A} (m : M W E A) (Q Q' : A → St W → list E → Prop) s :
  wp m Q s → (∀ a s' t, Q a s' t → Q' a s' t) → wp m Q' s.
Proof. unfold wp. auto. Qed.

Lemma wp_conj {E A} (m : M W E A) (Q Q' : A → St W → list E → Prop) s :
  wp m Q s → wp m Q' s → wp m (λ a s' t, Q a s' t ∧ Q' a s' t) s.
Proof. unfold wp. auto. Qed.

Lemma wp_ret {E A} (a : A) (Q : A → St W → list E → Prop) s :
  Q a s [] → wp (mret a) Q s.
Proof. done. Qed.

Lemma wp_bind {E A B} (m : M W E A) (f : A → M W E B) Q s :
  wp m (λ a s1 t1, wp (f a) (λ b s2 t2, Q b s2 (t1 ++ t2)) s1) s →
  wp (m ≫= f) Q s.
Proof.
  unfold wp, mbind, M_bind, bind.
  destruct (m s) as [[a s1] t1]; simpl.
  by destruct (f a s1) as [[b s2] t2].
Qed.

Lemma wp_call {A} (op : W → A * W) (ev : A → Call) Q s :
  (∀ a w, op (world s) = (a, w) → Q a (set_world w s) [ev a]) →
  wp (call op ev) Q s.
Proof.
  intros H. unfold wp, call.
  destruct (op (world s)) as [a w] eqn:E; simpl. by apply H.
Qed.

Lemma wp_call_ (op : W → W) (ev : Call) Q s :
  Q tt (set_world (op (world s)) s) [ev] → wp (call_ op ev) Q s.
Proof. done. Qed.

Lemma wp_emit {E} (e : E) (Q : unit → St W → list E → Prop) s :
  Q tt s [e] → wp (emit e) Q s.
Proof. done. Qed.

Lemma wp_get {E} (Q : St W → St W → list E → Prop) s :
  Q s s [] → wp get Q s.
Proof. done. Qed.

Lemma wp_modify {E} (f : St W → St W) (Q : unit → St W → list E → Prop) s :
  Q tt (f s) [] → wp (modify f) Q s.
Proof. done. Qed.

Lemma wp_lift {E E' A} (inj : E → E') (m : M W E A) Q s :
  wp m (λ a s' t, Q a s' (inj <$> t)) s → wp (lift inj m) Q s.
Proof.
  unfold wp, lift. by destruct (m s) as [[a s1] t1].
Qed.

Lemma wp_observe (r : Replayer W) (tk : Tasks) Q s :
  (∀ evs w, background (runtime r) (world s) = (evs, w) →
     Q (foldl bgStep tk evs)
       (set_ctxDone (ctxDone s || existsb isParentCanceled evs) (set_world w s))
       (CBackground <$> evs)) →
  wp (observe r tk) Q s.
Proof.
  intros H. unfold wp, observe.
  destruct (background (runtime r) (world s)) as [evs w] eqn:E; simpl.
  by apply H.
Qed.

Lemma wp_observeCtx (r : Replayer W) Q s :
  (∀ evs w, background (runtime r) (world s) = (evs, w) →
     Q (ctxDone s || existsb isParentCanceled evs)
       (set_ctxDone (ctxDone s || existsb isParentCanceled evs) (set_world w s))
       (CBackground <$> evs)) →
  wp (observeCtx r) Q s.
Proof.
  intros H. unfold wp, observeCtx.
  destruct (background (runtime r) (world s)) as [evs w] eqn:E; simpl.
  by apply H.
Qed.

Lemma wp_runTestSet (r : Replayer W) testSetID testRunID appID Q s :
  wp (RunTestSet r testSetID testRunID appID false)
     (λ res s' calls, Q res s' [ERunTestSet testSetID calls res.1 res.2]) s →
  wp (runTestSet r testSetID testRunID appID) Q s.
Proof.
  unfold wp, runTestSet.
  by destruct (RunTestSet r testSetID testRunID appID false s) as [[a s1] t1].
Qed.

End WP.

(** One step of symbolic execution of a goal [wp m Q s]. *)
Ltac wp_step :=
  lazymatch goal with
  | |- wp (mret _) _ _ => apply wp_ret
  | |- wp (_ ≫= _) _ _ => apply wp_bind
  | |- wp (call _ _) _ _ =>
      let a := fresh "a" in let w := fresh "w" in let E := fresh "Ecall" in
      apply wp_call; intros a w E
  | |- wp (call_ _ _) _ _ => apply wp_call_
  | |- wp (emit _) _ _ => apply wp_emit
  | |- wp get _ _ => apply wp_get
  | |- wp (modify _) _ _ => apply wp_modify
  | |- wp (lift _ _) _ _ => apply wp_lift
  | |- wp (observe _ _) _ _ =>
      let evs := fresh "evs" in let w := fresh "w" in let E := fresh "Ebg" in
      apply wp_observe; intros evs w E
  | |- wp (observeCtx _) _ _ =>
      let evs := fresh "evs" in let w := fresh "w" in let E := fresh "Ebg" in
      apply wp_observeCtx; intros evs w E
  | |- wp (runTestSet _ _ _ _) _ _ => apply wp_runTestSet
  | |- wp (match ?x with _ => _ end) _ _ =>
      first [ is_var x; destruct x | let E := fresh "Ecase" in destruct x eqn:E ]
  | |- wp (let '(_, _) := ?x in _) _ _ =>
      first [ is_var x; destruct x | let E := fresh "Ecase" in destruct x eqn:E ]
  end; cbv beta.

Ltac wp_steps := repeat wp_step.

(** Running a part of the program whose property [L] is already proved. *)
Tactic Notation "wp_use" uconstr(L) "as" ident(H) :=
  eapply wp_mono; [eapply L|]; cbv beta;
  let a := fresh "a" in let s := fresh "s" in let t := fresh "t" in
  intros a s t H; cbv beta in H.

Tactic Notation "wp_use" uconstr(L) :=
  eapply wp_mono; [eapply L|]; cbv beta;
  let a := fresh "a" in let s := fresh "s" in
  let t := fresh "t" in let H := fresh "Hpost" in
  intros a s t H; cbv beta in H; destruct_and? H.


(** Closing [Forall] goals over a trace put together from calls, parts
    with a known footprint, and background events. *)
Ltac solve_Forall :=
  repeat lazymatch goal with
  | |- Forall _ [] => apply Forall_nil
  | |- Forall _ (_ ++ _) => apply Forall_app; split
  | |- Forall _ (_ :: _) => apply Forall_cons; split
  | |- Forall _ (_ <$> _) =>
      first [ apply Forall_fmap, Forall_true; done
            | apply Forall_fmap, Forall_fmap, Forall_true; done ]
  | |- Forall _ _ =>
      first [ assumption | eapply Forall_impl; [eassumption | by intros []] ]
  | |- wp _ _ _ => fail
  | |- _ => done
  end.


(** Case analysis of [H : x ∈ t] along the structure of the trace [t];
    the cases a footprint or a constructor clash rules out are closed. *)
Ltac elem_leaf H :=
  try lazymatch type of H with
  | _ ∈ [] => by apply elem_of_nil in H
  | _ = _ => try discriminate H
  | ?x ∈ ?l =>
      lazymatch goal with
      | F : Forall _ l |- _ =>
          let F' := fresh in
          pose proof (proj1 (Forall_forall _ _) F _ H) as F';
          cbv beta in F'; try discriminate F'
      | _ => idtac
      end
  end.

Ltac elem_cases H :=
  lazymatch type of H with
  | _ ∈ _ ++ _ =>
      apply elem_of_app in H; destruct H as [H|H]; [elem_cases H | elem_cases H]
  | _ ∈ _ :: _ =>
      apply elem_of_cons in H; destruct H as [H|H]; [elem_leaf H | elem_cases H]
  | _ ∈ _ <$> _ =>
      let y := fresh "y" in let Hy := fresh "Hy" in
      apply list_elem_of_fmap in H; destruct H as (y & Hy & H);
      try discriminate Hy
  | _ => elem_leaf H
  end.

(** Views ([t ≫= π]) of a trace put together the same way. *)
Lemma view_nil_Forall {A B} (π : A → list B) (P : A → Prop) (t : list A) :
  Forall P t → (∀ c, P c → π c = []) → t ≫= π = [].
Proof.
  induction 1 as [|c t Hc _ IH]; intros Hπ; [done|].
  rewrite bind_cons, (Hπ _ Hc), IH; done.
Qed.

Lemma view_fmap_nil {A B C} (f : A → B) (π : B → list C) (l : list A) :
  (∀ x, π (f x) = []) → (f <$> l) ≫= π = [].
Proof.
  intros Hπ. induction l as [|x l IH]; [done|].
  rewrite fmap_cons, bind_cons, Hπ, IH. done.
Qed.

Ltac view_simpl :=
  repeat first
    [ rewrite bind_app
    | rewrite bind_cons
    | progress change (@mbind list _ _ _ ?f []) with (@nil _)
    | rewrite view_fmap_nil by done
    | match goal with
      | H : Forall ?P ?t |- context [?t ≫= ?π] =>
          rewrite (view_nil_Forall π P t H) by (by intros [])
      end
    | rewrite app_nil_r
    | rewrite app_nil_l ].
(** ** Footprints of the parts of [RunTestSet] *)

Section Footprint.
Context {W : Type} (r : Replayer W).

Lemma executeScript_calls script s :
  wp (executeScript r script)
     (λ _ s' t, Forall (λ c, isScriptCall c = true) t ∧ sameGlobals s s') s.
Proof. unfold executeScript. wp_steps; (split; [solve_Forall|done]). Qed.

Lemma GetMocks_calls id a b s :
  wp (GetMocks r id a b) (λ _ _ t, Forall (λ c, isMockCall c = true) t) s.
Proof. unfold GetMocks. wp_steps; solve_Forall. Qed.

Lemma SetupOrUpdateMocks_calls app id a b act s :
  wp (SetupOrUpdateMocks r app id a b act)
     (λ _ _ t, Forall (λ c, isMockCall c = true) t) s.
Proof.
  unfold SetupOrUpdateMocks. wp_step; [wp_steps; solve_Forall|].
  wp_step. wp_use GetMocks_calls. wp_steps; solve_Forall.
Qed.

Lemma RunTestSet_case_calls id run app ip sel tc v s :
  wp (RunTestSet_case r id run app ip sel tc v)
     (λ _ _ t, Forall (λ c, isLoopCall c = true) t) s.
Proof.
  unfold RunTestSet_case. wp_step; [wp_steps; solve_Forall|].
  cbv zeta. wp_step. wp_step. wp_step; [wp_steps; solve_Forall|].
  wp_step. wp_use SetupOrUpdateMocks_calls.
  wp_steps; solve_Forall.
Qed.

Lemma RunTestSet_loop_calls id run app ip sel tcs v s :
  wp (RunTestSet_loop r id run app ip sel tcs v)
     (λ _ _ t, Forall (λ c, isLoopCall c = true) t) s.
Proof.
  revert v s. induction tcs as [|tc tcs IH]; intros v s; simpl.
  - by wp_steps.
  - wp_step. wp_use RunTestSet_case_calls. wp_step. wp_step.
    + wp_use IH. solve_Forall.
    + wp_steps; solve_Forall.
Qed.

Lemma RunTestSet_status_calls id run post loopErr v s :
  wp (RunTestSet_status r id run post loopErr v)
     (λ _ _ t, Forall (λ c, isStatusCall c = true) t) s.
Proof.
  unfold RunTestSet_status. wp_step. wp_step.
  - wp_use executeScript_calls. wp_steps; solve_Forall.
  - wp_steps; solve_Forall.
Qed.

Lemma RunTestSet_seal_calls id run n results st sc fl m s :
  wp (RunTestSet_seal r id run n results st sc fl m)
     (λ _ _ t, Forall (λ c, isSealCall c = true) t) s.
Proof. unfold RunTestSet_seal. wp_steps; solve_Forall. Qed.

Lemma RunTestSet_finish_calls id run post n loopErr v s :
  wp (RunTestSet_finish r id run post n loopErr v)
     (λ _ _ t, Forall (λ c, isFinishCall c = true) t) s.
Proof.
  unfold RunTestSet_finish. wp_step. wp_use RunTestSet_status_calls.
  wp_step; [wp_steps; solve_Forall|]. wp_step.
  wp_use RunTestSet_seal_calls. solve_Forall.
Qed.

Lemma RunTestSet_report_calls id run app post ip tcs tk s :
  wp (RunTestSet_report r id run app post ip tcs tk)
     (λ _ _ t, Forall (λ c, isReportCall c = true) t) s.
Proof.
  unfold RunTestSet_report. cbv zeta. wp_step. wp_step. wp_step.
  - wp_steps; solve_Forall.
  - wp_step. wp_use RunTestSet_loop_calls. wp_use RunTestSet_finish_calls.
    solve_Forall.
Qed.

Lemma RunTestSet_supervise_calls id run app serve post tcs s :
  wp (RunTestSet_supervise r id run app serve post tcs)
     (λ _ _ t, Forall (λ c, isSuperviseCall c = true) t) s.
Proof.
  unfold RunTestSet_supervise. wp_step. wp_step. cbv zeta.
  wp_step; [wp_use RunTestSet_report_calls; solve_Forall|].
  wp_step. wp_step; wp_steps; solve_Forall;
    wp_use RunTestSet_report_calls; solve_Forall.
Qed.

End Footprint.
(** ** The supervisor and watcher tasks *)

(** C4: with both tasks started, when the application exits with an error
    of kind [k] and the watcher runs, [testSetStatusByErrChan] becomes the
    status the specification assigns to [k] and [exitLoopChan] is signaled
    once; for [ErrCtxCanceled] nothing is set and nothing is signaled.
    When instead the parent scope is canceled and the watcher runs, the
    status is [USER_ABORT]; a cancellation that follows a classified error
    leaves the status of that error in place.  The last two equations are
    the watcher's [switch] itself, in any state [t0] of the tasks. *)
Theorem app_error_classification (e : AppError) (b b' serve : bool) (t0 : Tasks) :
  let t := foldl bgStep (tasks0 true true false) [AppExited e; WatcherScheduled b] in
  let tc := foldl bgStep (tasks0 (negb serve) true false)
              [ParentCanceled; WatcherScheduled b] in
  let tl := foldl bgStep t [ParentCanceled; WatcherScheduled b'] in
  match classifySpec (appErrorType e) with
  | Some st =>
      testSetStatusByErrChan t = st ∧ exitLoopChan t = 1%nat
      ∧ runTestSetCtxDone t = true
      ∧ testSetStatusByErrChan tl = st ∧ exitLoopChan tl = 1%nat
  | None =>
      testSetStatusByErrChan t = TestSetStatusRunning ∧ exitLoopChan t = 0%nat
      ∧ runTestSetCtxDone t = false
      ∧ testSetStatusByErrChan tl = TestSetStatusUserAbort
  end
  ∧ testSetStatusByErrChan tc = TestSetStatusUserAbort
  ∧ exitLoopChan tc = 1%nat
  ∧ testSetStatusByErrChan (watcherOnAppErr e t0)
    = default (testSetStatusByErrChan t0) (classifySpec (appErrorType e))
  ∧ exitLoopChan (watcherOnAppErr e t0)
    = match classifySpec (appErrorType e) with
      | Some _ => S (exitLoopChan t0)
      | None => exitLoopChan t0
      end.
Proof. destruct e as [[] ?], b, b', serve; done. Qed.

(** ** [RunTestSet] *)

Section RunTestSetProps.
Context {W : Type} (r : Replayer W).

Lemma int_len_0 {A} (l : list A) : (int_len l =? 0) = true → l = [].
Proof. destruct l; [done|]. unfold int_len. simpl. lia. Qed.

Lemma RunTestSet_cases_empty id run app serve post s :
  wp (RunTestSet_cases r id run app serve post)
     (λ res s' t, ∀ id', CGetTestCases id' ([], None) ∈ t →
        res = (TestSetStatusPassed, None) ∧ t = [CGetTestCases id ([], None)]
        ∧ sameGlobals s s') s.
Proof.
  unfold RunTestSet_cases. wp_step. wp_step. wp_step. wp_step.
  - wp_steps. intros id' Hin. elem_cases Hin.
  - wp_step.
    + apply int_len_0 in Ecase as ->. by wp_steps.
    + wp_step. wp_step. wp_step. wp_use SetupOrUpdateMocks_calls.
      wp_step.
      * wp_steps. intros id' Hin. elem_cases Hin. by simplify_eq.
      * wp_use RunTestSet_supervise_calls. intros id' Hin. elem_cases Hin.
        by simplify_eq.
Qed.

(** C7 (amended): when [GetTestCases] returns an empty list, [RunTestSet]
    returns [PASSED] with a nil error at once (that call is its last), and
    no report is recorded for the set: the run makes no write to any store
    (so [InsertReport] is not called), and the package-level verdict map
    and the three totals are left as they were. *)
Theorem RunTestSet_empty_test_set id run app serve s id' :
  CGetTestCases id' ([], None) ∈ (RunTestSet r id run app serve s).2 →
  (RunTestSet r id run app serve s).1.1 = (TestSetStatusPassed, None)
  ∧ Forall (λ c, isWrite c = false) (RunTestSet r id run app serve s).2
  ∧ (∃ pre, (RunTestSet r id run app serve s).2 = pre ++ [CGetTestCases id ([], None)])
  ∧ sameGlobals s (RunTestSet r id run app serve s).1.2.
Proof.
  revert id'.
  change (wp (RunTestSet r id run app serve)
            (λ res s' t, ∀ id', CGetTestCases id' ([], None) ∈ t →
               res = (TestSetStatusPassed, None)
               ∧ Forall (λ c, isWrite c = false) t
               ∧ (∃ pre, t = pre ++ [CGetTestCases id ([], None)])
               ∧ sameGlobals s s') s).
  unfold RunTestSet. wp_step.
  - wp_step. wp_step. wp_step. wp_step.
    { wp_steps. intros id' Hin. elem_cases Hin. }
    wp_step.
    2:{ wp_steps. intros id' Hin. elem_cases Hin. }
    wp_step. wp_use executeScript_calls. wp_step.
    { wp_steps. intros id' Hin. elem_cases Hin. }
    wp_use RunTestSet_cases_empty as Hcases. intros id' Hin. elem_cases Hin.
    destruct (Hcases _ Hin) as (-> & -> & Hg).
    split; [done|]. split; [solve_Forall|].
    split; [eexists; by rewrite !app_assoc|].
    destruct Hg as (? & ? & ? & ?).
    lazymatch goal with G : sameGlobals _ _ |- _ => destruct G as (? & ? & ? & ?) end.
    simpl in *. repeat split; congruence.
  - wp_use RunTestSet_cases_empty as Hcases. intros id' Hin.
    destruct (Hcases _ Hin) as (-> & -> & Hg).
    split; [done|]. split; [solve_Forall|]. split; [|done]. by exists [].
Qed.

(** *** Pruning of unused mocks *)

Lemma add_consumed_app l1 l2 (m : gmap string bool) :
  add_consumed (l1 ++ l2) m = add_consumed l2 (add_consumed l1 m).
Proof. unfold add_consumed. by rewrite foldl_app. Qed.

Lemma add_consumed_lookup l (m : gmap string bool) k :
  add_consumed l m !! k = if decide (k ∈ l) then Some true else m !! k.
Proof.
  revert m. induction l as [|x l IH]; intros m.
  - rewrite decide_False; [done|]. apply not_elem_of_nil.
  - change (add_consumed (x :: l) m) with (add_consumed l (<[x:=true]> m)).
    rewrite IH. destruct (decide (k ∈ l)) as [Hl|Hl].
    + rewrite decide_True; [done|]. by right.
    + destruct (decide (k = x)) as [->|Hne].
      * rewrite lookup_insert_eq. rewrite decide_True; [done|]. by left.
      * rewrite lookup_insert_ne by done. rewrite decide_False; [done|].
        intros [?|?]%elem_of_cons; done.
Qed.

Section Prune.
Hypothesis Hprune : RemoveUnusedMocks (Test (config r)) = true.

Lemma RunTestSet_case_consumed id run app ip sel tc v s :
  wp (RunTestSet_case r id run app ip sel tc v)
     (λ a _ t, totalConsumedMocks a.2
               = add_consumed (consumedNames t) (totalConsumedMocks v)) s.
Proof.
  unfold RunTestSet_case, consumedNames. wp_step; [by wp_steps|].
  cbv zeta. wp_step. wp_step. wp_step; [wp_steps; by view_simpl|].
  wp_step. wp_use SetupOrUpdateMocks_calls.
  wp_steps; view_simpl; simpl; rewrite ?Hprune;
    repeat match goal with |- context [if ?b then _ else _] => destruct b end;
    done.
Qed.

Lemma RunTestSet_loop_consumed id run app ip sel tcs v s :
  wp (RunTestSet_loop r id run app ip sel tcs v)
     (λ v' _ t, totalConsumedMocks v'
                = add_consumed (consumedNames t) (totalConsumedMocks v)) s.
Proof.
  revert v s. induction tcs as [|tc tcs IH]; intros v s; simpl.
  - by wp_steps.
  - wp_step. wp_use RunTestSet_case_consumed. wp_step. simpl in *. wp_step.
    + wp_use IH. unfold consumedNames in *. rewrite bind_app, add_consumed_app.
      congruence.
    + wp_steps. by rewrite app_nil_r.
Qed.

End Prune.

Lemma nonempty_false (x : string) : nonempty x = false → x = "".
Proof.
  unfold nonempty. intros H. apply negb_false_iff in H.
  by apply String.eqb_eq in H.
Qed.

Lemma TestSetStatus_eqb_eq a b : TestSetStatus_eqb a b = true → a = b.
Proof. by destruct a, b. Qed.

Lemma pruneSpec_prefix id res pre t :
  pre ≫= updateOf = [] → pre ≫= consumedOf = [] → pre ≫= reportOf = [] →
  pruneSpec (config r) id res t → pruneSpec (config r) id res (pre ++ t).
Proof.
  intros Hu Hc Hr. unfold pruneSpec, updateMocksCalls, consumedNames, finalReport.
  rewrite !bind_app, Hu, Hc, Hr. done.
Qed.

Lemma RunTestSet_seal_prune id run n results st sc fl m s :
  wp (RunTestSet_seal r id run n results st sc fl m)
     (λ res _ t,
        consumedNames t = []
        ∧ (updateMocksCalls t = []
           ∨ (updateMocksCalls t = [(id, m)]
              ∧ RemoveUnusedMocks (Test (config r)) = true
              ∧ BasePath (Test (config r)) = ""
              ∧ res = (TestSetStatusPassed, None)
              ∧ ∃ rep, last (t ≫= reportOf) = Some rep ∧ Status rep = "PASSED"))) s.
Proof.
  unfold RunTestSet_seal, consumedNames, updateMocksCalls.
  wp_step. wp_step. wp_step; [wp_steps; by (split; [|left])|].
  wp_step. wp_step.
  - apply andb_prop in Ecase as [[Hrm Hst]%andb_prop Hbp].
    apply TestSetStatus_eqb_eq in Hst as ->.
    apply negb_true_iff, nonempty_false in Hbp.
    wp_steps; (split; [done|]); right; repeat split; try done; by eexists.
  - wp_steps; by (split; [|left]).
Qed.

Lemma RunTestSet_status_consumed id run post loopErr v s :
  wp (RunTestSet_status r id run post loopErr v)
     (λ res _ t,
        Forall (λ c, isStatusCall c = true) t
        ∧ ∀ results v', res = inr (results, v') →
            totalConsumedMocks v' = totalConsumedMocks v) s.
Proof.
  apply wp_conj; [apply RunTestSet_status_calls|].
  unfold RunTestSet_status. wp_step. wp_step.
  - wp_use executeScript_calls.
    wp_steps; intros ???; simplify_eq; simpl; by repeat case_match.
  - wp_steps; intros ???; simplify_eq; simpl; by repeat case_match.
Qed.

Lemma RunTestSet_finish_prune id run post n loopErr v s :
  wp (RunTestSet_finish r id run post n loopErr v)
     (λ res _ t,
        consumedNames t = []
        ∧ (updateMocksCalls t = []
           ∨ (updateMocksCalls t = [(id, totalConsumedMocks v)]
              ∧ RemoveUnusedMocks (Test (config r)) = true
              ∧ BasePath (Test (config r)) = ""
              ∧ res = (TestSetStatusPassed, None)
              ∧ ∃ rep, last (t ≫= reportOf) = Some rep ∧ Status rep = "PASSED"))) s.
Proof.
  unfold RunTestSet_finish. wp_step. wp_use RunTestSet_status_consumed as Hst.
  destruct Hst as [Hcalls Hv]. wp_step.
  - wp_steps. unfold consumedNames, updateMocksCalls. view_simpl. by split; [|left].
  - wp_step. wp_use RunTestSet_seal_prune as Hseal.
    destruct Hseal as [Hc Hu]. unfold consumedNames, updateMocksCalls in *.
    rewrite (Hv _ _ eq_refl) in Hu. view_simpl. split; [done|].
    destruct Hu as [Hu|(Hu & ? & ? & ? & ?)]; [by left|right]. done.
Qed.

Lemma RunTestSet_loop_prune id run app ip sel tcs v s :
  wp (RunTestSet_loop r id run app ip sel tcs v)
     (λ v' _ t,
        Forall (λ c, isLoopCall c = true) t
        ∧ (RemoveUnusedMocks (Test (config r)) = true →
           totalConsumedMocks v'
           = add_consumed (consumedNames t) (totalConsumedMocks v))) s.
Proof.
  apply wp_conj; [apply RunTestSet_loop_calls|].
  destruct (RemoveUnusedMocks (Test (config r))) eqn:Hrm.
  - eapply wp_mono; [by apply RunTestSet_loop_consumed|]. done.
  - by apply wp_intro.
Qed.

Lemma RunTestSet_report_prune id run app post ip tcs tk s :
  wp (RunTestSet_report r id run app post ip tcs tk)
     (λ res _ t, pruneSpec (config r) id res t) s.
Proof.
  unfold RunTestSet_report. cbv zeta. wp_step. wp_step. wp_step.
  - wp_steps. by left.
  - wp_step. wp_use RunTestSet_loop_prune as Hloop. destruct Hloop as [Hcalls Hm].
    wp_use RunTestSet_finish_prune as Hfin. destruct Hfin as [Hc Hu].
    unfold pruneSpec, consumedNames, updateMocksCalls, finalReport in *.
    view_simpl. rewrite Hc.
    destruct Hu as [Hu|(Hu & Hrm & Hbp & -> & rep & Hrep & Hst)]; [by left|right].
    rewrite Hu, (Hm Hrm), app_nil_r. repeat split; try done.
    exists rep. split; [|done].
    simpl. destruct (_ ≫= reportOf); [done|]. by rewrite last_cons, Hrep.
Qed.

Ltac prune_prefix :=
  lazymatch goal with
  | |- pruneSpec _ _ _ _ =>
      repeat (apply pruneSpec_prefix; [by view_simpl..|]);
      try (left; unfold updateMocksCalls; by view_simpl); try done
  | |- _ => idtac
  end.

Lemma RunTestSet_supervise_prune id run app serve post tcs s :
  wp (RunTestSet_supervise r id run app serve post tcs)
     (λ res _ t, pruneSpec (config r) id res t) s.
Proof.
  unfold RunTestSet_supervise. wp_step. wp_step. cbv zeta.
  wp_step; [wp_use RunTestSet_report_prune as Hrep; prune_prefix|].
  wp_step. wp_step; wp_steps; prune_prefix;
    wp_use RunTestSet_report_prune as Hrep; prune_prefix.
Qed.

Lemma RunTestSet_cases_prune id run app serve post s :
  wp (RunTestSet_cases r id run app serve post)
     (λ res _ t, pruneSpec (config r) id res t) s.
Proof.
  unfold RunTestSet_cases. wp_step. wp_step. wp_step. wp_step.
  { wp_steps. prune_prefix. }
  wp_step; [wp_steps; prune_prefix|].
  wp_step. wp_step. wp_step. wp_use SetupOrUpdateMocks_calls.
  wp_step; [wp_steps; prune_prefix|].
  wp_use RunTestSet_supervise_prune as Hsup. prune_prefix.
Qed.

Lemma RunTestSet_prune id run app serve s :
  wp (RunTestSet r id run app serve)
     (λ res _ t, pruneSpec (config r) id res t) s.
Proof.
  unfold RunTestSet. wp_step; [|apply RunTestSet_cases_prune].
  wp_step. wp_step. wp_step. wp_step; [wp_steps; prune_prefix|].
  wp_step; [|wp_steps; prune_prefix].
  wp_step. wp_use executeScript_calls.
  wp_step; [wp_steps; prune_prefix|].
  wp_use RunTestSet_cases_prune as Hc. prune_prefix.
Qed.

(** C8: [UpdateMocks] is called only when pruning is enabled, no base path
    is configured and the set ended [PASSED] (the run returns [PASSED] and
    the terminal report handed to [InsertReport] has that status); it is
    then called once, for this test set, with a map whose keys are exactly
    the names [GetConsumedMocks] returned during the run, each mapped to
    [true]. *)
Theorem RunTestSet_UpdateMocks id run app serve s id' m e :
  CUpdateMocks id' m e ∈ (RunTestSet r id run app serve s).2 →
  RemoveUnusedMocks (Test (config r)) = true
  ∧ BasePath (Test (config r)) = ""
  ∧ (RunTestSet r id run app serve s).1.1 = (TestSetStatusPassed, None)
  ∧ (∃ rep, finalReport (RunTestSet r id run app serve s).2 = Some rep
            ∧ Status rep = "PASSED")
  ∧ updateMocksCalls (RunTestSet r id run app serve s).2 = [(id', m)]
  ∧ id' = id
  ∧ ∀ name, m !! name
            = if decide (name ∈ consumedNames (RunTestSet r id run app serve s).2)
              then Some true else None.
Proof.
  intros Hin. pose proof (RunTestSet_prune id run app serve s) as Hp.
  unfold wp, pruneSpec in Hp.
  assert (Hu : (id', m) ∈ updateMocksCalls (RunTestSet r id run app serve s).2).
  { unfold updateMocksCalls. apply list_elem_of_bind. eexists. split; [|done].
    simpl. by left. }
  destruct Hp as [Hp|(Hp & Hrm & Hbp & Hres & Hrep)].
  { rewrite Hp in Hu. by apply elem_of_nil in Hu. }
  rewrite Hp in Hu. apply list_elem_of_singleton in Hu. simplify_eq.
  repeat split; try done.
  intros name. by rewrite add_consumed_lookup, lookup_empty.
Qed.

(** *** What comes with [USER_ABORT] *)

Lemma RunTestSet_status_inl id run post loopErr v s :
  wp (RunTestSet_status r id run post loopErr v)
     (λ res _ _, ∀ ret, res = inl ret → ret.1 = TestSetStatusFaultScript) s.
Proof.
  unfold RunTestSet_status. wp_step. wp_step.
  - wp_use executeScript_calls. wp_steps; intros ret [= <-]; done.
  - wp_steps; intros ret [= <-]; done.
Qed.

Lemma RunTestSet_seal_user_abort id run n results st sc fl m s :
  wp (RunTestSet_seal r id run n results st sc fl m)
     (λ res _ _, res.1 = TestSetStatusUserAbort → res.2 = None) s.
Proof. unfold RunTestSet_seal. by wp_steps. Qed.

Lemma RunTestSet_finish_user_abort id run post n loopErr v s :
  wp (RunTestSet_finish r id run post n loopErr v)
     (λ res _ _, res.1 = TestSetStatusUserAbort → res.2 = None) s.
Proof.
  unfold RunTestSet_finish. wp_step. wp_use RunTestSet_status_inl as Hst.
  wp_step.
  - wp_steps. rewrite (Hst _ eq_refl). done.
  - wp_step. wp_use RunTestSet_seal_user_abort as Hs. done.
Qed.

Lemma RunTestSet_report_user_abort id run app post ip tcs tk s :
  wp (RunTestSet_report r id run app post ip tcs tk)
     (λ res _ _, res.1 = TestSetStatusUserAbort → res.2 = None) s.
Proof.
  unfold RunTestSet_report. cbv zeta. wp_step. wp_step. wp_step; [by wp_steps|].
  wp_step. apply wp_intro. intros v s1 t1 _.
  wp_use RunTestSet_finish_user_abort as Hf. done.
Qed.

Lemma RunTestSet_supervise_user_abort id run app serve post tcs s :
  wp (RunTestSet_supervise r id run app serve post tcs)
     (λ res _ t, userAbortSpec res t) s.
Proof.
  unfold RunTestSet_supervise, userAbortSpec. wp_step. wp_step. cbv zeta.
  wp_step; [|wp_step; wp_step]; wp_steps;
    lazymatch goal with
    | |- wp _ _ _ => wp_use RunTestSet_report_user_abort as Hr; intros; left; auto
    | |- _ => first [done | intros _; right; (split; [done|solve_Forall])]
    end.
Qed.

Lemma userAbortSpec_prefix res pre t :
  Forall (λ c, isWrite c = false) pre →
  userAbortSpec res t → userAbortSpec res (pre ++ t).
Proof.
  intros Hpre Hs Hst. destruct (Hs Hst) as [?|[? ?]]; [by left|right].
  split; [done|]. by apply Forall_app.
Qed.

Lemma userAbortSpec_other st e t :
  st ≠ TestSetStatusUserAbort → userAbortSpec (st, e) t.
Proof. by intros ? ?. Qed.

Lemma RunTestSet_cases_user_abort id run app serve post s :
  wp (RunTestSet_cases r id run app serve post)
     (λ res _ t, userAbortSpec res t) s.
Proof.
  unfold RunTestSet_cases. wp_step. wp_step. wp_step. wp_step.
  { wp_steps. by apply userAbortSpec_other. }
  wp_step; [wp_steps; by apply userAbortSpec_other|].
  wp_step. wp_step. wp_step. wp_use SetupOrUpdateMocks_calls.
  wp_step; [wp_steps; by apply userAbortSpec_other|].
  wp_use RunTestSet_supervise_user_abort as Hsup.
  repeat (apply userAbortSpec_prefix; [solve_Forall|]). done.
Qed.

Lemma RunTestSet_user_abort id run app serve s :
  wp (RunTestSet r id run app serve) (λ res _ t, userAbortSpec res t) s.
Proof.
  unfold RunTestSet. wp_step; [|apply RunTestSet_cases_user_abort].
  wp_step. wp_step. wp_step. wp_step; [wp_steps; by apply userAbortSpec_other|].
  wp_step; [|wp_steps; by apply userAbortSpec_other].
  wp_step. wp_use executeScript_calls.
  wp_step; [wp_steps; by apply userAbortSpec_other|].
  wp_use RunTestSet_cases_user_abort as Hc.
  repeat (apply userAbortSpec_prefix; [solve_Forall|]). done.
Qed.

(** *** The terminal report and the returned status *)

Lemma TestSetStatus_string_inj a b :
  TestSetStatus_string a = TestSetStatus_string b → a = b.
Proof. by destruct a, b. Qed.

Lemma terminalSpec_none res t :
  Forall (λ c, isInsertReport c = false) t → terminalSpec res t.
Proof.
  intros Ht run id rep st Hin. by apply (proj1 (Forall_forall _ _) Ht) in Hin.
Qed.

Lemma terminalSpec_prefix res pre t :
  Forall (λ c, isInsertReport c = false) pre →
  terminalSpec res t → terminalSpec res (pre ++ t).
Proof.
  intros Hpre Ht run id rep st Hin. apply elem_of_app in Hin as [Hin|Hin].
  - by apply (proj1 (Forall_forall _ _) Hpre) in Hin.
  - by apply (Ht run id rep st).
Qed.

Lemma RunTestSet_seal_terminal id run n results st sc fl m s :
  wp (RunTestSet_seal r id run n results st sc fl m)
     (λ res _ t, terminalSpec res t) s.
Proof.
  unfold RunTestSet_seal, terminalSpec. wp_steps;
    intros run' id' rep st' Hin Hst Hrun; elem_cases Hin; simplify_eq;
    simpl in Hst; by apply TestSetStatus_string_inj in Hst as ->.
Qed.

Lemma RunTestSet_finish_terminal id run post n loopErr v s :
  wp (RunTestSet_finish r id run post n loopErr v)
     (λ res _ t, terminalSpec res t) s.
Proof.
  unfold RunTestSet_finish. wp_step. wp_use RunTestSet_status_calls.
  wp_step.
  - wp_steps. apply terminalSpec_none. solve_Forall.
  - wp_step. wp_use RunTestSet_seal_terminal as Hs.
    apply terminalSpec_prefix; [solve_Forall|done].
Qed.

Lemma RunTestSet_report_terminal id run app post ip tcs tk s :
  wp (RunTestSet_report r id run app post ip tcs tk)
     (λ res _ t, terminalSpec res t) s.
Proof.
  unfold RunTestSet_report. cbv zeta. wp_step. wp_step. wp_step.
  - wp_steps. intros run' id' rep st Hin. elem_cases Hin.
  - wp_step. wp_use RunTestSet_loop_calls.
    wp_use RunTestSet_finish_terminal as Hf.
    intros run' id' rep st Hin Hst Hrun. elem_cases Hin.
    + simplify_eq. simpl in Hst. by destruct st.
    + by apply (Hf run' id' rep st).
Qed.

Lemma RunTestSet_supervise_terminal id run app serve post tcs s :
  wp (RunTestSet_supervise r id run app serve post tcs)
     (λ res _ t, terminalSpec res t) s.
Proof.
  unfold RunTestSet_supervise. wp_step. wp_step. cbv zeta.
  wp_step; [|wp_step; wp_step]; wp_steps;
    lazymatch goal with
    | |- wp _ _ _ =>
        wp_use RunTestSet_report_terminal as Hr;
        repeat (apply terminalSpec_prefix; [solve_Forall|]); done
    | |- _ => apply terminalSpec_none; solve_Forall
    end.
Qed.

Lemma RunTestSet_cases_terminal id run app serve post s :
  wp (RunTestSet_cases r id run app serve post)
     (λ res _ t, terminalSpec res t) s.
Proof.
  unfold RunTestSet_cases. wp_step. wp_step. wp_step. wp_step.
  { wp_steps. apply terminalSpec_none. solve_Forall. }
  wp_step; [wp_steps; apply terminalSpec_none; solve_Forall|].
  wp_step. wp_step. wp_step. wp_use SetupOrUpdateMocks_calls.
  wp_step; [wp_steps; apply terminalSpec_none; solve_Forall|].
  wp_use RunTestSet_supervise_terminal as Hsup.
  repeat (apply terminalSpec_prefix; [solve_Forall|]). done.
Qed.

Lemma RunTestSet_terminal id run app serve s :
  wp (RunTestSet r id run app serve) (λ res _ t, terminalSpec res t) s.
Proof.
  unfold RunTestSet. wp_step; [|apply RunTestSet_cases_terminal].
  wp_step. wp_step. wp_step.
  wp_step; [wp_steps; apply terminalSpec_none; solve_Forall|].
  wp_step; [|wp_steps; apply terminalSpec_none; solve_Forall].
  wp_step. wp_use executeScript_calls.
  wp_step; [wp_steps; apply terminalSpec_none; solve_Forall|].
  wp_use RunTestSet_cases_terminal as Hc.
  repeat (apply terminalSpec_prefix; [solve_Forall|]). done.
Qed.

End RunTestSetProps.
(** ** The mock windows of [RunTestSet] *)

Section MockWindows.
Context {W : Type} (r : Replayer W).
Hypothesis Hbp : BasePath (Test (config r)) = "".

Lemma replaceHost_Timestamp ip tc tc' err :
  replaceHost r ip tc = (tc', err) →
  ReqTimestamp (tcHTTPReq tc') = ReqTimestamp (tcHTTPReq tc)
  ∧ RespTimestamp (tcHTTPResp tc') = RespTimestamp (tcHTTPResp tc).
Proof.
  unfold replaceHost. destruct (_ && _).
  - destruct (ReplaceHostToIP _ _ _). by intros [= <- <-].
  - by intros [= <- <-].
Qed.

Lemma replaceBase_Timestamp tc :
  ReqTimestamp (tcHTTPReq (replaceBase r tc)) = ReqTimestamp (tcHTTPReq tc)
  ∧ RespTimestamp (tcHTTPResp (replaceBase r tc)) = RespTimestamp (tcHTTPResp tc).
Proof.
  unfold replaceBase. destruct (nonempty _); [|done].
  by destruct (ReplaceBaseURL _ _ _) as [? []].
Qed.

Lemma SetupOrUpdateMocks_window app id a b act s :
  wp (SetupOrUpdateMocks r app id a b act)
     (λ err _ t,
        match err with
        | None => ∃ f u t', mockView t = mockWindow app id a b f u
                            ∧ t = CGetFilteredMocks id a b (f, None) :: t'
        | Some _ => Forall (λ c, isSimulate c = false) (mockView t)
        end) s.
Proof.
  unfold SetupOrUpdateMocks, GetMocks, mockView, mockWindow. rewrite Hbp.
  change (nonempty "") with false. cbv iota.
  wp_steps; view_simpl; simpl;
    repeat match goal with |- match ?x with _ => _ end => destruct x end;
    unfold mockProtoOf; simpl; try solve_Forall; by eexists _, _, _.
Qed.

Lemma RunTestSet_case_view id run app ip sel tc v s :
  wp (RunTestSet_case r id run app ip sel tc v)
     (λ a _ t,
        (∃ d, mockView t = caseView app id d)
        ∨ (Forall (λ c, isSimulate c = false) (mockView t)
           ∧ (a.1 = Break ∨ mockView t = []))) s.
Proof.
  unfold RunTestSet_case. wp_step; [wp_steps; right; by (split; [|right])|].
  cbv zeta. wp_step. wp_step. wp_step.
  { wp_steps. right. unfold mockView. view_simpl. by (split; [|right]). }
  wp_step. wp_use SetupOrUpdateMocks_window as Hw. wp_step.
  { wp_steps. right. unfold mockView in *. view_simpl. by (split; [|left]). }
  destruct Hw as (f & u & t' & Hw & _).
  wp_step. wp_step.
  { wp_steps. right. unfold mockView in *. view_simpl. rewrite Hw.
    unfold mockWindow. split; [solve_Forall|by left]. }
  apply replaceHost_Timestamp in Ecase1 as [Hrq Hrs].
  wp_step. wp_step. wp_step. wp_step. wp_step.
  assert (Hleft : ∀ t2 : list Call, mockView t2 = [] →
            ∃ d, mockView ((CBackground <$> evs) ++ t ++ [CNow a]
                           ++ [CSimulateRequest app t0 id (h, o)] ++ t2)
                 = caseView app id d).
  { intros t2 Ht2. exists {| dCase := t0; dFiltered := f; dUnfiltered := u; dResp := (h, o) |}.
    unfold mockView, caseView in *. view_simpl. rewrite Hw, Ht2. simpl.
    unfold mockProtoOf; simpl. by rewrite Hrq, Hrs. }
  wp_steps; left; apply Hleft; unfold mockView; by view_simpl.
Qed.

Lemma RunTestSet_loop_view id run app ip sel tcs v s :
  wp (RunTestSet_loop r id run app ip sel tcs v)
     (λ _ _ t, ∃ driven tail,
        mockView t = (driven ≫= caseView app id) ++ tail
        ∧ Forall (λ c, isSimulate c = false) tail) s.
Proof.
  revert v s. induction tcs as [|tc tcs IH]; intros v s; simpl.
  - wp_steps. by exists [], [].
  - wp_step. wp_use RunTestSet_case_view as Hcase. wp_step. simpl in Hcase.
    wp_step.
    + wp_use IH as Hrest. destruct Hrest as (driven & tail & Hv & Htail).
      unfold mockView in *. rewrite bind_app, Hv.
      destruct Hcase as [[d Hd]|[Hns [?|Hnil]]]; [|done|].
      * exists (d :: driven), tail. rewrite Hd, bind_cons. by rewrite (assoc_L (++)).
      * exists driven, tail. by rewrite Hnil.
    + wp_steps. unfold mockView in *. rewrite app_nil_r.
      destruct Hcase as [[d Hd]|[Hns _]].
      * exists [d], []. rewrite Hd, bind_singleton, app_nil_r. done.
      * by exists [], (t ≫= mockProtoOf).
Qed.

Lemma RunTestSet_report_view id run app post ip tcs tk s :
  wp (RunTestSet_report r id run app post ip tcs tk)
     (λ _ _ t, ∃ driven tail,
        mockView t = (driven ≫= caseView app id) ++ tail
        ∧ Forall (λ c, isSimulate c = false) tail) s.
Proof.
  unfold RunTestSet_report. cbv zeta. wp_step. wp_step. wp_step.
  - wp_steps. by exists [], [].
  - wp_step. wp_use RunTestSet_loop_view as Hloop.
    destruct Hloop as (driven & tail & Hv & Htail).
    wp_use RunTestSet_finish_calls as Hfin.
    exists driven, tail. unfold mockView in *. view_simpl. done.
Qed.

Lemma RunTestSet_supervise_view id run app serve post tcs s :
  wp (RunTestSet_supervise r id run app serve post tcs)
     (λ _ _ t, ∃ driven tail,
        mockView t = (driven ≫= caseView app id) ++ tail
        ∧ Forall (λ c, isSimulate c = false) tail) s.
Proof.
  unfold RunTestSet_supervise. wp_step. wp_step. cbv zeta.
  wp_step; [|wp_step; wp_step]; wp_steps;
    lazymatch goal with
    | |- wp _ _ _ =>
        wp_use RunTestSet_report_view as Hr;
        destruct Hr as (driven & tail & Hv & Htail);
        exists driven, tail; unfold mockView in *; view_simpl; by rewrite Hv
    | |- _ => exists [], []; unfold mockView; by view_simpl
    end.
Qed.

Lemma RunTestSet_cases_proto id run app serve post s :
  wp (RunTestSet_cases r id run app serve post)
     (λ _ _ t, protoSpec r app id t) s.
Proof.
  unfold RunTestSet_cases, protoSpec. wp_step. wp_step. wp_step. wp_step.
  { wp_steps. left. unfold mockView. by view_simpl. }
  wp_step; [wp_steps; left; unfold mockView; by view_simpl|].
  wp_step. wp_step. wp_step. wp_use SetupOrUpdateMocks_window as Hw.
  wp_step.
  { wp_steps. left. unfold mockView in *. by view_simpl. }
  destruct Hw as (f0 & u0 & t' & Hw & Heq).
  wp_use RunTestSet_supervise_view as Hs.
  destruct Hs as (driven & tail & Hv & Htail).
  right. exists a, f0, u0, driven, tail. split; [|split; [done|]].
  - unfold mockView in *. view_simpl. by rewrite Hw, Hv.
  - rewrite Heq. by eexists [_], _.
Qed.

Lemma driven_split app id driven tail pre app' tc id' res post :
  (driven ≫= caseView app id) ++ tail = pre ++ CSimulateRequest app' tc id' res :: post →
  Forall (λ c, isSimulate c = false) tail →
  ∃ d1 f u,
    pre = (d1 ≫= caseView app id)
          ++ mockWindow app id (ReqTimestamp (tcHTTPReq tc))
               (RespTimestamp (tcHTTPResp tc)) f u
    ∧ app' = app ∧ id' = id.
Proof.
  intros Heq Htail. revert pre Heq.
  induction driven as [|d driven IH]; intros pre Heq.
  - simpl in Heq. rewrite Heq in Htail.
    apply Forall_app in Htail as [_ Htail].
    apply Forall_cons in Htail as [Habs _]. done.
  - rewrite bind_cons in Heq. unfold caseView at 1, mockWindow at 1 in Heq.
    simpl in Heq.
    destruct pre as [|p0 [|p1 [|p2 [|p3 pre]]]]; simplify_eq/=.
    + by exists [], (dFiltered d), (dUnfiltered d).
    + lazymatch goal with
      | H : _ ++ tail = pre ++ _ |- _ =>
          destruct (IH _ H) as (d1 & f & u & -> & -> & ->)
      end.
      exists (d :: d1), f, u. by rewrite bind_cons.
Qed.

Lemma RunTestSet_proto id run app serve s :
  wp (RunTestSet r id run app serve) (λ _ _ t, protoSpec r app id t) s.
Proof.
  unfold RunTestSet. rewrite Hbp. change (nonempty "") with false. cbv iota.
  apply RunTestSet_cases_proto.
Qed.

(** Without a configured base path: in the mock protocol of
    a run (the calls that fetch mocks, [SetMocks] and [SimulateRequest]),
    everything before the [SimulateRequest] of a test case is: the window of
    the initial setup, [[BaseTime, now]] with [now] the clock value read
    just before it; then, for each case driven earlier, its window followed
    by its request; then the window of this case, fetched for
    [[req.Timestamp, resp.Timestamp]] of the case as sent and installed by
    one [SetMocks].  So one [SetMocks] lies between two consecutive
    requests, and it precedes the request it belongs to. *)
Lemma RunTestSet_windows id run app serve s pre app' tc id' res post :
  mockView (RunTestSet r id run app serve s).2
  = pre ++ CSimulateRequest app' tc id' res :: post →
  ∃ now f0 u0 driven f u t1 t2,
    pre = mockWindow app id (BaseTime (runtime r)) now f0 u0
          ++ (driven ≫= caseView app id)
          ++ mockWindow app id (ReqTimestamp (tcHTTPReq tc))
               (RespTimestamp (tcHTTPResp tc)) f u
    ∧ app' = app ∧ id' = id
    ∧ (RunTestSet r id run app serve s).2
      = t1 ++ CNow now
           :: CGetFilteredMocks id (BaseTime (runtime r)) now (f0, None) :: t2
    ∧ mockView t1 = [].
Proof.
  intros Heq. pose proof (RunTestSet_proto id run app serve s) as Hp.
  unfold wp, protoSpec in Hp.
  destruct Hp as [Hns|(now & f0 & u0 & driven & tail & Hv & Htail & t1 & t2 & Ht & Ht1)].
  { rewrite Heq in Hns. apply Forall_app in Hns as [_ Hns].
    by apply Forall_cons in Hns as [Habs _]. }
  rewrite Hv in Heq. unfold mockWindow at 1 in Heq. simpl in Heq.
  destruct pre as [|p0 [|p1 [|p2 pre]]]; simplify_eq/=.
  lazymatch goal with
  | H : _ ++ tail = pre ++ _ |- _ =>
      destruct (driven_split _ _ _ _ _ _ _ _ _ _ H Htail)
        as (d1 & f & u & -> & -> & ->)
  end.
  by exists now, f0, u0, d1, f, u, t1, t2.
Qed.

End MockWindows.
(** ** [Start] *)

Section StartProps.
Context {W : Type} (r : Replayer W).

(** C9: when [GetAllTestSetIDs] returns an empty list, [Start] returns an
    error (with a nil error from the store, the user-facing "No test sets
    found ..."), and every event of the run is read-only: no report or
    result is inserted, nothing is updated, and no test set is run. *)
Theorem Start_no_test_sets (s : St W) (err : option error) (w : W) :
  GetAllTestSetIDs (testDB r) (world s) = (([], err), w) →
  is_Some (Start r s).1.1
  ∧ (err = None → (Start r s).1.1 = Some (noTestSetsError r))
  ∧ Forall (λ e, readOnly e = true) (Start r s).2.
Proof.
  intros Hids.
  change (wp (Start r)
            (λ res _ t, is_Some res
                        ∧ (err = None → res = Some (noTestSetsError r))
                        ∧ Forall (λ e, readOnly e = true) t) s).
  unfold Start, Start_body.
  do 4 wp_step.
  rewrite Hids in Ecall. injection Ecall as <- <-.
  change (int_len [] =? 0) with true. cbv iota.
  wp_steps; (split; [done|]); (split; [done|]);
    repeat first [ apply Forall_app; split | apply Forall_cons; split
                 | apply Forall_nil | done
                 | rewrite <- list_fmap_compose; apply Forall_fmap, Forall_true; done ].
Qed.

Lemma loopSpec_prefix exit p t :
  Forall (λ x, continues x = true) p → loopSpec r exit t → loopSpec r exit (p ++ t).
Proof.
  intros Hp. destruct exit as [err reason|v']; simpl.
  - intros (pre & id & calls & st & e & -> & Hpre & Hok & He).
    exists (p ++ pre), id, calls, st, e. rewrite (assoc_L (++)).
    split; [done|]. split; [by apply Forall_app|]. done.
  - destruct (abortTestRun v').
    + intros (Hr & pre & id & calls & st & -> & Hpre & Hst). split; [done|].
      exists (p ++ pre), id, calls, st. rewrite (assoc_L (++)).
      split; [done|]. split; [by apply Forall_app|]. done.
    + intros Ht. by apply Forall_app.
Qed.

Lemma Start_loop_spec run app n ids v s :
  abortTestRun v = false →
  wp (Start_loop r run app n ids v) (λ exit _ t, loopSpec r exit t) s.
Proof.
  revert v s. induction ids as [|id ids IH]; intros v s Hv; simpl.
  - wp_steps. simpl. rewrite Hv. done.
  - wp_step; [by apply IH|].
    wp_step. wp_step. wp_step. wp_step. wp_step.
    wp_use RunTestSet_user_abort as Hok. destruct a as [st e]. simpl in Hok.
    wp_step.
    { wp_step; wp_steps; simpl; eexists [_], id, _, st, (Some _);
        (split; [done|]); (split; [solve_Forall|]); (split; [done|]);
        unfold runTestSetError; by rewrite Ecase0. }
    destruct st; cbn [fst snd];
      repeat (wp_step; cbn [abortTestRun testSetResult testRunResult]; rewrite ?Hv);
      lazymatch goal with
      | |- wp (Start_loop _ _ _ _ _ _) _ _ =>
          eapply wp_mono; [by apply IH|]; cbv beta; intros exit s' t' Hl;
          rewrite ?app_nil_r; repeat (apply loopSpec_prefix; [solve_Forall|]); done
      | |- loopSpec r (LoopDone _) _ =>
          simpl; split; [apply andb_false_r|];
          eexists [_], id, _, _; by (split; [|split; [solve_Forall|]])
      | |- loopSpec r (Returned _ _) _ =>
          simpl; eexists [_], id, _, _, None;
          by (split; [|split; [solve_Forall|]])
      end.
Qed.

Lemma startSpec_prefix err p t :
  Forall (λ x, continues x = true) p → startSpec r err t → startSpec r err (p ++ t).
Proof.
  intros Hp [Ht|(pre & id & calls & st & e & tail & -> & Hpre & Hok & Hafter)].
  - left. by apply Forall_app.
  - right. exists (p ++ pre), id, calls, st, e, tail. rewrite (assoc_L (++)).
    split; [done|]. split; [by apply Forall_app|]. done.
Qed.

Lemma startSpec_returned err reason t rest :
  loopSpec r (Returned err reason) t →
  Forall (λ x, isCleanup x = true) rest → startSpec r err (t ++ rest).
Proof.
  intros (pre & id & calls & st & e & -> & Hpre & Hok & He) Hrest. right.
  exists pre, id, calls, st, e, rest. rewrite <- (assoc_L (++)).
  split; [done|]. split; [done|]. split; [done|].
  unfold afterStop. destruct e as [e'|]; [done|].
  destruct He as [-> ->]. done.
Qed.

Lemma startSpec_aborted v t p f n cleanup :
  loopSpec r (LoopDone v) t → abortTestRun v = true →
  Forall (λ x, isCleanup x = true) cleanup →
  startSpec r None
    (t ++ ECall (CTestRun p f n (if testRunResult v then "pass" else "fail"))
       :: cleanup).
Proof.
  simpl. intros Hl Hv Hc. rewrite Hv in Hl.
  destruct Hl as (-> & pre & id & calls & st & -> & Hpre & Hst). right.
  exists pre, id, calls, st, None, (ECall (CTestRun p f n "fail") :: cleanup).
  rewrite <- (assoc_L (++)). split; [done|]. split; [done|].
  split; [by destruct st|]. unfold afterStop. rewrite Hst.
  split; [done|]. by exists p, f, n, cleanup.
Qed.

Lemma startSpec_done v t rest :
  loopSpec r (LoopDone v) t → abortTestRun v = false →
  Forall (λ x, continues x = true) rest → startSpec r None (t ++ rest).
Proof.
  simpl. intros Hl Hv Hc. rewrite Hv in Hl. left. by apply Forall_app.
Qed.

Lemma Start_spec s : wp (Start r) (λ err _ t, startSpec r err t) s.
Proof.
  unfold Start, Start_body, printSummary.
  wp_step. wp_step. wp_step. wp_step. wp_step. wp_step.
  { wp_steps; left; solve_Forall. }
  wp_step; [wp_steps; left; solve_Forall|].
  wp_step. apply wp_lift, wp_intro. intros [testRunID e1] s1 t1 _.
  wp_step; [wp_steps; left; solve_Forall|].
  wp_step. apply wp_lift, wp_intro. intros [inst e2] s2 t2 _.
  wp_step; [wp_steps; left; solve_Forall|].
  wp_step. eapply wp_mono; [by apply Start_loop_spec|]. cbv beta.
  intros exit s3 t3 Hloop.
  wp_steps; rewrite <- ?(assoc_L (++));
    do 3 (apply startSpec_prefix; [solve_Forall|]); simpl;
    lazymatch goal with
    | Hl : loopSpec r (Returned _ _) _ |- _ =>
        apply (startSpec_returned _ _ _ _ Hl); solve_Forall
    | Hl : loopSpec r (LoopDone ?v) _, Hv : abortTestRun ?v = true |- _ =>
        apply (startSpec_aborted _ _ _ _ _ _ Hl Hv); solve_Forall
    | Hl : loopSpec r (LoopDone ?v) _, Hv : abortTestRun ?v = false |- _ =>
        apply (startSpec_done _ _ _ Hl Hv); solve_Forall
    end.
Qed.

Lemma Start_loop_events_ok run app n ids v s :
  wp (Start_loop r run app n ids v) (λ _ _ t, Forall eventOK t) s.
Proof.
  revert v s. induction ids as [|id ids IH]; intros v s; simpl.
  - by wp_steps.
  - wp_step; [apply IH|].
    wp_step. wp_step. wp_step. wp_step. wp_step.
    wp_use RunTestSet_terminal as Hok. destruct a as [st e]. simpl in Hok.
    wp_step; [wp_steps; solve_Forall|].
    destruct st; cbn [fst snd]; wp_steps;
      lazymatch goal with
      | |- wp (Start_loop _ _ _ _ _ _) _ _ =>
          eapply wp_mono; [apply IH|]; cbv beta; intros exit s' t' Hl;
          solve_Forall
      | |- _ => solve_Forall
      end.
Qed.

Lemma Start_events_ok s : wp (Start r) (λ _ _ t, Forall eventOK t) s.
Proof.
  unfold Start, Start_body, printSummary.
  wp_step. wp_step. wp_step. wp_step. wp_step. wp_step.
  { wp_steps; solve_Forall. }
  wp_step; [wp_steps; solve_Forall|].
  wp_step. apply wp_lift, wp_intro. intros [testRunID e1] s1 t1 _.
  wp_step; [wp_steps; solve_Forall|].
  wp_step. apply wp_lift, wp_intro. intros [inst e2] s2 t2 _.
  wp_step; [wp_steps; solve_Forall|].
  wp_step. wp_use Start_loop_events_ok as Hloop.
  wp_steps; solve_Forall.
Qed.

(** When a test set returns [APP_HALTED], [INTERNAL_ERR] or
    [FAULT_USER_APP] with a nil error, or has stored a terminal report
    with that status, [Start] returns a nil error, and its trace ends with
    that test set, then the [TestRun] telemetry event with status "fail",
    then only the calls of the deferred function: no further test set is
    run and the summary is not printed.  Every test set before it let the
    run continue. *)
Lemma Start_abort_nil s ev st :
  ev ∈ (Start r s).2 →
  endedWith st ev →
  isAbortStatus st = true →
  (Start r s).1.1 = None
  ∧ ∃ id calls pre p f n cleanup,
      ev = ERunTestSet id calls st None
      ∧ (Start r s).2 = pre ++ ev :: ECall (CTestRun p f n "fail") :: cleanup
      ∧ Forall (λ x, continues x = true) pre
      ∧ Forall (λ x, isCleanup x = true) cleanup.
Proof.
  intros Hin Hend Hst.
  assert (∃ id calls, ev = ERunTestSet id calls st None) as (id & calls & ->).
  { pose proof (Start_events_ok s) as Hok. unfold wp in Hok.
    apply (proj1 (Forall_forall _ _) Hok) in Hin.
    destruct ev as [c|id calls st0 e]; [done|]. simpl in Hin, Hend.
    destruct Hend as [[-> ->]|(run & id' & rep & Hrep & Hstatus)]; [by eauto|].
    assert (st ≠ TestSetStatusRunning) as Hrun by (by destruct st).
    specialize (Hin run id' rep st Hrep Hstatus Hrun). simplify_eq. by eauto. }
  pose proof (Start_spec s) as Hs. unfold wp, startSpec in Hs.
  destruct Hs as [Hc|(pre & id' & calls' & st' & e & tail & Ht & Hpre & Hok & Ha)].
  { apply (proj1 (Forall_forall _ _) Hc) in Hin. simpl in Hin.
    by rewrite Hst in Hin. }
  rewrite Ht in Hin. apply elem_of_app in Hin as [Hin|Hin].
  { apply (proj1 (Forall_forall _ _) Hpre) in Hin. simpl in Hin.
    by rewrite Hst in Hin. }
  apply elem_of_cons in Hin as [Heq|Hin].
  - simplify_eq. unfold afterStop in Ha. rewrite Hst in Ha.
    destruct Ha as (Herr & p & f & n & cleanup & -> & Hcl).
    split; [done|]. by exists id', calls', pre, p, f, n, cleanup.
  - exfalso. unfold afterStop in Ha. destruct e as [e'|].
    + destruct Ha as [_ Hcl]. by apply (proj1 (Forall_forall _ _) Hcl) in Hin.
    + destruct (isAbortStatus st').
      * destruct Ha as (_ & p & f & n & cleanup & -> & Hcl).
        apply elem_of_cons in Hin as [?|Hin]; [done|].
        by apply (proj1 (Forall_forall _ _) Hcl) in Hin.
      * destruct Ha as (_ & _ & Hcl).
        by apply (proj1 (Forall_forall _ _) Hcl) in Hin.
Qed.

(** A test set that returns an error (with whatever status) is the last
    event of [Start] before the calls of its deferred function, and [Start]
    returns that error: [context.Canceled] itself, any other error as
    "failed to run test set: ...". *)
Lemma Start_run_error s id calls st e :
  ERunTestSet id calls st (Some e) ∈ (Start r s).2 →
  (Start r s).1.1 = Some (runTestSetError r e)
  ∧ ∃ pre cleanup,
      (Start r s).2 = pre ++ ERunTestSet id calls st (Some e) :: cleanup
      ∧ Forall (λ x, continues x = true) pre
      ∧ Forall (λ x, isCleanup x = true) cleanup.
Proof.
  intros Hin. pose proof (Start_spec s) as Hs. unfold wp, startSpec in Hs.
  destruct Hs as [Hc|(pre & id' & calls' & st' & e' & tail & Ht & Hpre & Hok & Ha)].
  { by apply (proj1 (Forall_forall _ _) Hc) in Hin. }
  rewrite Ht in Hin. apply elem_of_app in Hin as [Hin|Hin].
  { by apply (proj1 (Forall_forall _ _) Hpre) in Hin. }
  apply elem_of_cons in Hin as [Heq|Hin].
  - simplify_eq. destruct Ha as [-> Hcl]. split; [done|]. by exists pre, tail.
  - exfalso. unfold afterStop in Ha. destruct e' as [e''|].
    + destruct Ha as [_ Hcl]. by apply (proj1 (Forall_forall _ _) Hcl) in Hin.
    + destruct (isAbortStatus st').
      * destruct Ha as (_ & p & f & n & cleanup & -> & Hcl).
        apply elem_of_cons in Hin as [?|Hin]; [done|].
        by apply (proj1 (Forall_forall _ _) Hcl) in Hin.
      * destruct Ha as (_ & _ & Hcl).
        by apply (proj1 (Forall_forall _ _) Hcl) in Hin.
Qed.

(** A test set that returns [USER_ABORT] is the last event of [Start]
    before the calls of its deferred function.  It returns either no
    error, and then [Start] returns nil; or [context.Canceled] after a
    run that wrote nothing, and then [Start] returns [context.Canceled]. *)
Lemma Start_user_abort_event s id calls e :
  ERunTestSet id calls TestSetStatusUserAbort e ∈ (Start r s).2 →
  (∃ pre cleanup,
      (Start r s).2 = pre ++ ERunTestSet id calls TestSetStatusUserAbort e :: cleanup
      ∧ Forall (λ x, continues x = true) pre
      ∧ Forall (λ x, isCleanup x = true) cleanup)
  ∧ ((e = None ∧ (Start r s).1.1 = None)
     ∨ (e = Some context_Canceled
        ∧ (Start r s).1.1 = Some context_Canceled
        ∧ Forall (λ c, isWrite c = false) calls)).
Proof.
  intros Hin. pose proof (Start_spec s) as Hs. unfold wp, startSpec in Hs.
  destruct Hs as [Hc|(pre & id' & calls' & st' & e' & tail & Ht & Hpre & Hok & Ha)].
  { apply (proj1 (Forall_forall _ _) Hc) in Hin. simpl in Hin. by destruct e. }
  rewrite Ht in Hin. apply elem_of_app in Hin as [Hin|Hin].
  { apply (proj1 (Forall_forall _ _) Hpre) in Hin. simpl in Hin. by destruct e. }
  apply elem_of_cons in Hin as [Heq|Hin].
  - simplify_eq. unfold afterStop in Ha. simpl in Ha.
    destruct (Hok eq_refl) as [Hnone|[Hcan Hw]]; simpl in *; subst.
    + destruct Ha as (_ & -> & Hcl). split; [by exists pre, tail|by left].
    + destruct Ha as (-> & Hcl). split; [by exists pre, tail|by right].
  - exfalso. unfold afterStop in Ha. destruct e' as [e''|].
    + destruct Ha as [_ Hcl]. by apply (proj1 (Forall_forall _ _) Hcl) in Hin.
    + destruct (isAbortStatus st').
      * destruct Ha as (_ & p & f & n & cleanup & -> & Hcl).
        apply elem_of_cons in Hin as [?|Hin]; [done|].
        by apply (proj1 (Forall_forall _ _) Hcl) in Hin.
      * destruct Ha as (_ & _ & Hcl).
        by apply (proj1 (Forall_forall _ _) Hcl) in Hin.
Qed.

End StartProps.

(** ** [Normalize] *)

Section NormalizeProps.
Context {W : Type} (r : Replayer W).

Lemma NormalizeTestCases_loop_run run id m tcs s :
  wp (NormalizeTestCases_loop r id m tcs) (λ _ _ t, reportsOfRun run t) s.
Proof.
  unfold reportsOfRun. revert s. induction tcs as [|tc tcs IH]; intros s; simpl.
  - by wp_steps.
  - wp_step; [|apply IH]. wp_step; [apply IH|].
    wp_step. wp_step. wp_step; [wp_steps; solve_Forall|].
    eapply wp_mono; [apply IH|]. cbv beta. intros _ _ t' Ht'. solve_Forall.
Qed.

Lemma NormalizeTestCases_run run id sel s :
  wp (NormalizeTestCases r run id sel []) (λ _ _ t, reportsOfRun run t) s.
Proof.
  unfold NormalizeTestCases, reportsOfRun.
  change (int_len (@nil TestResult) =? 0) with true. cbv iota.
  wp_step. wp_step. wp_step. wp_step. wp_step; [wp_steps; solve_Forall|].
  wp_step. wp_step. wp_step. wp_step. wp_step; [wp_steps; solve_Forall|].
  wp_use NormalizeTestCases_loop_run as Hl. unfold reportsOfRun in Hl.
  solve_Forall.
Qed.

Lemma Normalize_loop_run run sel s :
  wp (Normalize_loop r run sel) (λ _ _ t, reportsOfRun run t) s.
Proof.
  unfold reportsOfRun. revert s. induction sel as [|x sel IH]; intros s; simpl.
  - by wp_steps.
  - wp_step. wp_use NormalizeTestCases_run as Hn. unfold reportsOfRun in *.
    wp_step; [wp_steps; solve_Forall|]. wp_use IH. solve_Forall.
Qed.

(** With a run configured, [Normalize] never asks for a report of that
    run: every [GetReport] call names the empty run. *)
Lemma Normalize_configured_run_unused s :
  nTestRun (Normalize_ (config r)) ≠ "" →
  reportsOfRun "" (Normalize r s).2.
Proof.
  intros Hrun.
  change (wp (Normalize r) (λ _ _ t, reportsOfRun "" t) s).
  unfold Normalize. cbv zeta.
  destruct (String.eqb (nTestRun (Normalize_ (config r))) "") eqn:E.
  { by apply String.eqb_eq in E. }
  unfold reportsOfRun.
  wp_step. wp_step. wp_step. wp_step;
    wp_steps; try solve_Forall;
    wp_use Normalize_loop_run as Hl; unfold reportsOfRun in Hl; solve_Forall.
Qed.

End NormalizeProps.
(** ** [RunTestSet], from the seeding of the report on *)

Section TasksInvariant.

Lemma tasksOK_tasks0 a b c : tasksOK (tasks0 a b c).
Proof. by left. Qed.

Lemma tasksOK_watcherSignal st t :
  isErrChanStatus st = true → tasksOK (watcherSignal st t).
Proof. by right. Qed.

Lemma tasksOK_bgStep t ev : tasksOK t → tasksOK (bgStep t ev).
Proof.
  intros Ht. destruct ev as [e| |p]; simpl.
  - unfold appSupervisor. by destruct (supervisor t).
  - done.
  - unfold watcherSelect, watcherOnAppErr, watcherOnCtxDone.
    destruct (watcher t); [|done].
    destruct (appErrChan t) as [err|], (runTestSetCtxDone t), p;
      try done; try by apply tasksOK_watcherSignal.
    all: destruct (appErrorType err); try by apply tasksOK_watcherSignal.
    all: done.
Qed.

Lemma tasksOK_foldl evs t : tasksOK t → tasksOK (foldl bgStep t evs).
Proof.
  revert t. induction evs as [|ev evs IH]; intros t Ht; [done|].
  simpl. by apply IH, tasksOK_bgStep.
Qed.

Lemma tasksOK_recv t t' :
  tasksOK t → recv_exitLoopChan t = Some t' →
  tasksOK t' ∧ isErrChanStatus (testSetStatusByErrChan t') = true.
Proof.
  unfold recv_exitLoopChan. intros Ht Hr.
  destruct (exitLoopChan t) as [|n] eqn:En; [done|]. simplify_eq. simpl.
  destruct Ht as [[_ Hz]|Hs]; [congruence|]. split; [by right|done].
Qed.

Lemma tasksOK_recv_tasks t t' :
  tasksOK t → recv_exitLoopChan t = Some t' → tasksOK t'.
Proof. intros Ht Hr. by destruct (tasksOK_recv _ _ Ht Hr). Qed.

Lemma tasksOK_recv_status t t' :
  tasksOK t → recv_exitLoopChan t = Some t' →
  isErrChanStatus (testSetStatusByErrChan t') = true.
Proof. intros Ht Hr. by destruct (tasksOK_recv _ _ Ht Hr). Qed.

End TasksInvariant.

Ltac tasks_ok :=
  simpl;
  repeat first
    [ assumption
    | apply tasksOK_foldl
    | apply tasksOK_tasks0
    | match goal with
      | H : recv_exitLoopChan ?t0 = Some ?t |- tasksOK ?t =>
          apply (tasksOK_recv_tasks t0 t); [simpl|exact H]
      | H : recv_exitLoopChan ?t0 = Some ?t
        |- isErrChanStatus (testSetStatusByErrChan ?t) = true =>
          apply (tasksOK_recv_status t0 t); [simpl|exact H]
      end ].

Section ReportProps.
Context {W : Type} (r : Replayer W).

Lemma wp_eq {E A} (m : M W E A) s :
  wp m (λ a s' t, m s = (a, s', t)) s.
Proof. unfold wp. by destruct (m s) as [[??]?]. Qed.

Lemma GetMocks_globals id a b s :
  wp (GetMocks r id a b)
     (λ _ s' t, Forall (λ c, isMockCall c = true) t ∧ globals s' = globals s) s.
Proof. unfold GetMocks. wp_steps; (split; [solve_Forall|done]). Qed.

Lemma SetupOrUpdateMocks_globals app id a b act s :
  wp (SetupOrUpdateMocks r app id a b act)
     (λ _ s' t, Forall (λ c, isMockCall c = true) t ∧ globals s' = globals s) s.
Proof.
  unfold SetupOrUpdateMocks. wp_step; [wp_steps; by split|].
  wp_step. wp_use GetMocks_globals as Hg. destruct Hg as [Hc Hg].
  wp_steps; (split; [solve_Forall|done]).
Qed.

Lemma executeScript_globals script s :
  wp (executeScript r script)
     (λ _ s' t, Forall (λ c, isScriptCall c = true) t ∧ globals s' = globals s) s.
Proof. unfold executeScript. wp_steps; (split; [solve_Forall|done]). Qed.

Lemma executeScript_spec script s :
  wp (executeScript r script)
     (λ res s' t,
        globals s' = globals s
        ∧ Forall (λ c, isScriptCall c = true) t
        ∧ match res with
          | Some e => ∃ e0, e = fmt_Errorf_w "failed to execute script: " e0
                            ∧ t = [CExecuteCommand script (Some e0)]
          | None => t = [] ∨ t = [CExecuteCommand script None]
          end) s.
Proof.
  unfold executeScript. wp_steps;
    (split; [done|]); (split; [solve_Forall|]); eauto.
Qed.

Lemma returnsEarly_intro (g : gmap string TestReportVerdict * Z * Z * Z)
    res (s' : St W) t :
  Forall (λ c, isPreCall c = true) t → globals s' = g → earlyResult res t →
  returnsEarly g res s' t.
Proof. by intros; repeat split. Qed.

Lemma earlyResult_failed e t : earlyResult (TestSetStatusFailed, Some e) t.
Proof. right. left. by exists e. Qed.

Lemma earlyResult_prefix res p t : earlyResult res t → earlyResult res (p ++ t).
Proof.
  intros [?|[?|[?|(script & e & t0 & -> & ->)]]]; unfold earlyResult; auto.
  do 3 right. exists script, e, (p ++ t0). by rewrite (assoc_L (++)).
Qed.

Lemma reaches_prefix id run app g res s' t p tcs :
  Forall (λ c, isPreCall c = true) p →
  reaches r id run app g res s' t tcs →
  reaches r id run app g res s' (p ++ t) tcs.
Proof.
  intros Hp (pre & t' & post & ip & tk & s1 & -> & Hpre & Hrest).
  exists (p ++ pre), t', post, ip, tk, s1.
  split; [by rewrite (assoc_L (++))|]. split; [by apply Forall_app|]. done.
Qed.

Lemma reaches_here id run app post ip tcs tk s1 res s' t :
  RunTestSet_report r id run app post ip tcs tk s1 = (res, s', t) →
  tasksOK tk →
  reaches r id run app (globals s1) res s' t tcs.
Proof. intros Heq Htk. by exists [], t, post, ip, tk, s1. Qed.

Lemma runInv_prefix id run app g res s' t p :
  Forall (λ c, isPreCall c = true) p → p ≫= fetchedOf = [] →
  runInv r id run app g res s' t → runInv r id run app g res s' (p ++ t).
Proof.
  intros Hp Hf [(Ht & Hg & He)|(tcs & Hne & Htcs & Hr)].
  - left. split; [by apply Forall_app|]. split; [done|].
    by apply earlyResult_prefix.
  - right. exists tcs. split; [done|]. rewrite bind_app, Hf.
    split; [done|]. by apply reaches_prefix.
Qed.

Lemma RunTestSet_supervise_inv id run app serve post tcs s :
  wp (RunTestSet_supervise r id run app serve post tcs)
     (λ res s' t,
        Forall (λ c, isSuperviseCall c = true) t
        ∧ (returnsEarly (globals s) res s' t
           ∨ reaches r id run app (globals s) res s' t tcs)) s.
Proof.
  apply wp_conj; [apply RunTestSet_supervise_calls|].
  unfold RunTestSet_supervise. wp_step. wp_step. cbv zeta.
  wp_step.
  { wp_use wp_eq as Heq. right.
    apply (reaches_here _ _ _ _ _ _ _ _ _ _ _ Heq), tasksOK_tasks0. }
  wp_step. wp_step; wp_steps;
    lazymatch goal with
    | |- wp _ _ _ =>
        wp_use wp_eq as Heq; right;
        repeat (apply reaches_prefix; [solve_Forall|]);
        apply (reaches_here _ _ _ _ _ _ _ _ _ _ _ Heq), tasksOK_foldl, tasksOK_tasks0
    | |- _ =>
        left; split; [solve_Forall|]; split; [done|];
        first [apply earlyResult_failed | by (right; right; left)]
    end.
Qed.

Lemma RunTestSet_cases_inv id run app serve post s :
  wp (RunTestSet_cases r id run app serve post)
     (λ res s' t, runInv r id run app (globals s) res s' t) s.
Proof.
  unfold RunTestSet_cases. wp_step. wp_step. wp_step. wp_step.
  { wp_steps. left. apply returnsEarly_intro;
      [solve_Forall|done|apply earlyResult_failed]. }
  wp_step.
  { wp_steps. left. apply returnsEarly_intro; [solve_Forall|done|by left]. }
  wp_step. wp_step. wp_step.
  wp_use SetupOrUpdateMocks_globals as Hm. destruct Hm as [Hc Hg].
  wp_step.
  { wp_steps. left. apply returnsEarly_intro;
      [solve_Forall|done|apply earlyResult_failed]. }
  wp_use RunTestSet_supervise_inv as Hs. destruct Hs as [Hfp [(Ht & Hg' & He)|Hr]].
  - left. apply returnsEarly_intro; [solve_Forall| |].
    + rewrite Hg', Hg. done.
    + by do 3 apply earlyResult_prefix.
  - right.
    lazymatch type of Hr with reaches _ _ _ _ _ _ _ _ ?tcs => exists tcs end.
    split.
    { intros ->. done. }
    split.
    { view_simpl. done. }
    rewrite Hg in Hr.
    repeat (apply reaches_prefix; [solve_Forall|]). done.
Qed.

Lemma RunTestSet_inv id run app serve s :
  wp (RunTestSet r id run app serve)
     (λ res s' t, runInv r id run app (globals s) res s' t) s.
Proof.
  unfold RunTestSet. wp_step; [|apply RunTestSet_cases_inv].
  wp_step. wp_step. wp_step. wp_step.
  { wp_steps. left. apply returnsEarly_intro;
      [solve_Forall|done|apply earlyResult_failed]. }
  wp_step.
  2:{ wp_steps. left. apply returnsEarly_intro;
      [solve_Forall|done|apply earlyResult_failed]. }
  wp_step. wp_use executeScript_spec as Hx. destruct Hx as (Hg & Hc & Hx).
  wp_step.
  { wp_steps. left. apply returnsEarly_intro; [solve_Forall|done|].
    destruct Hx as (e0 & -> & ->). do 3 right.
    by exists (PreScript t), e0, [CConfRead id (Some t, None)]. }
  wp_use RunTestSet_cases_inv as Hi. rewrite Hg in Hi.
  repeat (apply runInv_prefix; [solve_Forall|by view_simpl|]). done.
Qed.

(** *** The loop over the test cases *)

Lemma int_incr_add n m x : int_incr (n + m) x = int_incr m (int_incr n x).
Proof. unfold int_incr. by rewrite Nat.add_comm, Nat.iter_add. Qed.

Lemma countOf_app {A} (f : A → bool) l1 l2 :
  countOf f (l1 ++ l2) = (countOf f l1 + countOf f l2)%nat.
Proof. unfold countOf. by rewrite List.filter_app, length_app. Qed.

Lemma loopVarsSpec_nil id v :
  tasksOK (tasks v) → isSwitchStatus (testSetStatus v) = true →
  loopVarsSpec r id v v [].
Proof. intros Htk Hst. repeat split; try done. by left. Qed.

Lemma loopVarsSpec_app id v v1 v2 l1 l2 :
  loopVarsSpec r id v v1 l1 → loopVarsSpec r id v1 v2 l2 →
  loopVarsSpec r id v v2 (l1 ++ l2).
Proof.
  intros (Hs1 & Hf1 & Htk1 & Hst1 & Hp1 & Hx1) (Hs2 & Hf2 & Htk2 & Hst2 & Hp2 & Hx2).
  unfold loopVarsSpec. rewrite !countOf_app, !int_incr_add, <- Hs1, <- Hf1.
  repeat split; try done.
  - by apply Hp1, Hp2.
  - apply Forall_app. split; [by apply Hp1, Hp2|by apply Hp2].
  - intros Hv2. rewrite Exists_app.
    destruct (Hx2 Hv2) as [Hv1|?]; [|by auto].
    destruct (Hx1 Hv1) as [?|?]; by auto.
Qed.

Lemma loopVarsSpec_same id v v' :
  success v' = success v → failure v' = failure v →
  testSetStatus v' = testSetStatus v →
  tasksOK (tasks v') → isSwitchStatus (testSetStatus v) = true →
  loopVarsSpec r id v v' [].
Proof.
  intros Hs Hf Hst Htk Hl. unfold loopVarsSpec. rewrite Hst.
  split_and!; try done. by left.
Qed.

Lemma loopVarsSpec_exit id v v' :
  success v' = success v → failure v' = failure v →
  isErrChanStatus (testSetStatus v') = true →
  tasksOK (tasks v') →
  loopVarsSpec r id v v' [].
Proof.
  intros Hs Hf Hst Htk. unfold loopVarsSpec.
  split_and!; try done.
  - by destruct (testSetStatus v').
  - intros Hp. by rewrite Hp in Hst.
  - intros Hp. by rewrite Hp in Hst.
Qed.

Lemma loopVarsSpec_sim_err id v v0 tc resp e :
  success v0 = success v → failure v0 = failure v →
  testSetStatus v0 = testSetStatus v →
  tasksOK (tasks v0) → isSwitchStatus (testSetStatus v) = true →
  loopVarsSpec r id v (incr_failure v0) [(tc, (resp, Some e))].
Proof.
  intros Hs Hf Hst Htk Hl. unfold loopVarsSpec. simpl. rewrite Hs, Hf, Hst.
  split_and!; try done.
  - intros ->. split; [done|]. by repeat constructor.
  - by left.
Qed.

Lemma loopVarsSpec_sim id v v0 tc resp b res :
  compareResp r tc resp id = (b, res) →
  success v0 = success v → failure v0 = failure v →
  testSetStatus v0 = testSetStatus v →
  tasksOK (tasks v0) → isSwitchStatus (testSetStatus v) = true →
  loopVarsSpec r id v
    (if b then incr_success v0
     else set_testSetStatus TestSetStatusFailed (incr_failure v0))
    [(tc, (resp, None))].
Proof.
  intros Hc Hs Hf Hst Htk Hl.
  unfold loopVarsSpec, countOf, countsFailure, countsSuccess, verdictOf.
  cbn [List.filter fst snd]. rewrite Hc. cbn [fst].
  destruct b; simpl; rewrite Hs, Hf, ?Hst; split_and!; try done.
  - intros ->. split; [done|]. repeat constructor. cbn [fst snd]. by rewrite Hc.
  - by left.
  - intros _. right. constructor. cbn [fst snd]. by rewrite Hc.
Qed.

Lemma RunTestSet_case_vars id run app ip sel tc v s :
  tasksOK (tasks v) → isSwitchStatus (testSetStatus v) = true →
  wp (RunTestSet_case r id run app ip sel tc v)
     (λ a _ t, loopVarsSpec r id v a.2 (simulated t)) s.
Proof.
  intros Htk Hst. unfold RunTestSet_case, simulated.
  wp_step; [wp_steps; by apply loopVarsSpec_same|].
  cbv zeta. wp_step. wp_step.
  assert (tasksOK (foldl bgStep (tasks v) evs)) as Htk' by by apply tasksOK_foldl.
  wp_step.
  { wp_steps. view_simpl. destruct (tasksOK_recv _ _ Htk' Ecase0) as [Ht1 Ht2].
    by apply loopVarsSpec_exit. }
  wp_step. wp_use SetupOrUpdateMocks_calls.
  wp_step; [wp_steps; view_simpl; by apply loopVarsSpec_same|].
  wp_step. wp_step; [wp_steps; view_simpl; by apply loopVarsSpec_same|].
  wp_step. wp_step. wp_step. wp_step. wp_step. wp_step.
  { wp_steps. view_simpl. by apply loopVarsSpec_sim_err. }
  wp_steps; view_simpl; cbn [snd simOf];
    (eapply loopVarsSpec_sim; [eassumption|..]); try done;
    by destruct (RemoveUnusedMocks _).
Qed.

Lemma RunTestSet_loop_vars id run app ip sel tcs v s :
  tasksOK (tasks v) → isSwitchStatus (testSetStatus v) = true →
  wp (RunTestSet_loop r id run app ip sel tcs v)
     (λ v' _ t, loopVarsSpec r id v v' (simulated t)) s.
Proof.
  revert v s. induction tcs as [|tc tcs IH]; intros v s Htk Hst; simpl.
  - wp_steps. by apply loopVarsSpec_same.
  - wp_step. wp_use (RunTestSet_case_vars _ _ _ _ _ _ _ _ Htk Hst) as Hc.
    destruct a as [ctl v1]. cbn [snd] in Hc. wp_step.
    + assert (Hc' := Hc). destruct Hc' as (_ & _ & Htk1 & Hst1 & _).
      wp_use (IH _ _ Htk1 Hst1) as Hl. unfold simulated in *. rewrite bind_app.
      by eapply loopVarsSpec_app.
    + wp_steps. by rewrite app_nil_r.
Qed.

(** *** After the loop *)

Lemma RunTestSet_status_spec id run post v s :
  tasksOK (tasks v) → isSwitchStatus (testSetStatus v) = true →
  wp (RunTestSet_status r id run post None v)
     (λ res s' t,
        Forall (λ c, isStatusCall c = true) t ∧ globals s' = globals s
        ∧ match res with
          | inl ret =>
              ∃ e, ret = (TestSetStatusFaultScript, Some (postScriptError e))
                   ∧ t = [CExecuteCommand post (Some e)]
                   ∧ nonempty (BasePath (Test (config r))) = true
          | inr (results, v') =>
              t ≫= readBackOf = [results]
              ∧ totalConsumedMocks v' = totalConsumedMocks v
              ∧ loopVarsSpec r id v v' []
          end) s.
Proof.
  intros Htk Hst. apply wp_conj; [apply RunTestSet_status_calls|].
  unfold RunTestSet_status. wp_step.
  eapply wp_mono with (Q := λ err s' t, globals s' = globals s
     ∧ match err with
       | Some e => ∃ e0, e = fmt_Errorf_w "failed to execute script: " e0
                         ∧ t = [CExecuteCommand post (Some e0)]
                         ∧ nonempty (BasePath (Test (config r))) = true
       | None => t ≫= readBackOf = []
       end).
  { wp_step; [|by wp_steps]. wp_use executeScript_spec as Hx.
    destruct Hx as (Hg & Hc & Hx). split; [done|].
    destruct a as [e|]; [|by view_simpl].
    destruct Hx as (e0 & -> & ->). by exists e0. }
  cbv beta. intros err s1 t1 [Hg1 Herr]. wp_step.
  { wp_steps. split; [done|]. destruct Herr as (e0 & -> & -> & Hbp). by exists e0. }
  wp_steps; (split; [exact Hg1|]);
    (split; [rewrite bind_app, Herr; by view_simpl|]);
    try destruct (runTestSetCtxDone _);
    (split; [done|]);
    first [ apply loopVarsSpec_exit; [done|done|by tasks_ok|by tasks_ok]
          | apply loopVarsSpec_same; [done|done|done|by tasks_ok|done] ].
Qed.

Lemma RunTestSet_seal_spec id run n results st sc fl m s :
  wp (RunTestSet_seal r id run n results st sc fl m)
     (λ res s' t,
        let rep := {| Version := GetVersion (runtime r); rTestSet := id;
                      Status := TestSetStatus_string st; Total := n;
                      Success := sc; Failure := fl; Tests := results |} in
        Forall (λ c, isSealCall c = true) t
        ∧ ∃ e1, t ≫= insertReportOf = [(run, id, rep, e1)]
                ∧ sealSpec id rep st e1 (globals s) (globals s') res t) s.
Proof.
  apply wp_conj; [apply RunTestSet_seal_calls|].
  unfold RunTestSet_seal. cbv zeta.
  wp_steps; eexists; (split; [done|]); simpl; done.
Qed.

Lemma RunTestSet_finish_spec id run post n v s :
  tasksOK (tasks v) → isSwitchStatus (testSetStatus v) = true →
  wp (RunTestSet_finish r id run post n None v)
     (λ res s' t,
        Forall (λ c, isFinishCall c = true) t
        ∧ ((∃ e, t = [CExecuteCommand post (Some e)]
                 ∧ res = (TestSetStatusFaultScript, Some (postScriptError e))
                 ∧ globals s' = globals s
                 ∧ nonempty (BasePath (Test (config r))) = true)
           ∨ ∃ results v' e1,
               let rep := {| Version := GetVersion (runtime r); rTestSet := id;
                             Status := TestSetStatus_string (testSetStatus v');
                             Total := n; Success := success v';
                             Failure := failure v'; Tests := results |} in
               t ≫= insertReportOf = [(run, id, rep, e1)]
               ∧ t ≫= readBackOf = [results]
               ∧ loopVarsSpec r id v v' []
               ∧ sealSpec id rep (testSetStatus v') e1 (globals s) (globals s')
                   res t)) s.
Proof.
  intros Htk Hst. apply wp_conj; [apply RunTestSet_finish_calls|].
  unfold RunTestSet_finish. wp_step.
  wp_use (RunTestSet_status_spec _ _ _ _ _ Htk Hst) as Hs.
  destruct Hs as (Hc & Hg & Hs). wp_step.
  - wp_steps. left. destruct Hs as (e & -> & -> & Hbp). exists e.
    by rewrite app_nil_r.
  - wp_step. destruct Hs as (Hrb & Hm & Hv).
    wp_use RunTestSet_seal_spec as Hseal.
    destruct Hseal as (Hc' & e1 & Hrep & Hseal). right.
    exists l, l0, e1. cbv zeta. view_simpl.
    split; [done|].
    rewrite Hrb. split; [by view_simpl|]. split; [done|].
    rewrite <- Hg. destruct e1; simpl in *; by view_simpl.
Qed.

Lemma RunTestSet_case_globals id run app ip sel tc v s :
  wp (RunTestSet_case r id run app ip sel tc v)
     (λ _ s' _, globals s' = globals s) s.
Proof.
  unfold RunTestSet_case. wp_step; [by wp_steps|].
  cbv zeta. wp_step. wp_step. wp_step; [by wp_steps|].
  wp_step. wp_use SetupOrUpdateMocks_globals as Hm. destruct Hm as [_ Hg].
  wp_steps; exact Hg.
Qed.

Lemma RunTestSet_loop_globals id run app ip sel tcs v s :
  wp (RunTestSet_loop r id run app ip sel tcs v)
     (λ _ s' _, globals s' = globals s) s.
Proof.
  revert v s. induction tcs as [|tc tcs IH]; intros v s; simpl.
  - by wp_steps.
  - wp_step. wp_use RunTestSet_case_globals as Hc. wp_step. wp_step.
    + wp_use IH as Hl. congruence.
    + by wp_steps.
Qed.

Lemma RunTestSet_report_spec id run app post ip tcs tk s :
  tasksOK tk →
  wp (RunTestSet_report r id run app post ip tcs tk)
     (λ res s' t,
        Forall (λ c, isReportCall c = true) t
        ∧ reportSpec r id run tcs (globals s) res s' t) s.
Proof.
  intros Htk. apply wp_conj; [apply RunTestSet_report_calls|].
  unfold RunTestSet_report. cbv zeta. wp_step. wp_step. wp_step.
  { wp_steps. left. by eexists. }
  wp_step.
  eapply wp_mono;
    [apply wp_conj;
      [apply RunTestSet_loop_calls
      |apply wp_conj; [apply RunTestSet_loop_globals
                      |apply RunTestSet_loop_vars; done]]|].
  cbv beta. intros v1 s1 t1 (Hlc & Hg1 & Hv1).
  assert (Hv1' := Hv1). destruct Hv1' as (_ & _ & Htk1 & Hst1 & _).
  wp_use (RunTestSet_finish_spec _ _ _ _ _ _ Htk1 Hst1) as Hf.
  destruct Hf as [Hfc Hf]. right. eexists. split; [reflexivity|].
  destruct Hf as [(e & -> & -> & Hg & Hbp)|(results & v' & e1 & Hf)].
  - left. exists t1, post, e. split; [done|]. split; [by view_simpl|].
    split; [by view_simpl|]. split; [done|]. split; [|done].
    rewrite Hg, Hg1. done.
  - right. cbv zeta in Hf. destruct Hf as (Hrep & Hrb & Hv & Hseal).
    pose proof (loopVarsSpec_app _ _ _ _ _ _ Hv1 Hv) as Hall.
    rewrite app_nil_r in Hall.
    destruct Hall as (Hsc & Hfl & _ & Hst & Hp & Hx). simpl in Hsc, Hfl, Hp, Hx.
    exists (testSetStatus v'), results, e1. cbv zeta.
    assert (simulated (t1 ++ t) = simulated t1) as ->.
    { unfold simulated. by view_simpl. }
    assert (terminalReportOf r id tcs (simulated t1) results (testSetStatus v')
            = {| Version := GetVersion (runtime r); rTestSet := id;
                 Status := TestSetStatus_string (testSetStatus v');
                 Total := testCasesCountOf (config r) id tcs;
                 Success := success v'; Failure := failure v';
                 Tests := results |}) as ->.
    { unfold terminalReportOf. by rewrite Hsc, Hfl. }
    view_simpl. split; [exact Hrep|].
    split; [done|]. split; [done|]. split; [intros Hv'; by apply Hp|].
    split.
    { intros Hv'. by destruct (Hx Hv'). }
    rewrite Hg1 in Hseal. destruct e1; simpl in *; by view_simpl.
Qed.

Lemma RunTestSet_run_spec id run app serve s :
  runSpec r id run (globals s) (RunTestSet r id run app serve s).1.1
    (RunTestSet r id run app serve s).1.2 (RunTestSet r id run app serve s).2.
Proof.
  pose proof (RunTestSet_inv id run app serve s) as Hi. unfold wp in Hi.
  destruct Hi as [He|(tcs & Hne & Hf & pre & t' & post & ip & tk & s1
                      & Ht & Hpre & Heq & Hg & Htk)]; [by left|right].
  exists tcs, pre, t'.
  pose proof (RunTestSet_report_spec id run app post ip tcs tk s1 Htk) as Hr.
  unfold wp in Hr. rewrite Heq in Hr. simpl in Hr. destruct Hr as [Hc Hr].
  rewrite Hg in Hr. done.
Qed.

End ReportProps.
(** ** What a run of [RunTestSet] returns, reports and counts *)

Section RunTestSetFacts.
Context {W : Type} (r : Replayer W).

Lemma int_wrap_add a b : int_wrap (int_wrap a + b) = int_wrap (a + b).
Proof.
  unfold int_wrap. f_equal.
  replace ((a + 2 ^ 63) mod 2 ^ 64 - 2 ^ 63 + b + 2 ^ 63)
    with ((a + 2 ^ 63) mod 2 ^ 64 + b) by lia.
  rewrite Zplus_mod_idemp_l. f_equal. lia.
Qed.

Lemma int_incr_wrap n : int_incr n 0 = int_wrap (Z.of_nat n).
Proof.
  induction n as [|n IH]; [done|].
  change (int_incr (S n) 0) with (int_add (int_incr n 0) 1).
  unfold int_add. rewrite IH, int_wrap_add. f_equal. lia.
Qed.

Lemma int_wrap_small z : - 2 ^ 63 ≤ z < 2 ^ 63 → int_wrap z = z.
Proof. intros Hz. unfold int_wrap. rewrite Z.mod_small; lia. Qed.

Lemma countOf_negb {A} (f : A → bool) l :
  (countOf f l + countOf (λ x, negb (f x)) l = length l)%nat.
Proof.
  unfold countOf. induction l as [|x l IH]; [done|]. simpl.
  destruct (f x); simpl; lia.
Qed.

Lemma countOf_ext {A} (f g : A → bool) l :
  Forall (λ x, f x = g x) l → countOf f l = countOf g l.
Proof.
  unfold countOf. induction 1 as [|x l Hx _ IH]; [done|]. simpl.
  rewrite Hx. destruct (g x); simpl; by rewrite IH.
Qed.

Lemma reportOf_insertReportOf (t : list Call) :
  t ≫= reportOf = (λ x, x.1.2) <$> (t ≫= insertReportOf).
Proof.
  induction t as [|c t IH]; [done|].
  rewrite !bind_cons, fmap_app, IH. by destruct c.
Qed.

Lemma RunTestSet_terminal_inv id run app serve s rep :
  terminalReport (RunTestSet r id run app serve s).2 = Some rep →
  ∃ tcs st results e1,
    let t := (RunTestSet r id run app serve s).2 in
    tcs ≠ []
    ∧ t ≫= fetchedOf = [tcs]
    ∧ rep = terminalReportOf r id tcs (simulated t) results st
    ∧ t ≫= insertReportOf
      = [(run, id, seedReport r id tcs, None); (run, id, rep, e1)]
    ∧ t ≫= readBackOf = [results]
    ∧ isSwitchStatus st = true
    ∧ (st = TestSetStatusPassed →
       Forall (λ x, verdictOf r id x ≠ Some false) (simulated t))
    ∧ (st = TestSetStatusFailed →
       Exists (λ x, verdictOf r id x = Some false) (simulated t))
    ∧ sealSpec id rep st e1 (globals s)
        (globals (RunTestSet r id run app serve s).1.2)
        (RunTestSet r id run app serve s).1.1 t.
Proof.
  pose proof (RunTestSet_run_spec r id run app serve s) as Hs.
  destruct (RunTestSet r id run app serve s) as [[res s'] t]. simpl in *.
  unfold terminalReport. rewrite reportOf_insertReportOf.
  destruct Hs as [(Hp & _ & _)|(tcs & pre & t' & Hne & Hf & -> & Hpre & Hc & Hr)].
  { by view_simpl. }
  destruct Hr as [(e & -> & _)|(body & -> & Hr)]; [by view_simpl|].
  apply Forall_cons in Hc as [_ Hc].
  destruct Hr as [(b' & p & e & -> & Hb & _)
                 |(st & results & e1 & Hrep & Hrb & Hst & Hpass & Hfail & Hseal)].
  { view_simpl. rewrite Hb. by view_simpl. }
  cbv zeta in *. view_simpl. rewrite Hrep. simpl. intros [= <-].
  exists tcs, st, results, e1.
  assert (simulated (pre ++ CInsertReport run id (seedReport r id tcs) None :: body)
          = simulated body) as ->.
  { unfold simulated. by view_simpl. }
  revert Hf. view_simpl. intros Hf.
  split; [done|]. split; [done|]. split; [done|]. split; [done|].
  split; [done|]. split; [done|]. split; [done|]. split; [done|].
  destruct e1; simpl in *; by view_simpl.
Qed.

Lemma RunTestSet_resultSpec id run app serve s :
  resultSpec (RunTestSet r id run app serve s).1.1.
Proof.
  pose proof (RunTestSet_run_spec r id run app serve s) as Hs.
  destruct (RunTestSet r id run app serve s) as [[res s'] t]. simpl in *.
  unfold resultSpec.
  destruct Hs as [(_ & _ & He)|(tcs & pre & t' & _ & _ & _ & _ & _ & Hr)].
  - destruct He as [->|[[e ->]|[->|(sc & e & t0 & -> & _)]]]; simpl; auto.
  - destruct Hr as [(e & _ & -> & _)|(body & _ & Hr)]; [simpl; auto|].
    destruct Hr as [(b' & p & e & _ & _ & _ & -> & _)
                   |(st & results & e1 & _ & _ & Hst & _ & _ & Hseal)];
      [simpl; auto|].
    destruct e1 as [e1|]; simpl in Hseal.
    + destruct Hseal as (-> & _). simpl. auto.
    + destruct Hseal as (-> & _). done.
Qed.

Lemma RunTestSet_all_calls id run app serve s :
  Forall (λ c, isPreCall c || isReportCall c = true)
    (RunTestSet r id run app serve s).2.
Proof.
  pose proof (RunTestSet_run_spec r id run app serve s) as Hs.
  destruct (RunTestSet r id run app serve s) as [[res s'] t]. simpl in *.
  destruct Hs as [(Hp & _)|(tcs & pre & t' & _ & _ & -> & Hpre & Hc & _)].
  - eapply Forall_impl; [exact Hp|]. by intros c ->.
  - apply Forall_app. split; (eapply Forall_impl; [eassumption|]).
    + by intros c ->.
    + intros c ->. apply orb_true_r.
Qed.

(** X1: the pairs of status and error [RunTestSet] returns.  With a nil
    error the status is one of [PASSED], [FAILED], [APP_HALTED],
    [USER_ABORT], [FAULT_USER_APP] and [INTERNAL_ERR], the six the [switch]
    of [Start] names: never [RUNNING] or [FAULT_SCRIPT].  With an error the
    status is [FAILED], [FAULT_SCRIPT], [USER_ABORT] (the error is then
    [context.Canceled]) or [INTERNAL_ERR] (the error is then "failed to
    insert report"). *)
Theorem RunTestSet_result_statuses id run app serve s :
  resultSpec (RunTestSet r id run app serve s).1.1.
Proof. apply RunTestSet_resultSpec. Qed.

(** X2: the reports [RunTestSet] hands to [InsertReport].  There are none,
    or the run fetched a non-empty list of test cases and seeded, for this
    run and set, a report with status [RUNNING], zero counters, no tests and
    [Total] the size of the selection (the number of test cases when
    nothing is selected); that report is the only one, or it was stored and
    is followed by one terminal report for the same run and set, with the
    same [Total] and [Version], named after the set, whose [Tests] are
    what [GetTestCaseResults] delivered. *)
Theorem RunTestSet_reports id run app serve s :
  let t := (RunTestSet r id run app serve s).2 in
  t ≫= insertReportOf = []
  ∨ ∃ tcs, tcs ≠ [] ∧ t ≫= fetchedOf = [tcs]
      ∧ ((∃ e, t ≫= insertReportOf = [(run, id, seedReport r id tcs, e)])
         ∨ ∃ rep e1,
             t ≫= insertReportOf
             = [(run, id, seedReport r id tcs, None); (run, id, rep, e1)]
             ∧ Total rep = Total (seedReport r id tcs)
             ∧ Version rep = Version (seedReport r id tcs)
             ∧ rTestSet rep = id
             ∧ t ≫= readBackOf = [Tests rep]).
Proof.
  pose proof (RunTestSet_run_spec r id run app serve s) as Hs.
  destruct (RunTestSet r id run app serve s) as [[res s'] t]. simpl in *.
  destruct Hs as [(Hp & _ & _)|(tcs & pre & t' & Hne & Hf & -> & Hpre & Hc & Hr)].
  { left. by view_simpl. }
  right. exists tcs. split; [done|]. split; [done|].
  destruct Hr as [(e & -> & _)|(body & -> & Hr)].
  { left. exists (Some e). by view_simpl. }
  apply Forall_cons in Hc as [_ Hc].
  destruct Hr as [(b' & p & e & -> & Hb & _)
                 |(st & results & e1 & Hrep & Hrb & _)].
  { left. exists None. view_simpl. rewrite Hb. by view_simpl. }
  right. cbv zeta in *. eexists _, e1. view_simpl. rewrite Hrep.
  split; [done|]. split; [done|]. split; [done|]. split; [done|].
  by view_simpl.
Qed.

(** X3: the counters of the terminal report.  [Success] is the number of
    simulated requests whose response matched, [Failure] the number of
    those that got no response or one that differed (both as Go [int]s);
    every simulated request is counted once, so that below [2^63]
    requests the two add up to the number of requests simulated. *)
Theorem RunTestSet_counters id run app serve s rep :
  terminalReport (RunTestSet r id run app serve s).2 = Some rep →
  let sims := simulated (RunTestSet r id run app serve s).2 in
  Success rep = int_wrap (Z.of_nat (countOf (countsSuccess r id) sims))
  ∧ Failure rep = int_wrap (Z.of_nat (countOf (countsFailure r id) sims))
  ∧ (Z.of_nat (length sims) < 2 ^ 63 →
     Success rep + Failure rep = Z.of_nat (length sims)).
Proof.
  intros Hrep. destruct (RunTestSet_terminal_inv _ _ _ _ _ _ Hrep)
    as (tcs & st & results & e1 & _ & _ & -> & _).
  cbv zeta. simpl. rewrite !int_incr_wrap. split; [done|]. split; [done|].
  intros Hlen.
  pose proof (countOf_negb (countsSuccess r id)
                (simulated (RunTestSet r id run app serve s).2)) as Hsum.
  change (λ x, negb (countsSuccess r id x)) with (countsFailure r id) in Hsum.
  rewrite !int_wrap_small; lia.
Qed.

(** X4: a terminal report with status [PASSED] means that no response
    differed from the recorded one: every simulated request either got a
    matching response or none at all, and [Failure] counts exactly the
    requests that got no response. *)
Theorem RunTestSet_passed_report id run app serve s rep :
  terminalReport (RunTestSet r id run app serve s).2 = Some rep →
  Status rep = "PASSED" →
  let sims := simulated (RunTestSet r id run app serve s).2 in
  Forall (λ x, verdictOf r id x ≠ Some false) sims
  ∧ Failure rep = int_wrap (Z.of_nat (countOf noResponse sims)).
Proof.
  intros Hrep Hst. destruct (RunTestSet_terminal_inv _ _ _ _ _ _ Hrep)
    as (tcs & st & results & e1 & _ & _ & -> & _ & _ & _ & Hp & _).
  cbv zeta in *. simpl in Hst.
  apply (TestSetStatus_string_inj st TestSetStatusPassed) in Hst.
  specialize (Hp Hst). split; [done|]. simpl. rewrite int_incr_wrap.
  do 2 f_equal. apply countOf_ext.
  eapply Forall_impl; [exact Hp|]. intros [tc [resp [e|]]] Hx; [done|].
  unfold countsFailure, countsSuccess, noResponse, verdictOf in *. simpl in *.
  by destruct (compareResp r tc resp id).1.
Qed.

(** X5: a terminal report with status [FAILED] means that the response to
    some simulated request differed from the recorded one. *)
Theorem RunTestSet_failed_report id run app serve s rep :
  terminalReport (RunTestSet r id run app serve s).2 = Some rep →
  Status rep = "FAILED" →
  Exists (λ x, verdictOf r id x = Some false)
    (simulated (RunTestSet r id run app serve s).2).
Proof.
  intros Hrep Hst. destruct (RunTestSet_terminal_inv _ _ _ _ _ _ Hrep)
    as (tcs & st & results & e1 & _ & _ & -> & _ & _ & _ & _ & Hf & _).
  cbv zeta in *. simpl in Hst.
  apply (TestSetStatus_string_inj st TestSetStatusFailed) in Hst. by apply Hf.
Qed.

(** X6: the package-level verdict map and totals.  When [RunTestSet]
    returns a nil error after handing over a terminal report, the verdict
    of the set is stored under its name (total, passed and failed from the
    report, and whether the returned status is [PASSED]) and the three
    totals go up by the report's [Total], [Success] and [Failure].  In
    every other case (an error is returned, or the set has no test cases)
    the four variables are left as they were. *)
Theorem RunTestSet_globals id run app serve s :
  let out := RunTestSet r id run app serve s in
  match terminalReport out.2, out.1.1.2 with
  | Some rep, None => sealedGlobals id rep out.1.1.1 (globals s) (globals out.1.2)
  | _, _ => globals out.1.2 = globals s
  end.
Proof.
  cbv zeta.
  destruct (terminalReport (RunTestSet r id run app serve s).2) as [rep|] eqn:Hrep.
  - destruct (RunTestSet_terminal_inv _ _ _ _ _ _ Hrep)
      as (tcs & st & results & e1 & _ & _ & _ & _ & _ & _ & _ & _ & Hseal).
    cbv zeta in Hseal. destruct e1 as [e1|]; simpl in Hseal.
    + by destruct Hseal as (-> & -> & _).
    + by destruct Hseal as (-> & Hg & _).
  - pose proof (RunTestSet_run_spec r id run app serve s) as Hs.
    destruct (RunTestSet r id run app serve s) as [[res s'] t]. simpl in *.
    assert (globals s' = globals s); [|by destruct res.2].
    unfold terminalReport in Hrep. rewrite reportOf_insertReportOf in Hrep.
    destruct Hs as [(_ & Hg & _)|(tcs & pre & t' & _ & _ & -> & Hpre & Hc & Hr)];
      [done|].
    destruct Hr as [(e & -> & _ & Hg)|(body & -> & Hr)]; [done|].
    apply Forall_cons in Hc as [_ Hc].
    destruct Hr as [(b' & p & e & _ & _ & _ & _ & Hg & _)
                   |(st & results & e1 & Hr & _)]; [done|].
    cbv zeta in Hr. revert Hrep. view_simpl. by rewrite Hr.
Qed.

(** X7: the [TestSetRun] telemetry event.  It is sent once, when
    [RunTestSet] returns a nil error after handing over a terminal report,
    with the report's [Success], [Failure] and [Status] and the name of the
    set, and that status is the one [RunTestSet] returns; in every other
    case no such event is sent. *)
Theorem RunTestSet_telemetry id run app serve s :
  let out := RunTestSet r id run app serve s in
  match terminalReport out.2, out.1.1.2 with
  | Some rep, None =>
      out.2 ≫= testSetRunOf = [(Success rep, Failure rep, id, Status rep)]
      ∧ Status rep = TestSetStatus_string out.1.1.1
  | _, _ => out.2 ≫= testSetRunOf = []
  end.
Proof.
  cbv zeta.
  destruct (terminalReport (RunTestSet r id run app serve s).2) as [rep|] eqn:Hrep.
  - destruct (RunTestSet_terminal_inv _ _ _ _ _ _ Hrep)
      as (tcs & st & results & e1 & _ & _ & Hr & _ & _ & _ & _ & _ & Hseal).
    cbv zeta in Hseal. destruct e1 as [e1|]; simpl in Hseal.
    + by destruct Hseal as (-> & _ & ->).
    + destruct Hseal as (-> & _ & ->). split; [done|]. by rewrite Hr.
  - pose proof (RunTestSet_run_spec r id run app serve s) as Hs.
    destruct (RunTestSet r id run app serve s) as [[res s'] t]. simpl in *.
    assert (t ≫= testSetRunOf = []); [|by destruct res.2].
    unfold terminalReport in Hrep. rewrite reportOf_insertReportOf in Hrep.
    destruct Hs as [(Hp & _)|(tcs & pre & t' & _ & _ & -> & Hpre & Hc & Hr)];
      [by view_simpl|].
    destruct Hr as [(e & -> & _)|(body & -> & Hr)]; [by view_simpl|].
    apply Forall_cons in Hc as [_ Hc].
    destruct Hr as [(b' & p & e & _ & _ & Htel & _)
                   |(st & results & e1 & Hr & _)]; [by view_simpl|].
    cbv zeta in Hr. revert Hrep. view_simpl. by rewrite Hr.
Qed.

(** X8: [FAULT_SCRIPT].  When [RunTestSet] returns [FAULT_SCRIPT], its last
    call is a script command that failed, and the error it returns wraps
    the error of that command: as "failed to execute pre-script: ...", and
    then no report was handed to [InsertReport]; or as "failed to execute
    post-script: ...", and then the seeded [RUNNING] report is the only
    one: no terminal report is written.  In both cases no [TestSetRun]
    event is sent and the package-level variables are left as they were. *)
Theorem RunTestSet_fault_script id run app serve s :
  let out := RunTestSet r id run app serve s in
  out.1.1.1 = TestSetStatusFaultScript →
  (∃ script e pre,
      out.2 = pre ++ [CExecuteCommand script (Some e)]
      ∧ ((out.1.1.2 = Some (preScriptError e) ∧ out.2 ≫= insertReportOf = [])
         ∨ (out.1.1.2 = Some (postScriptError e)
            ∧ ∃ tcs, out.2 ≫= insertReportOf
                     = [(run, id, seedReport r id tcs, None)])))
  ∧ out.2 ≫= testSetRunOf = []
  ∧ globals out.1.2 = globals s.
Proof.
  cbv zeta.
  pose proof (RunTestSet_run_spec r id run app serve s) as Hs.
  destruct (RunTestSet r id run app serve s) as [[res s'] t]. simpl in *.
  intros Hst.
  destruct Hs as [(Hp & Hg & He)|(tcs & pre & t' & _ & _ & -> & Hpre & Hc & Hr)].
  - split; [|split; [by view_simpl|done]].
    destruct He as [->|[[e ->]|[->|(sc & e & t0 & -> & ->)]]]; try done.
    exists sc, e, t0. split; [done|]. left. split; [done|].
    apply (view_nil_Forall _ _ _ Hp). by intros [].
  - destruct Hr as [(e & -> & -> & _)|(body & -> & Hr)]; [done|].
    apply Forall_cons in Hc as [_ Hc].
    destruct Hr as [(b' & p & e & -> & Hb & Htel & -> & Hg & _)
                   |(st & results & e1 & _ & _ & Hsw & _ & _ & Hseal)].
    + split; [|split; [rewrite bind_app, bind_cons, Htel; by view_simpl|done]].
      exists p, e, (pre ++ CInsertReport run id (seedReport r id tcs) None :: b').
      split; [by rewrite <- (assoc_L (++))|]. right. split; [done|].
      exists tcs. view_simpl. rewrite Hb. by view_simpl.
    + exfalso. destruct e1; simpl in Hseal; destruct Hseal as (-> & _);
        simpl in Hst; [done|]. subst st. done.
Qed.

End RunTestSetFacts.

Section GetTestSetStatusFacts.
Context {W : Type} (r : Replayer W).

(** X24: [GetTestSetStatus] reads back what [RunTestSet] returned.  Let
    [StringToTestSetStatus] invert the string conversion on the statuses
    the switch of [Start] names, let [RunTestSet] return without an error
    after handing the terminal report [rep] to [InsertReport], and let the
    report store answer [GetReport] for this run and set with [rep].  Then
    [GetTestSetStatus], run in the state [RunTestSet] left, returns the
    status [RunTestSet] returned and no error, and its only call is that
    [GetReport]. *)
Theorem GetTestSetStatus_after_RunTestSet conv id run app serve s rep w' :
  let out := RunTestSet r id run app serve s in
  (∀ st, isSwitchStatus st = true → conv (TestSetStatus_string st) = (st, None)) →
  terminalReport out.2 = Some rep →
  out.1.1.2 = None →
  GetReport (reportDB r) run id (world out.1.2) = ((rep, None), w') →
  let got := GetTestSetStatus r conv run id out.1.2 in
  got.1.1 = (out.1.1.1, None)
  ∧ got.2 = [CGetReport run id (rep, None)].
Proof.
  intros out Hconv Hrep Herr Hget.
  destruct (RunTestSet_terminal_inv r id run app serve s rep Hrep)
    as (tcs & st & results & e1 & _ & _ & Hr & _ & _ & Hst & _ & _ & Hseal).
  fold out in Hseal. unfold sealSpec in Hseal.
  destruct e1 as [e1|].
  { destruct Hseal as (Hres & _). rewrite Hres in Herr. discriminate Herr. }
  destruct Hseal as (Hres & _). rewrite Hres. simpl.
  unfold GetTestSetStatus, call, mbind, mret, M_bind, M_ret, bind, ret.
  rewrite Hget.
  assert (Status rep = TestSetStatus_string st) as -> by (by rewrite Hr).
  rewrite (Hconv st Hst). done.
Qed.

End GetTestSetStatusFacts.
(** ** The two modes of [RunTestSet] *)

Section Modes.
Context {W : Type} (r : Replayer W).

Ltac mode_start :=
  unfold modeOK; destruct (nonempty (BasePath (Test (config r)))) eqn:Hbp;
  cbn [negb]; rewrite ?andb_false_r, ?andb_true_r.

Ltac mode_absurd :=
  try match goal with
      | E : _ && false = true |- _ => rewrite andb_false_r in E; discriminate E
      end.

Ltac mode_use L :=
  let H := fresh "Hm" in
  wp_use L as H; unfold modeOK in H;
  match goal with E : nonempty _ = _ |- _ => rewrite ?E in H end.

Lemma SetupOrUpdateMocks_mode app id a b act s :
  wp (SetupOrUpdateMocks r app id a b act)
     (λ _ _ t, Forall (λ c, modeOK (config r) c = true) t) s.
Proof.
  unfold SetupOrUpdateMocks, GetMocks. mode_start; wp_steps; solve_Forall.
Qed.

Lemma executeScript_mode script s :
  nonempty (BasePath (Test (config r))) = true →
  wp (executeScript r script)
     (λ _ _ t, Forall (λ c, modeOK (config r) c = true) t) s.
Proof.
  intros Hbp. unfold modeOK. rewrite Hbp.
  unfold executeScript. wp_steps; solve_Forall.
Qed.

Lemma RunTestSet_case_mode id run app ip sel tc v s :
  wp (RunTestSet_case r id run app ip sel tc v)
     (λ _ _ t, Forall (λ c, modeOK (config r) c = true) t) s.
Proof.
  unfold RunTestSet_case, replaceHost. mode_start.
  - wp_step; [wp_steps; solve_Forall|].
    cbv zeta. wp_step. wp_step. wp_step; [wp_steps; solve_Forall|].
    wp_step. mode_use SetupOrUpdateMocks_mode. wp_steps; mode_absurd; solve_Forall.
  - wp_step; [wp_steps; solve_Forall|].
    cbv zeta. wp_step. wp_step. wp_step; [wp_steps; solve_Forall|].
    wp_step. mode_use SetupOrUpdateMocks_mode. wp_steps; mode_absurd; solve_Forall.
Qed.

Lemma RunTestSet_loop_mode id run app ip sel tcs v s :
  wp (RunTestSet_loop r id run app ip sel tcs v)
     (λ _ _ t, Forall (λ c, modeOK (config r) c = true) t) s.
Proof.
  revert v s. induction tcs as [|tc tcs IH]; intros v s; simpl.
  - by wp_steps.
  - wp_step. wp_use RunTestSet_case_mode. wp_step. wp_step.
    + wp_use IH. solve_Forall.
    + wp_steps; solve_Forall.
Qed.

Lemma RunTestSet_finish_mode id run post n loopErr v s :
  wp (RunTestSet_finish r id run post n loopErr v)
     (λ _ _ t, Forall (λ c, modeOK (config r) c = true) t) s.
Proof.
  unfold RunTestSet_finish, RunTestSet_status, RunTestSet_seal, executeScript.
  mode_start; wp_steps; mode_absurd; solve_Forall.
Qed.

Lemma RunTestSet_report_mode id run app post ip tcs tk s :
  wp (RunTestSet_report r id run app post ip tcs tk)
     (λ _ _ t, Forall (λ c, modeOK (config r) c = true) t) s.
Proof.
  unfold RunTestSet_report. cbv zeta. wp_step. wp_step. wp_step.
  - wp_steps. unfold modeOK. destruct (nonempty _); solve_Forall.
  - wp_step. wp_use RunTestSet_loop_mode. wp_use RunTestSet_finish_mode.
    apply Forall_cons. split; [|by apply Forall_app].
    unfold modeOK. by destruct (nonempty _).
Qed.

Lemma RunTestSet_supervise_mode id run app serve post tcs s :
  wp (RunTestSet_supervise r id run app serve post tcs)
     (λ _ _ t, Forall (λ c, modeOK (config r) c = true) t) s.
Proof.
  unfold RunTestSet_supervise. wp_step. wp_step. cbv zeta.
  destruct (nonempty (BasePath (Test (config r)))) eqn:Hbp.
  { apply RunTestSet_report_mode. }
  wp_step. wp_step; wp_steps;
    lazymatch goal with
    | |- wp _ _ _ => mode_use RunTestSet_report_mode
    | |- _ => idtac
    end; unfold modeOK; rewrite Hbp; solve_Forall.
Qed.

Lemma RunTestSet_cases_mode id run app serve post s :
  wp (RunTestSet_cases r id run app serve post)
     (λ _ _ t, Forall (λ c, modeOK (config r) c = true) t) s.
Proof.
  unfold RunTestSet_cases. wp_step. wp_step. wp_step. wp_step.
  { wp_steps. unfold modeOK. destruct (nonempty _); solve_Forall. }
  wp_step.
  { wp_steps. unfold modeOK. destruct (nonempty _); solve_Forall. }
  wp_step. wp_step. wp_step. wp_use SetupOrUpdateMocks_mode as Hm.
  wp_step.
  { wp_steps. apply Forall_cons. split; [unfold modeOK; by destruct (nonempty _)|].
    apply Forall_cons. split; [unfold modeOK; by destruct (nonempty _)|].
    solve_Forall. }
  wp_use RunTestSet_supervise_mode as Hs.
  apply Forall_cons. split; [unfold modeOK; by destruct (nonempty _)|].
  apply Forall_cons. split; [unfold modeOK; by destruct (nonempty _)|].
  by apply Forall_app.
Qed.

Lemma RunTestSet_mode id run app serve s :
  wp (RunTestSet r id run app serve)
     (λ _ _ t, Forall (λ c, modeOK (config r) c = true) t) s.
Proof.
  unfold RunTestSet.
  destruct (nonempty (BasePath (Test (config r)))) eqn:Hbp;
    [|apply RunTestSet_cases_mode].
  wp_step. wp_step. wp_step.
  assert (∀ x, modeOK (config r) (CConfRead id x) = true) as Hconf.
  { intros x. unfold modeOK. by rewrite Hbp. }
  wp_step; [wp_steps; solve_Forall|].
  wp_step; [|wp_steps; solve_Forall].
  wp_step. wp_use (executeScript_mode _ _ Hbp) as Hx.
  wp_step; [wp_steps; solve_Forall|].
  wp_use RunTestSet_cases_mode as Hc. solve_Forall.
Qed.

(** X9: with a base path configured, [RunTestSet] leaves mocks,
    instrumentation and application alone: it fetches no mocks, calls
    none of [MockOutgoing], [SetMocks], [GetConsumedMocks], [UpdateMocks]
    and [GetContainerIP], and does not start the application. *)
Theorem RunTestSet_base_path_calls id run app serve s :
  nonempty (BasePath (Test (config r))) = true →
  Forall (λ c, isInstrumentationCall c = false)
    (RunTestSet r id run app serve s).2.
Proof.
  intros Hbp. pose proof (RunTestSet_mode id run app serve s) as Hm.
  unfold wp, modeOK in Hm. rewrite Hbp in Hm.
  eapply Forall_impl; [exact Hm|]. intros c Hc. by apply negb_true_iff in Hc.
Qed.

(** X10: without a base path, [RunTestSet] reads no test-set configuration
    and runs no script, neither before nor after the test cases. *)
Theorem RunTestSet_no_base_path_calls id run app serve s :
  BasePath (Test (config r)) = "" →
  Forall (λ c, isOverrideCall c = false) (RunTestSet r id run app serve s).2.
Proof.
  intros Hbp. pose proof (RunTestSet_mode id run app serve s) as Hm.
  unfold wp, modeOK in Hm. rewrite Hbp in Hm. simpl in Hm.
  eapply Forall_impl; [exact Hm|]. intros c Hc. by apply negb_true_iff in Hc.
Qed.

(** *** The start of the application *)

Lemma SetupOrUpdateMocks_start app id a b s :
  wp (SetupOrUpdateMocks r app id a b ActionStart)
     (λ err _ t,
        Forall (λ c, isMockCall c = true) t
        ∧ (err = None → nonempty (BasePath (Test (config r))) = false →
           ∃ opts f u, CMockOutgoing app opts None ∈ t
                       ∧ CSetMocks app f u None ∈ t)) s.
Proof.
  apply wp_conj; [apply SetupOrUpdateMocks_calls|].
  unfold SetupOrUpdateMocks, GetMocks.
  destruct (nonempty (BasePath (Test (config r)))); [by wp_steps|].
  wp_steps; intros Herr _; try discriminate Herr; subst;
    eexists _, _, _; split;
    repeat first
      [ apply elem_of_app; left; apply elem_of_cons; left; reflexivity
      | apply elem_of_cons; left; reflexivity
      | apply elem_of_app; right ].
Qed.

Lemma RunTestSet_supervise_start id run app serve post tcs s :
  wp (RunTestSet_supervise r id run app serve post tcs)
     (λ _ _ t,
        Forall (λ c, isGoRun c = false) t
        ∨ (serve = false
           ∧ nonempty (BasePath (Test (config r))) = false
           ∧ ∃ rest, t = CGoRunApplication app :: rest
                     ∧ Forall (λ c, isGoRun c = false) rest)) s.
Proof.
  unfold RunTestSet_supervise. wp_step. wp_step. cbv zeta.
  wp_step; [wp_use RunTestSet_report_calls; left; solve_Forall|].
  wp_step. destruct serve.
  - wp_steps; try wp_use RunTestSet_report_calls; left; solve_Forall.
  - wp_steps; try wp_use RunTestSet_report_calls; right;
      (split; [done|]); (split; [done|]); eexists; (split; [reflexivity|]);
      solve_Forall.
Qed.

Lemma RunTestSet_cases_start id run app serve post s :
  wp (RunTestSet_cases r id run app serve post)
     (λ _ _ t, appStartSpec app serve t) s.
Proof.
  unfold RunTestSet_cases, appStartSpec. wp_step. wp_step. wp_step. wp_step.
  { wp_steps. left. solve_Forall. }
  wp_step; [wp_steps; left; solve_Forall|].
  wp_step. wp_step. wp_step.
  wp_use SetupOrUpdateMocks_start as Hm. destruct Hm as [Hc Hm].
  wp_step; [wp_steps; left; solve_Forall|].
  wp_use RunTestSet_supervise_start as Hs.
  destruct Hs as [Hs|(-> & Hbp & rest & -> & Hrest)]; [left; solve_Forall|].
  right. split; [done|].
  destruct (Hm eq_refl Hbp) as (opts & f & u & Ho & Hset).
  eexists (_ :: _ :: t), rest, opts, f, u.
  split; [reflexivity|].
  split; [by do 2 right|]. split; [by do 2 right|].
  split; [solve_Forall|]. split; [solve_Forall|done].
Qed.

Lemma appStartSpec_prefix app serve p t :
  Forall (λ c, isGoRun c = false) p → Forall (λ c, isSimulate c = false) p →
  appStartSpec app serve t → appStartSpec app serve (p ++ t).
Proof.
  intros Hg Hsim [Ht|(Hs & pre & rest & opts & f & u & -> & Ho & Hset & H1 & H2 & H3)].
  - left. by apply Forall_app.
  - right. split; [done|]. exists (p ++ pre), rest, opts, f, u.
    split; [by rewrite (assoc_L (++))|].
    split; [apply elem_of_app; by right|]. split; [apply elem_of_app; by right|].
    split; [by apply Forall_app|]. split; [by apply Forall_app|done].
Qed.

(** X11: the start of the application.  In a run of [RunTestSet] the
    application is not started at all, or it is started once, for the
    instrumented application, by a run that does not serve the test
    itself, after [MockOutgoing] and [SetMocks] returned without error
    and before any request is simulated. *)
Theorem RunTestSet_application_start id run app serve s :
  appStartSpec app serve (RunTestSet r id run app serve s).2.
Proof.
  change (wp (RunTestSet r id run app serve)
            (λ _ _ t, appStartSpec app serve t) s).
  unfold RunTestSet. wp_step; [|apply RunTestSet_cases_start].
  wp_step. wp_step. wp_step.
  wp_step; [wp_steps; left; solve_Forall|].
  wp_step; [|wp_steps; left; solve_Forall].
  wp_step. wp_use executeScript_calls.
  wp_step; [wp_steps; left; solve_Forall|].
  wp_use RunTestSet_cases_start as Hc.
  repeat (apply appStartSpec_prefix; [solve_Forall|solve_Forall|]). done.
Qed.

End Modes.
(** ** Which requests are simulated, and what is recorded of them *)

(** Finding a call in a trace put together from calls. *)
Ltac elem_find :=
  repeat first
    [ apply elem_of_app; left; apply elem_of_cons; left; reflexivity
    | apply elem_of_cons; left; reflexivity
    | apply elem_of_app; right ].

Section Order.
Context {W : Type} (r : Replayer W).

Lemma sent_URL (ip : string) (tc tc' : TestCase) e :
  replaceHost r ip (replaceBase r tc) = (tc', e) →
  tc' = tc_set_URL (URL (tcHTTPReq tc')) tc.
Proof.
  destruct tc as [n [m pM pm u ps h b bi f ts] resp noise].
  unfold replaceHost, replaceBase, tc_set_URL, set_URL. simpl.
  repeat case_match; intros; simplify_eq; reflexivity.
Qed.

Lemma RunTestSet_case_order id run app ip sel tc v s :
  wp (RunTestSet_case r id run app ip sel tc v)
     (λ a _ t,
        if isSelected sel tc
        then (simulated t = [] ∧ a.1 = Break)
             ∨ ∃ x, simulated t = [x] ∧ sentFor x tc
        else simulated t = [] ∧ a.1 = Continue) s.
Proof.
  unfold RunTestSet_case, isSelected, simulated.
  destruct (negb (bool_decide (Name tc ∈ sel)) && negb (map_len sel =? 0));
    [by wp_steps|].
  cbn [negb]. cbv zeta. wp_step. wp_step. wp_step; [wp_steps; left; by view_simpl|].
  wp_step. wp_use SetupOrUpdateMocks_calls.
  wp_step; [wp_steps; left; by view_simpl|].
  wp_step. apply sent_URL in Ecase0.
  wp_steps; view_simpl; first [by left | right; eexists; split; [reflexivity|done]].
Qed.

Lemma RunTestSet_loop_order id run app ip sel tcs v s :
  wp (RunTestSet_loop r id run app ip sel tcs v)
     (λ _ _ t, orderSpec sel tcs (simulated t)) s.
Proof.
  revert v s. induction tcs as [|tc tcs IH]; intros v s; simpl.
  - wp_steps. by exists [], [].
  - wp_step. wp_use RunTestSet_case_order as Hc. wp_step. simpl in Hc.
    unfold orderSpec. simpl. wp_step.
    + wp_use IH as Hl. destruct Hl as (sent & rest & Heq & Hsent).
      unfold simulated in *. rewrite bind_app.
      destruct (isSelected sel tc).
      * destruct Hc as [[_ ?]|(x & -> & Hx)]; [done|].
        exists (tc :: sent), rest. rewrite Heq. split; [done|]. by constructor.
      * destruct Hc as [-> _]. by exists sent, rest.
    + wp_steps. rewrite app_nil_r. destruct (isSelected sel tc); [|by destruct Hc].
      destruct Hc as [[-> _]|(x & -> & Hx)].
      * by eexists [], _.
      * eexists [tc], _. split; [done|]. by repeat constructor.
Qed.

Lemma RunTestSet_report_order id run app post ip tcs tk s :
  wp (RunTestSet_report r id run app post ip tcs tk)
     (λ _ _ t, orderSpec (selectedTestsOf (config r) id) tcs (simulated t)) s.
Proof.
  unfold RunTestSet_report, simulated. cbv zeta. wp_step. wp_step. wp_step.
  { wp_steps. view_simpl. by eexists [], _. }
  wp_step. wp_use RunTestSet_loop_order as Hl.
  wp_use RunTestSet_finish_calls. view_simpl. exact Hl.
Qed.

(** X12: which requests are simulated.  Of the test cases [tcs] a run of
    [RunTestSet] fetched, it keeps those the selection of the set names
    (all of them when nothing is selected), in their stored order; the
    requests it hands to [SimulateRequest] are sent for the first of
    these, one request each and in that order, and each request is its
    test case up to the URL of the request. *)
Theorem RunTestSet_simulation_order id run app serve s tcs :
  (RunTestSet r id run app serve s).2 ≫= fetchedOf = [tcs] →
  ∃ sent rest,
    List.filter (isSelected (selectedTestsOf (config r) id)) tcs = sent ++ rest
    ∧ Forall2 sentFor (simulated (RunTestSet r id run app serve s).2) sent.
Proof.
  pose proof (RunTestSet_inv r id run app serve s) as Hi. unfold wp in Hi.
  destruct (RunTestSet r id run app serve s) as [[res s'] t]. simpl in *.
  intros Htcs.
  destruct Hi as [(Hp & _)|(tcs' & _ & Hf & pre & t' & post & ip & tk & s1
                           & -> & Hpre & Heq & _)].
  { exists [], (List.filter (isSelected (selectedTestsOf (config r) id)) tcs).
    split; [done|]. unfold simulated. view_simpl. constructor. }
  rewrite Hf in Htcs. injection Htcs as ->.
  pose proof (RunTestSet_report_order id run app post ip tcs tk s1) as Ho.
  unfold wp in Ho. rewrite Heq in Ho. simpl in Ho.
  unfold simulated in *. by view_simpl.
Qed.

(** *** The results recorded *)

Lemma resultsSpec_none id run app t :
  Forall (λ c, isInsertResult c = false) t → resultsSpec r id run app t.
Proof.
  intros Ht run' id' tr e Hin. by apply (proj1 (Forall_forall _ _) Ht) in Hin.
Qed.

Lemma resultsSpec_app id run app t1 t2 :
  resultsSpec r id run app t1 → resultsSpec r id run app t2 →
  resultsSpec r id run app (t1 ++ t2).
Proof.
  intros H1 H2 run' id' tr e Hin. apply elem_of_app in Hin as [Hin|Hin].
  - destruct (H1 _ _ _ _ Hin) as (-> & -> & Hs & Hc & tc & resp & Hsim & Hrec).
    split; [done|]. split; [done|].
    split; [apply elem_of_app; by left|]. split; [apply elem_of_app; by left|].
    exists tc, resp. split; [apply elem_of_app; by left|done].
  - destruct (H2 _ _ _ _ Hin) as (-> & -> & Hs & Hc & tc & resp & Hsim & Hrec).
    split; [done|]. split; [done|].
    split; [apply elem_of_app; by right|]. split; [apply elem_of_app; by right|].
    exists tc, resp. split; [apply elem_of_app; by right|done].
Qed.

Lemma RunTestSet_case_results id run app ip sel tc v s :
  wp (RunTestSet_case r id run app ip sel tc v)
     (λ _ _ t, resultsSpec r id run app t) s.
Proof.
  unfold RunTestSet_case.
  wp_step; [wp_steps; apply resultsSpec_none; solve_Forall|].
  cbv zeta. wp_step. wp_step.
  wp_step; [wp_steps; apply resultsSpec_none; solve_Forall|].
  wp_step. wp_use SetupOrUpdateMocks_calls.
  wp_step; [wp_steps; apply resultsSpec_none; solve_Forall|].
  wp_step. wp_step; [wp_steps; apply resultsSpec_none; solve_Forall|].
  wp_step. wp_step. wp_step. wp_step. wp_step. wp_step.
  { wp_steps. apply resultsSpec_none; solve_Forall. }
  wp_steps;
    first
      [ by (apply resultsSpec_none; solve_Forall)
      | intros run' id' tr e' Hin; elem_cases Hin; simplify_eq;
        (split; [done|]); (split; [done|]);
        (split; [elem_find|]); (split; [elem_find|]);
        eexists _, _; (split; [elem_find|]);
        unfold recordsSim; cbn [trName TestCaseID trReq trRes trNoise TestCasePath
                                trStatus trResult];
        split_and!; try done;
        lazymatch goal with
        | Hc : compareResp _ _ _ _ = (?b, _) |- _ => rewrite ?Hc; by destruct b
        end ].
Qed.

Lemma RunTestSet_loop_results id run app ip sel tcs v s :
  wp (RunTestSet_loop r id run app ip sel tcs v)
     (λ _ _ t, resultsSpec r id run app t) s.
Proof.
  revert v s. induction tcs as [|tc tcs IH]; intros v s; simpl.
  - wp_steps. by apply resultsSpec_none.
  - wp_step. wp_use RunTestSet_case_results as Hc. wp_step. wp_step.
    + wp_use IH as Hl. by apply resultsSpec_app.
    + wp_steps. by rewrite app_nil_r.
Qed.

Lemma RunTestSet_report_results id run app post ip tcs tk s :
  wp (RunTestSet_report r id run app post ip tcs tk)
     (λ _ _ t, resultsSpec r id run app t) s.
Proof.
  unfold RunTestSet_report. cbv zeta. wp_step. wp_step. wp_step.
  { wp_steps. apply resultsSpec_none. solve_Forall. }
  wp_step. wp_use RunTestSet_loop_results as Hl.
  wp_use RunTestSet_finish_calls.
  apply (resultsSpec_app _ _ _ [_]); [apply resultsSpec_none; solve_Forall|].
  apply resultsSpec_app; [done|]. apply resultsSpec_none. solve_Forall.
Qed.

(** X13: what is recorded of a test case.  Every result [RunTestSet] hands
    to [InsertTestCaseResult] is stored under the run and the set of the
    call, and belongs to a request simulated before in the same run that
    got a response: it carries the name, the request and the noise of
    that test case as sent, the response received, the outcome of
    [compareResp] on them ([PASSED] or [FAILED], with the comparison's
    [Result]), the path of the set, and two readings of the clock. *)
Theorem RunTestSet_results id run app serve s run' id' tr e :
  CInsertTestCaseResult run' id' tr e ∈ (RunTestSet r id run app serve s).2 →
  run' = run ∧ id' = id
  ∧ CNow (trStarted tr) ∈ (RunTestSet r id run app serve s).2
  ∧ CNow (trCompleted tr) ∈ (RunTestSet r id run app serve s).2
  ∧ ∃ tc resp,
      CSimulateRequest app tc id (resp, None) ∈ (RunTestSet r id run app serve s).2
      ∧ recordsSim r id tr tc resp.
Proof.
  pose proof (RunTestSet_inv r id run app serve s) as Hi. unfold wp in Hi.
  destruct (RunTestSet r id run app serve s) as [[res s'] t]. simpl in *.
  revert run' id' tr e. change (resultsSpec r id run app t).
  destruct Hi as [(Hp & _)|(tcs' & _ & Hf & pre & t' & post & ip & tk & s1
                           & -> & Hpre & Heq & _)].
  { apply resultsSpec_none. solve_Forall. }
  pose proof (RunTestSet_report_results id run app post ip tcs' tk s1) as Ho.
  unfold wp in Ho. rewrite Heq in Ho. simpl in Ho.
  apply resultsSpec_app; [|done]. apply resultsSpec_none. solve_Forall.
Qed.

End Order.
(** ** More of [Start] *)

Section StartFacts.
Context {W : Type} (r : Replayer W).

Ltac ev_simpl :=
  cbn [fst snd];
  rewrite ?fmap_app, ?fmap_cons, ?fmap_nil, <- ?list_fmap_compose, ?app_nil_r.

Ltac ev_Forall :=
  ev_simpl;
  repeat first [ assumption | apply Forall_nil | apply Forall_app; split
               | apply Forall_cons; split
               | apply Forall_fmap, Forall_true; done | done ].

Lemma noHook_ECall (t : list Call) (P : Call → Prop) :
  Forall P t → (∀ c, P c → hookOf c = []) → Forall noHook (ECall <$> t).
Proof.
  intros Ht HP. apply Forall_fmap. eapply Forall_impl; [exact Ht|].
  intros c Hc. by apply HP.
Qed.

Lemma hookOpen_prefix p t : Forall noHook p → hookOpen t → hookOpen (p ++ t).
Proof.
  intros Hp (pre & app & et & mid & -> & Hpre & Hmid).
  exists (p ++ pre), app, et, mid. rewrite (assoc_L (++)).
  split; [done|]. split; [by apply Forall_app|done].
Qed.

Lemma hookOpen_suffix t q : hookOpen t → Forall noHook q → hookOpen (t ++ q).
Proof.
  intros (pre & app & et & mid & -> & Hpre & Hmid) Hq.
  exists pre, app, et, (mid ++ q). rewrite <- (assoc_L (++)).
  split; [done|]. split; [done|by apply Forall_app].
Qed.

Lemma hookFailed_prefix p t : Forall noHook p → hookFailed t → hookFailed (p ++ t).
Proof.
  intros Hp (pre & app & et & e & rest & -> & Hpre & Hrest).
  exists (p ++ pre), app, et, e, rest. rewrite (assoc_L (++)).
  split; [done|]. split; [by apply Forall_app|done].
Qed.

Lemma hookFailed_suffix t q : hookFailed t → Forall noHook q → hookFailed (t ++ q).
Proof.
  intros (pre & app & et & e & rest & -> & Hpre & Hrest) Hq.
  exists pre, app, et, e, (rest ++ q). rewrite <- (assoc_L (++)).
  split; [done|]. split; [done|by apply Forall_app].
Qed.

Lemma hookOpen_release t q :
  hookOpen t → Forall noHook q → hookReleased (t ++ q ++ [ECall CHookCancel]).
Proof.
  intros (pre & app & et & mid & -> & Hpre & Hmid) Hq.
  exists pre, app, et, (mid ++ q). rewrite <- !(assoc_L (++)).
  split; [done|]. split; [done|by apply Forall_app].
Qed.

(** The hooks in [Instrument]: not started; started and released at once,
    with an error; or started, with the handle in the state returned. *)
Lemma Instrument_hooks s :
  wp (Instrument r)
     (λ res _ t,
        (Forall noHook (ECall <$> t) ∧ (res.2 = None → HookCancel res.1 = false))
        ∨ (hookFailed (ECall <$> t) ∧ is_Some res.2)
        ∨ (hookOpen (ECall <$> t) ∧ HookCancel res.1 = true ∧ res.2 = None)) s.
Proof.
  unfold Instrument. wp_steps; ev_simpl;
    first [ by (left; split; [solve_Forall|done])
          | right; left; (split; [|done]);
            do 2 (apply hookFailed_prefix; [solve_Forall|]);
            by eexists [], _, _, _, []
          | right; right; (split; [|done]);
            do 2 (apply hookOpen_prefix; [solve_Forall|]);
            by eexists [], _, _, [] ].
Qed.

Lemma GetNextTestRunID_calls s :
  wp (GetNextTestRunID r) (λ _ _ t, Forall (λ c, isGetRunIDs c = true) t) s.
Proof. unfold GetNextTestRunID. wp_steps; solve_Forall. Qed.

(** What is used of each test set [Start] runs. *)
Lemma RunTestSet_facts id run app serve s :
  wp (RunTestSet r id run app serve)
     (λ res s' t,
        resultSpec res
        ∧ t ≫= hookOf = []) s.
Proof.
  unfold wp. split; [apply RunTestSet_resultSpec|].
  apply (view_nil_Forall _ _ _ (RunTestSet_all_calls r id run app serve s)).
  by intros [].
Qed.

Lemma Start_loop_hooks run app n ids v s :
  wp (Start_loop r run app n ids v) (λ _ _ t, Forall noHook t) s.
Proof.
  revert v s. induction ids as [|id ids IH]; intros v s; simpl.
  - by wp_steps.
  - wp_step; [apply IH|].
    wp_step. wp_step. wp_step. wp_step. wp_step.
    wp_use RunTestSet_facts as Hf. destruct Hf as [_ Hh].
    destruct a as [st e]. cbn [fst snd].
    assert (noHook (ERunTestSet id t st e)) as Hev by exact Hh.
    wp_step; [wp_steps; ev_Forall|].
    destruct st; wp_steps;
      lazymatch goal with
      | |- wp (Start_loop _ _ _ _ _ _) _ _ =>
          eapply wp_mono; [apply IH|]; cbv beta; intros exit s' t' Hl;
          ev_Forall
      | |- _ => ev_Forall
      end.
Qed.

(** The hooks up to the [return] of [Start]: with a handle for the
    deferred function the hook is open; without one, no hook was started
    or it failed and was released. *)
Lemma Start_body_hooks s :
  wp (Start_body r)
     (λ res _ t,
        if res.2 then hookOpen t else Forall noHook t ∨ hookFailed t) s.
Proof.
  unfold Start_body, printSummary.
  wp_step. wp_step. wp_step. wp_step. wp_step.
  { wp_steps; left; ev_Forall. }
  wp_step; [wp_steps; left; ev_Forall|].
  wp_step. apply wp_lift. wp_use GetNextTestRunID_calls as Ht1.
  pose proof (noHook_ECall _ _ Ht1) as Ht1'.
  lapply Ht1'; [clear Ht1'; intros Ht1'|by intros []].
  wp_step. wp_step.
  { wp_steps; left; ev_Forall. }
  wp_step. apply wp_lift. wp_use Instrument_hooks as Hi.
  destruct a as [inst e2]. cbn [fst snd] in Hi.
  wp_step.
  { destruct Hi as [[Hi _]|[[Hi _]|(_ & _ & ?)]]; [| |done].
    - wp_steps; left; ev_Forall.
    - wp_steps; right; rewrite ?app_nil_r;
        do 2 (apply hookFailed_prefix; [ev_Forall|]); exact Hi. }
  wp_step. wp_use Start_loop_hooks as Hl.
  destruct Hi as [[Hi Hc]|[[_ [? ?]]|(Hi & Hc & _)]]; [|done|].
  - rewrite (Hc eq_refl). wp_steps; left; ev_Forall.
  - rewrite Hc.
    wp_steps; rewrite ?app_nil_r;
      do 2 (apply hookOpen_prefix; [ev_Forall|]);
      (apply hookOpen_suffix; [exact Hi|ev_Forall]).
Qed.

(** X14: the hooks.  In a run of [Start] no event but the calls named here
    starts or releases the hooks, so no test set touches them, and one of
    three things holds: [Hook] is not called; [Hook] is called once and
    fails, and the release of its scope is the very next event (by
    [Instrument]); or [Hook] is called once and succeeds, and the release
    of its scope is the last event of the run (by the deferred function of
    [Start], after [utils.Stop]). *)
Theorem Start_hooks s :
  let t := (Start r s).2 in
  (Forall noHook t
   ∨ (∃ pre app et e rest,
        t = pre ++ ECall (CHook app et (Some e)) :: ECall CHookCancel :: rest
        ∧ Forall noHook pre ∧ Forall noHook rest)
   ∨ (∃ pre app et mid,
        t = pre ++ ECall (CHook app et None) :: mid ++ [ECall CHookCancel]
        ∧ Forall noHook pre ∧ Forall noHook mid))
  ∧ Forall (λ ev, match ev with
                  | ERunTestSet _ calls _ _ => calls ≫= hookOf = []
                  | ECall _ => True
                  end) t.
Proof.
  cbv zeta.
  assert (Forall noHook (Start r s).2 ∨ hookFailed (Start r s).2
          ∨ hookReleased (Start r s).2) as Hs.
  { change (wp (Start r)
              (λ _ _ t, Forall noHook t ∨ hookFailed t ∨ hookReleased t) s).
    unfold Start. wp_step. wp_use Start_body_hooks as Hb.
    destruct a as [[err reason] hookCancel]. cbn [fst snd] in Hb.
    destruct hookCancel.
    - wp_steps; right; right; ev_simpl; rewrite ?app_nil_r, ?app_nil_l;
        first [ apply (hookOpen_release _ _ Hb); ev_Forall
              | rewrite (assoc_L (++) (_ <$> _) [_] [_]);
                apply (hookOpen_release _ _ Hb); ev_Forall ].
    - destruct Hb as [Hb|Hb].
      + wp_steps; left; ev_Forall.
      + wp_steps; right; left; apply (hookFailed_suffix _ _ Hb); ev_Forall. }
  split; [exact Hs|].
  assert (∀ l, Forall noHook l →
            Forall (λ ev, match ev with
                          | ERunTestSet _ calls _ _ => calls ≫= hookOf = []
                          | ECall _ => True
                          end) l) as Hno.
  { intros l Hl. eapply Forall_impl; [exact Hl|]. by intros []. }
  destruct Hs as [Hs|[(pre & app & et & e & rest & -> & Hp & Hr)
                     |(pre & app & et & mid & -> & Hp & Hm)]].
  - by apply Hno.
  - apply Forall_app. split; [by apply Hno|].
    apply Forall_cons. split; [done|]. apply Forall_cons. split; [done|].
    by apply Hno.
  - apply Forall_app. split; [by apply Hno|].
    apply Forall_cons. split; [done|]. apply Forall_app. split; [by apply Hno|].
    by apply Forall_cons.
Qed.

(** *** What [utils.Stop] is told *)

Lemma is_Canceled_eq e : is_Canceled e = true → e = context_Canceled.
Proof. by destruct e. Qed.

Lemma stopReasonSpec_error p e :
  stopReasonSpec r
    (Some (if is_Canceled e then e else fmt_Errorf r (p +:+ Error e)))
    (p +:+ Error e).
Proof.
  unfold stopReasonSpec. destruct (is_Canceled e) eqn:He; [|by auto].
  apply is_Canceled_eq in He as ->. right. right. split; [done|]. by exists p.
Qed.

Lemma Start_loop_stop run app n ids v s :
  wp (Start_loop r run app n ids v)
     (λ exit _ t,
        t ≫= stopOf = []
        ∧ match exit with
          | Returned err reason => stopReasonSpec r err reason
          | LoopDone _ => True
          end) s.
Proof.
  revert v s. induction ids as [|id ids IH]; intros v s; simpl.
  - by wp_steps.
  - wp_step; [apply IH|].
    wp_step. wp_step. wp_step. wp_step. wp_step.
    apply wp_intro. intros [st e] s1 t1 _. cbn [fst snd].
    wp_step.
    { lazymatch goal with
      | |- context [is_Canceled ?x] =>
          pose proof (stopReasonSpec_error "failed to run test set: " x) as Hr
      end.
      wp_step; wp_steps; (split; [by view_simpl|]);
        lazymatch goal with
        | E : is_Canceled _ = _ |- _ => try rewrite E in Hr; exact Hr
        end. }
    destruct st; wp_steps;
      lazymatch goal with
      | |- wp (Start_loop _ _ _ _ _ _) _ _ =>
          eapply wp_mono; [apply IH|]; cbv beta; intros exit s' t' [Hl Hx];
          split; [view_simpl; by rewrite ?Hl|done]
      | |- _ => split; [by view_simpl|done]
      end.
Qed.

Lemma stopOf_ECall (t : list Call) (P : Call → Prop) :
  Forall P t → (∀ c, P c → stopOf (ECall c) = []) →
  (ECall <$> t) ≫= stopOf = [].
Proof.
  induction 1 as [|c t Hc _ IH]; intros HP; [done|].
  rewrite fmap_cons, bind_cons, (HP _ Hc), IH; done.
Qed.

Lemma Instrument_calls s :
  wp (Instrument r)
     (λ _ _ t, Forall (λ c, match c with
                            | CSetup _ _ _ | CBackground _ | CHook _ _ _
                            | CHookCancel => true
                            | _ => false
                            end = true) t) s.
Proof. unfold Instrument. wp_steps; solve_Forall. Qed.

(** X15: [utils.Stop].  The deferred function of [Start] calls it at most
    once: not at all when the scope of the run is canceled by then, and
    otherwise once, with a reason that goes with what [Start] returns:
    "replay completed successfully" for a nil error; otherwise the string
    the returned error was made of by [fmt.Errorf], as its format (so the
    message of the error is the reason only as far as [fmt] leaves it
    alone); for [context.Canceled], a message ending in its text; and
    again "replay completed successfully" when [Start] returns the error
    that no test sets were found. *)
Theorem Start_stop s :
  let out := Start r s in
  (out.2 ≫= stopOf = [] ∧ ctxDone out.1.2 = true)
  ∨ ∃ reason res,
      out.2 ≫= stopOf = [(reason, res)]
      ∧ ctxDone out.1.2 = false
      ∧ stopReasonSpec r out.1.1 reason.
Proof.
  change (wp (Start r)
            (λ err s' t,
               (t ≫= stopOf = [] ∧ ctxDone s' = true)
               ∨ ∃ reason res,
                   t ≫= stopOf = [(reason, res)]
                   ∧ ctxDone s' = false
                   ∧ stopReasonSpec r err reason) s).
  unfold Start. wp_step.
  eapply wp_mono with
    (Q := λ res _ t, t ≫= stopOf = [] ∧ stopReasonSpec r res.1.1 res.1.2).
  { unfold Start_body, printSummary.
    wp_step. wp_step. wp_step. wp_step. wp_step.
    { lazymatch goal with
      | |- context [is_Canceled ?x] =>
          pose proof (stopReasonSpec_error "failed to get all test set ids: " x) as Hr
      end.
      wp_step; wp_steps; (split; [by view_simpl|]); cbn [fst snd];
        lazymatch goal with
        | E : is_Canceled _ = _ |- _ => try rewrite E in Hr; exact Hr
        end. }
    wp_step; [wp_steps; split; [by view_simpl|by left]|].
    wp_step. apply wp_lift. wp_use GetNextTestRunID_calls as Ht1.
    pose proof (stopOf_ECall _ _ Ht1) as Ht1'.
    lapply Ht1'; [clear Ht1'; intros Ht1'|by intros []].
    wp_step. wp_step.
    { lazymatch goal with
      | |- context [is_Canceled ?x] =>
          pose proof (stopReasonSpec_error "failed to get next test run id: " x) as Hr
      end.
      wp_step; wp_steps; (split; [view_simpl; by rewrite Ht1'|]); cbn [fst snd];
        lazymatch goal with
        | E : is_Canceled _ = _ |- _ => try rewrite E in Hr; exact Hr
        end. }
    wp_step. apply wp_lift. wp_use Instrument_calls as Ht2.
    pose proof (stopOf_ECall _ _ Ht2) as Ht2'.
    lapply Ht2'; [clear Ht2'; intros Ht2'|by intros []].
    wp_step. wp_step.
    { lazymatch goal with
      | |- context [is_Canceled ?x] =>
          pose proof (stopReasonSpec_error "failed to instrument: " x) as Hr
      end.
      wp_step; wp_steps; (split; [view_simpl; by rewrite Ht1', Ht2'|]);
        cbn [fst snd];
        lazymatch goal with
        | E : is_Canceled _ = _ |- _ => try rewrite E in Hr; exact Hr
        end. }
    wp_step. wp_use Start_loop_stop as Hl. destruct Hl as [Hl Hx].
    wp_steps; (split; [view_simpl; by rewrite Ht1', Ht2', Hl|done]). }
  cbv beta. intros [[err reason] hookCancel] s1 t1 [Ht1 Hr]. cbn [fst snd] in Hr.
  wp_step. wp_step. wp_step. wp_step.
  lazymatch goal with
  | |- wp (if ?c then _ else _) _ _ => destruct c eqn:Hdone
  end.
  - wp_steps; left;
      (split; [rewrite <- ?list_fmap_compose; view_simpl; by rewrite Ht1|done]).
  - wp_steps; right; eexists _, _;
      (split; [rewrite <- ?list_fmap_compose; view_simpl; rewrite Ht1;
               reflexivity|done]).
Qed.

(** *** Which test sets are run *)

Lemma setOf_ECall (t : list Call) (P : Call → Prop) :
  Forall P t → (∀ c, P c → setOf (ECall c) = []) →
  (ECall <$> t) ≫= setOf = [].
Proof.
  induction 1 as [|c t Hc _ IH]; intros HP; [done|].
  rewrite fmap_cons, bind_cons, (HP _ Hc), IH; done.
Qed.

Lemma Start_loop_sets run app n ids v s :
  wp (Start_loop r run app n ids v)
     (λ _ _ t,
        ∃ ran rest,
          List.filter (isSelectedSet (config r)) ids = ran ++ rest
          ∧ t ≫= setOf = ran ≫= λ id, [inl id; inr id]) s.
Proof.
  revert v s. induction ids as [|id ids IH]; intros v s; simpl.
  - wp_steps. by exists [], [].
  - unfold isSelectedSet at 1.
    destruct (negb (bool_decide (is_Some (cfgSelectedTests (Test (config r)) !! id)))
              && negb (bool_decide (size (cfgSelectedTests (Test (config r))) = O))).
    { apply IH. }
    cbn [negb].
    wp_step. wp_step. wp_step. wp_step. wp_step.
    apply wp_intro. intros [st e] s1 t1 _. cbn [fst snd].
    wp_step.
    { wp_steps; exists [id]; eexists; (split; [reflexivity|]); by view_simpl. }
    destruct st; wp_steps;
      lazymatch goal with
      | |- wp (Start_loop _ _ _ _ _ _) _ _ =>
          eapply wp_mono; [apply IH|]; cbv beta;
          intros exit s' t' (ran & rest & Heq & Hl);
          exists (id :: ran), rest; rewrite Heq; split; [done|];
          view_simpl; by rewrite Hl
      | |- _ => exists [id]; eexists; (split; [reflexivity|]); by view_simpl
      end.
Qed.

(** X16: which test sets are run, and in which order.  Of the test sets
    [GetAllTestSetIDs] returned, [Start] keeps those the configured
    selection names (all of them when nothing is selected), in the order
    of the store; it announces to the emulator and then runs the first of
    these, one after the other, each once, and no other test set. *)
Theorem Start_test_sets s ids :
  head (Start r s).2 = Some (ECall (CGetAllTestSetIDs (ids, None))) →
  ∃ ran rest,
    List.filter (isSelectedSet (config r)) ids = ran ++ rest
    ∧ (Start r s).2 ≫= setOf = ran ≫= λ id, [inl id; inr id].
Proof.
  change (wp (Start r)
            (λ _ _ t,
               head t = Some (ECall (CGetAllTestSetIDs (ids, None))) →
               ∃ ran rest,
                 List.filter (isSelectedSet (config r)) ids = ran ++ rest
                 ∧ t ≫= setOf = ran ≫= λ id, [inl id; inr id]) s).
  unfold Start, Start_body, printSummary.
  wp_step. wp_step. wp_step. wp_step. wp_step. wp_step.
  { wp_steps; intros [=]. }
  wp_step.
  { wp_steps; intros [= <-]; exists []; eexists; (split; [reflexivity|]);
      rewrite <- ?list_fmap_compose; by view_simpl. }
  wp_step. apply wp_lift. wp_use GetNextTestRunID_calls as Ht1.
  pose proof (setOf_ECall _ _ Ht1) as Ht1'.
  lapply Ht1'; [clear Ht1'; intros Ht1'|by intros []].
  wp_step. wp_step.
  { wp_steps; intros [= <-]; exists []; eexists; (split; [reflexivity|]);
      rewrite <- ?list_fmap_compose, ?bind_app, ?Ht1'; by view_simpl. }
  wp_step. apply wp_lift. wp_use Instrument_calls as Ht2.
  pose proof (setOf_ECall _ _ Ht2) as Ht2'.
  lapply Ht2'; [clear Ht2'; intros Ht2'|by intros []].
  wp_step. wp_step.
  { wp_steps; intros [= <-]; exists []; eexists; (split; [reflexivity|]);
      rewrite <- ?list_fmap_compose, ?bind_app, ?Ht1', ?Ht2'; by view_simpl. }
  wp_step. wp_use Start_loop_sets as Hl. destruct Hl as (ran & rest & Heq & Hl).
  wp_steps; intros [= <-]; exists ran, rest; (split; [done|]);
    rewrite <- ?list_fmap_compose, ?bind_app, ?Ht1', ?Ht2', ?Hl; by view_simpl.
Qed.

(** *** The end of a run: telemetry and summary *)

Lemma existsb_ECall (t : list Call) : existsb setNotPassed (ECall <$> t) = false.
Proof. induction t as [|c t IH]; [done|]. by rewrite fmap_cons. Qed.

Lemma Start_loop_result run app n ids v s :
  wp (Start_loop r run app n ids v)
     (λ exit _ t,
        t ≫= testRunOf = [] ∧ t ≫= summaryOf = []
        ∧ match exit with
          | LoopDone v' =>
              testRunResult v' = testRunResult v && negb (existsb setNotPassed t)
          | Returned _ _ => True
          end) s.
Proof.
  revert v s. induction ids as [|id ids IH]; intros v s; simpl.
  - wp_steps. by rewrite andb_true_r.
  - wp_step; [apply IH|].
    wp_step. wp_step. wp_step. wp_step. wp_step.
    wp_use RunTestSet_facts as Hf. destruct Hf as [Hres _].
    destruct a as [st e]. cbn [fst snd].
    wp_step; [by wp_steps|].
    unfold resultSpec in Hres. cbn [fst snd] in Hres.
    destruct st; try discriminate Hres; wp_steps;
      lazymatch goal with
      | |- wp (Start_loop _ _ _ _ _ _) _ _ =>
          eapply wp_mono; [apply IH|]; cbv beta;
          intros exit s' t' (Hl1 & Hl2 & Hl);
          (split; [view_simpl; by rewrite ?Hl1|]);
          (split; [view_simpl; by rewrite ?Hl2|]);
          destruct exit; [done|]; rewrite Hl; simpl;
          rewrite ?existsb_app; simpl;
          by destruct (testRunResult v), (existsb setNotPassed t')
      | |- _ =>
          (split; [by view_simpl|]); (split; [by view_simpl|]);
          try done; simpl; by destruct (testRunResult v)
      end.
Qed.

Lemma view_bg {A} (π : Event → list A) (evs : list BgEvent) :
  (∀ ev, π (ECall (CBackground ev)) = []) →
  (ECall ∘ CBackground <$> evs) ≫= π = [].
Proof. intros Hπ. by apply view_fmap_nil. Qed.

Lemma view_ECall {A} (π : Event → list A) (t : list Call) (P : Call → Prop) :
  Forall P t → (∀ c, P c → π (ECall c) = []) → (ECall <$> t) ≫= π = [].
Proof.
  induction 1 as [|c t Hc _ IH]; intros HP; [done|].
  rewrite fmap_cons, bind_cons, (HP _ Hc), IH; done.
Qed.

(** How [Start] ends, in one statement: [ids] are the test sets of the
    store, and [t] the events of the run. *)
Lemma Start_end s :
  wp (Start r)
     (λ err s' t,
        (t ≫= testRunOf = [] ∧ t ≫= summaryOf = [])
        ∨ ∃ ids,
            head t = Some (ECall (CGetAllTestSetIDs (ids, None)))
            ∧ err = None
            ∧ t ≫= testRunOf
              = [(totalTestPassed s', totalTestFailed s', int_len ids,
                  if existsb setNotPassed t then "fail" else "pass")]
            ∧ (t ≫= summaryOf = []
               ∨ (t ≫= summaryOf
                  = [(totalTests s', totalTestPassed s', totalTestFailed s',
                      completeTestReport s', negb (existsb setNotPassed t))]
                  ∧ 0 < totalTests s'
                  ∧ Forall (λ x, continues x = true) t))) s.
Proof.
  unfold Start, Start_body, printSummary.
  wp_step. wp_step. wp_step. wp_step. wp_step. wp_step.
  { wp_steps; left; rewrite <- ?list_fmap_compose; by view_simpl. }
  wp_step; [wp_steps; left; rewrite <- ?list_fmap_compose; by view_simpl|].
  wp_step. apply wp_lift. wp_use GetNextTestRunID_calls as Ht1.
  pose proof (view_ECall testRunOf _ _ Ht1) as Ha1.
  lapply Ha1; [clear Ha1; intros Ha1|by intros []].
  pose proof (view_ECall summaryOf _ _ Ht1) as Hb1.
  lapply Hb1; [clear Hb1; intros Hb1|by intros []].
  wp_step. wp_step.
  { wp_steps; left;
      rewrite <- ?list_fmap_compose, ?bind_app, ?Ha1, ?Hb1; by view_simpl. }
  wp_step. apply wp_lift. wp_use Instrument_calls as Ht2.
  pose proof (view_ECall testRunOf _ _ Ht2) as Ha2.
  lapply Ha2; [clear Ha2; intros Ha2|by intros []].
  pose proof (view_ECall summaryOf _ _ Ht2) as Hb2.
  lapply Hb2; [clear Hb2; intros Hb2|by intros []].
  wp_step. wp_step.
  { wp_steps; left;
      rewrite <- ?list_fmap_compose, ?bind_app, ?Ha1, ?Hb1, ?Ha2, ?Hb2;
      by view_simpl. }
  wp_step.
  eapply wp_mono;
    [apply wp_conj; [apply Start_loop_result|by apply Start_loop_spec]|].
  cbv beta. intros exit s3 t3 [(Hl1 & Hl2 & Hl) Hspec].
  wp_step.
  { wp_steps; left;
      rewrite <- ?list_fmap_compose, ?bind_app, ?Ha1, ?Hb1, ?Ha2, ?Hb2, ?Hl1, ?Hl2;
      by view_simpl. }
  cbn [testRunResult] in Hl. rewrite andb_true_l in Hl.
  simpl in Hspec.
  wp_steps; right; exists l; (split; [reflexivity|]); (split; [done|]);
    rewrite ?existsb_app, ?existsb_ECall; cbn [orb existsb];
    rewrite ?orb_false_r, Hl;
    (split;
     [rewrite ?fmap_cons, ?fmap_nil, <- ?list_fmap_compose, ?bind_app,
        ?Ha1, ?Hb1, ?Ha2, ?Hb2, ?Hl1, ?Hl2;
      view_simpl; simpl; by destruct (existsb setNotPassed t3)|]);
    rewrite ?fmap_cons, ?fmap_nil, <- ?list_fmap_compose, ?bind_app,
        ?Ha1, ?Hb1, ?Ha2, ?Hb2, ?Hl1, ?Hl2;
    view_simpl; simpl; rewrite ?view_bg by done;
    try (by left); right; (split; [done|]); split; try (by apply Z.ltb_lt);
    try match goal with
        | E : abortTestRun _ = false |- _ => rewrite E in Hspec
        end;
    solve_Forall.
Qed.

(** X17: the [TestRun] telemetry event.  [Start] sends it at most once,
    and only in a run that returns nil.  It carries the package-level
    totals of passed and failed tests, the number of all test sets of the
    store (whether selected or not), and "pass" exactly when every test
    set that was run returned [PASSED] with a nil error. *)
Theorem Start_TestRun s :
  let out := Start r s in
  out.2 ≫= testRunOf = []
  ∨ ∃ ids,
      head out.2 = Some (ECall (CGetAllTestSetIDs (ids, None)))
      ∧ out.1.1 = None
      ∧ out.2 ≫= testRunOf
        = [(totalTestPassed out.1.2, totalTestFailed out.1.2, int_len ids,
            if existsb setNotPassed out.2 then "fail" else "pass")].
Proof.
  cbv zeta. pose proof (Start_end s) as He. unfold wp in He.
  destruct He as [[He _]|(ids & Hh & Herr & Ht & _)]; [by left|right].
  by exists ids.
Qed.

Lemma summaryLast_prefix p t :
  p ≫= testRunOf = [] → p ≫= summaryOf = [] → summaryLast t → summaryLast (p ++ t).
Proof.
  intros Hp1 Hp2 (pre & p' & f & n & st & tot & suites & res & cleanup
                  & -> & H1 & H2 & Hc).
  exists (p ++ pre), p', f, n, st, tot, suites, res, cleanup.
  rewrite (assoc_L (++)), !bind_app, Hp1, Hp2, H1, H2. done.
Qed.

(** Where the summary is printed: nowhere, or right after the [TestRun]
    event, followed only by the deferred function. *)
Lemma Start_summary_last s :
  wp (Start r) (λ _ _ t, t ≫= summaryOf = [] ∨ summaryLast t) s.
Proof.
  unfold Start, Start_body, printSummary.
  wp_step. wp_step. wp_step. wp_step. wp_step. wp_step.
  { wp_steps; left; rewrite <- ?list_fmap_compose; by view_simpl. }
  wp_step; [wp_steps; left; rewrite <- ?list_fmap_compose; by view_simpl|].
  wp_step. apply wp_lift. wp_use GetNextTestRunID_calls as Ht1.
  pose proof (view_ECall testRunOf _ _ Ht1) as Ha1.
  lapply Ha1; [clear Ha1; intros Ha1|by intros []].
  pose proof (view_ECall summaryOf _ _ Ht1) as Hb1.
  lapply Hb1; [clear Hb1; intros Hb1|by intros []].
  wp_step. wp_step.
  { wp_steps; left;
      rewrite <- ?list_fmap_compose, ?bind_app, ?Ha1, ?Hb1; by view_simpl. }
  wp_step. apply wp_lift. wp_use Instrument_calls as Ht2.
  pose proof (view_ECall testRunOf _ _ Ht2) as Ha2.
  lapply Ha2; [clear Ha2; intros Ha2|by intros []].
  pose proof (view_ECall summaryOf _ _ Ht2) as Hb2.
  lapply Hb2; [clear Hb2; intros Hb2|by intros []].
  wp_step. wp_step.
  { wp_steps; left;
      rewrite <- ?list_fmap_compose, ?bind_app, ?Ha1, ?Hb1, ?Ha2, ?Hb2;
      by view_simpl. }
  wp_step. wp_use Start_loop_result as Hl. destruct Hl as (Hl1 & Hl2 & _).
  wp_step.
  { wp_steps; left;
      rewrite <- ?list_fmap_compose, ?bind_app, ?Ha1, ?Hb1, ?Ha2, ?Hb2, ?Hl1, ?Hl2;
      by view_simpl. }
  wp_steps;
    first [ by (left;
                rewrite ?fmap_cons, ?fmap_nil, <- ?list_fmap_compose, ?bind_app,
                  ?Ha1, ?Hb1, ?Ha2, ?Hb2, ?Hl1, ?Hl2;
                view_simpl; simpl; rewrite ?view_bg by done)
          | right;
            ev_simpl; rewrite ?app_nil_l, ?app_nil_r, <- ?(assoc_L (++));
            do 4 (apply summaryLast_prefix; [done|done|]);
            eexists [], _, _, _, _, _, _, _, _;
            (split; [reflexivity|]); (split; [done|]); (split; [done|]);
            solve_Forall ].
Qed.

(** X18: the summary of the run.  [Start] prints it at most once, as the
    event right after the [TestRun] event (the only one of the run, with
    the same totals of passed and failed tests) and followed only by the
    calls of the deferred function, in a run that returns nil in which
    every test set let the run go on (none returned [APP_HALTED],
    [INTERNAL_ERR], [FAULT_USER_APP], [USER_ABORT] or an error), and only
    when the package-level total of tests is positive.  It shows the
    package-level totals and verdicts, and the overall result is "passed"
    exactly when every test set that was run returned [PASSED]. *)
Theorem Start_summary s tot p f suites res :
  let out := Start r s in
  (tot, p, f, suites, res) ∈ out.2 ≫= summaryOf →
  (∃ pre n st cleanup,
      out.2 = pre ++ ECall (CTestRun p f n st)
                  :: ECall (CPrintSummary tot p f suites res) :: cleanup
      ∧ pre ≫= testRunOf = [] ∧ pre ≫= summaryOf = []
      ∧ Forall (λ x, isCleanup x = true) cleanup)
  ∧ out.2 ≫= summaryOf = [(tot, p, f, suites, res)]
  ∧ (tot, p, f, suites)
    = (totalTests out.1.2, totalTestPassed out.1.2, totalTestFailed out.1.2,
       completeTestReport out.1.2)
  ∧ res = negb (existsb setNotPassed out.2)
  ∧ 0 < tot
  ∧ out.1.1 = None
  ∧ Forall (λ x, continues x = true) out.2
  ∧ out.2 ≫= testRunOf ≠ [].
Proof.
  cbv zeta. pose proof (Start_end s) as He. unfold wp in He.
  pose proof (Start_summary_last s) as Hs. unfold wp in Hs.
  intros Hin.
  destruct He as [[_ He]|(ids & Hh & Herr & Ht & [He|(He & Hpos & Hc)])];
    try (rewrite He in Hin; by apply elem_of_nil in Hin).
  rewrite He in Hin. apply list_elem_of_singleton in Hin. simplify_eq.
  split; [|rewrite He, Ht; done].
  destruct Hs as [Hs|(pre & p' & f' & n & st & tot' & suites' & res' & cleanup
                      & Heq & H1 & H2 & Hcl)].
  { rewrite Hs in He. discriminate He. }
  assert ((Start r s).2 ≫= summaryOf = [(tot', p', f', suites', res')]) as Hv.
  { rewrite Heq, bind_app, H2, !bind_cons.
    by rewrite (view_nil_Forall summaryOf _ _ Hcl) by (by intros [[]|]). }
  rewrite He in Hv. injection Hv as E1 E2 E3 E4 E5.
  exists pre, n, st, cleanup. by rewrite E1, E2, E3, E4, E5.
Qed.

End StartFacts.
(** ** Which run, set and application the calls are for *)

Section Addressing.
Context {W : Type} (r : Replayer W).

Ltac addr_Forall :=
  repeat lazymatch goal with
  | |- Forall _ [] => apply Forall_nil
  | |- Forall _ (_ ++ _) => apply Forall_app; split
  | |- Forall _ (_ :: _) => apply Forall_cons; split
  | |- Forall _ (_ <$> []) => apply Forall_nil
  | |- Forall _ (_ <$> (_ :: _)) => rewrite fmap_cons
  | |- Forall _ (_ <$> (_ ++ _)) => rewrite fmap_app
  | |- Forall _ (_ <$> (_ <$> _)) => rewrite <- list_fmap_compose
  | |- Forall _ (_ <$> _) =>
      first [ assumption | apply Forall_fmap, Forall_true; done ]
  | |- Forall _ _ => assumption
  | |- wp _ _ _ => fail
  | |- _ => done
  end.

Lemma SetupOrUpdateMocks_addressed run app id a b act s :
  wp (SetupOrUpdateMocks r app id a b act)
     (λ _ _ t, Forall (addressed id run app) t) s.
Proof. unfold SetupOrUpdateMocks, GetMocks. wp_steps; addr_Forall. Qed.

Lemma RunTestSet_case_addressed id run app ip sel tc v s :
  wp (RunTestSet_case r id run app ip sel tc v)
     (λ _ _ t, Forall (addressed id run app) t) s.
Proof.
  unfold RunTestSet_case. wp_step; [wp_steps; addr_Forall|].
  cbv zeta. wp_step. wp_step. wp_step; [wp_steps; addr_Forall|].
  wp_step. wp_use (SetupOrUpdateMocks_addressed run) as Hm.
  wp_steps; addr_Forall.
Qed.

Lemma RunTestSet_loop_addressed id run app ip sel tcs v s :
  wp (RunTestSet_loop r id run app ip sel tcs v)
     (λ _ _ t, Forall (addressed id run app) t) s.
Proof.
  revert v s. induction tcs as [|tc tcs IH]; intros v s; simpl.
  - by wp_steps.
  - wp_step. wp_use RunTestSet_case_addressed as Hc. wp_step. wp_step.
    + wp_use IH as Hl. addr_Forall.
    + wp_steps; addr_Forall.
Qed.

Lemma RunTestSet_finish_addressed id run app post n loopErr v s :
  wp (RunTestSet_finish r id run post n loopErr v)
     (λ _ _ t, Forall (addressed id run app) t) s.
Proof.
  unfold RunTestSet_finish, RunTestSet_status, RunTestSet_seal, executeScript.
  wp_steps; addr_Forall.
Qed.

Lemma RunTestSet_report_addressed id run app post ip tcs tk s :
  wp (RunTestSet_report r id run app post ip tcs tk)
     (λ _ _ t, Forall (addressed id run app) t) s.
Proof.
  unfold RunTestSet_report. cbv zeta. wp_step. wp_step. wp_step.
  - wp_steps; addr_Forall.
  - wp_step. wp_use RunTestSet_loop_addressed as Hl.
    wp_use (RunTestSet_finish_addressed id run app) as Hf. addr_Forall.
Qed.

Lemma RunTestSet_supervise_addressed id run app serve post tcs s :
  wp (RunTestSet_supervise r id run app serve post tcs)
     (λ _ _ t, Forall (addressed id run app) t) s.
Proof.
  unfold RunTestSet_supervise. wp_step. wp_step. cbv zeta.
  wp_step; [apply RunTestSet_report_addressed|].
  wp_step. wp_step; wp_steps;
    try (wp_use RunTestSet_report_addressed as Hr); addr_Forall.
Qed.

Lemma RunTestSet_cases_addressed id run app serve post s :
  wp (RunTestSet_cases r id run app serve post)
     (λ _ _ t, Forall (addressed id run app) t) s.
Proof.
  unfold RunTestSet_cases. wp_step. wp_step. wp_step.
  wp_step; [wp_steps; addr_Forall|].
  wp_step; [wp_steps; addr_Forall|].
  wp_step. wp_step. wp_step. wp_use (SetupOrUpdateMocks_addressed run) as Hm.
  wp_step; [wp_steps; addr_Forall|].
  wp_use RunTestSet_supervise_addressed as Hs. addr_Forall.
Qed.

Lemma RunTestSet_addressed id run app serve s :
  wp (RunTestSet r id run app serve)
     (λ _ _ t, Forall (addressed id run app) t) s.
Proof.
  unfold RunTestSet, executeScript.
  wp_step; [|apply RunTestSet_cases_addressed].
  wp_steps; try (wp_use RunTestSet_cases_addressed as Hc); addr_Forall.
Qed.

(** X19: every call [RunTestSet] makes that names a test set, a run or an
    application names the ones it was called with: test cases, mocks and
    configuration are read for this set, requests are simulated against
    this application, and results and reports are filed under this run
    and set. *)
Theorem RunTestSet_addressing id run app serve s :
  Forall (addressed id run app) (RunTestSet r id run app serve s).2.
Proof. apply RunTestSet_addressed. Qed.

Lemma Start_loop_ofRun run app n ids v s :
  wp (Start_loop r run app n ids v) (λ _ _ t, Forall (ofRun r run app) t) s.
Proof.
  revert v s. induction ids as [|id ids IH]; intros v s; simpl.
  - by wp_steps.
  - wp_step; [apply IH|].
    wp_step. wp_step. wp_step. wp_step. wp_step.
    wp_use RunTestSet_addressed as Ha. destruct a as [st e]. cbn [fst snd].
    wp_step; [wp_steps; addr_Forall|].
    destruct st; wp_steps;
      lazymatch goal with
      | |- wp (Start_loop _ _ _ _ _ _) _ _ =>
          eapply wp_mono; [apply IH|]; cbv beta; intros exit s' t' Hl;
          addr_Forall
      | |- _ => addr_Forall
      end.
Qed.

Lemma GetNextTestRunID_ofRun s :
  wp (GetNextTestRunID r)
     (λ res _ t, ∀ run app,
        (res.2 = None → run = res.1) → Forall (ofRun r run app) (ECall <$> t)) s.
Proof.
  unfold GetNextTestRunID.
  wp_steps; intros run app Hrun; addr_Forall; simpl; auto.
Qed.

Lemma Instrument_ofRun s :
  wp (Instrument r)
     (λ res _ t,
        (nonempty (BasePath (Test (config r))) = true → AppID res.1 = 0%N)
        ∧ ∀ run app,
            (res.2 = None → app = AppID res.1) →
            Forall (ofRun r run app) (ECall <$> t)) s.
Proof.
  unfold Instrument. wp_step; [by wp_steps|].
  wp_steps; (split; [done|]); intros run app Happ;
    addr_Forall; simpl; auto; symmetry; by apply Happ.
Qed.

(** X20: one run, one application.  All test sets of a run of [Start]
    make their calls under one run and against one application: the run
    is [NextID] of the run ids stored before, under which also
    [AfterTestHook] is called, and the application is the one [Hook] was
    started for, or application 0 when a base path is configured. *)
Theorem Start_one_run s :
  ∃ run app,
    Forall (ofRun r run app) (Start r s).2
    ∧ (nonempty (BasePath (Test (config r))) = true → app = 0%N).
Proof.
  change (wp (Start r)
            (λ _ _ t, ∃ run app,
               Forall (ofRun r run app) t
               ∧ (nonempty (BasePath (Test (config r))) = true → app = 0%N)) s).
  unfold Start, Start_body, printSummary.
  wp_step. wp_step. wp_step. wp_step. wp_step. wp_step.
  { wp_steps; exists "", 0%N; (split; [addr_Forall|done]). }
  wp_step.
  { wp_steps; exists "", 0%N; (split; [addr_Forall|done]). }
  wp_step. apply wp_lift. wp_use GetNextTestRunID_ofRun as H1.
  destruct a as [run e1]. cbn [fst snd] in H1. wp_step.
  { wp_steps; exists "", 0%N; (split; [|done]);
      specialize (H1 "" 0%N); addr_Forall; by apply H1. }
  wp_step. apply wp_lift. wp_use Instrument_ofRun as H2.
  destruct a as [inst e2]. cbn [fst snd] in H2. destruct H2 as [Hbp H2].
  wp_step.
  { wp_steps; exists run, 0%N; (split; [|done]);
      specialize (H1 run 0%N (λ _, eq_refl)); specialize (H2 run 0%N);
      addr_Forall; by apply H2. }
  wp_step. wp_use Start_loop_ofRun as Hl.
  specialize (H1 run (AppID inst) (λ _, eq_refl)).
  specialize (H2 run (AppID inst) (λ _, eq_refl)).
  wp_steps; exists run, (AppID inst); (split; [|done]); addr_Forall.
Qed.

End Addressing.
(** ** [NormalizeTestCases] and [Normalize] *)

Section NormalizeFacts.
Context {W : Type} (r : Replayer W).

Lemma updatesSpec_cons id tc expected err ups :
  updatesSpec id expected err ups →
  updatesSpec id (tc :: expected) err ((tc, id, None) :: ups).
Proof.
  intros [[-> ->]|(written & tc' & e & rest & -> & -> & ->)].
  - by left.
  - right. by exists (tc :: written), tc', e, rest.
Qed.

Lemma NormalizeTestCases_loop_updates id m tcs s :
  wp (NormalizeTestCases_loop r id m tcs)
     (λ err _ t,
        Forall (λ c, isUpdateTC c = true) t
        ∧ updatesSpec id (normalized m tcs) err (t ≫= updateTCOf)) s.
Proof.
  revert s. induction tcs as [|tc tcs IH]; intros s; simpl.
  - wp_steps. split; [done|]. by left.
  - unfold normalized. simpl. fold (normalized m tcs).
    destruct (m !! Name tc) as [res|]; [|apply IH].
    destruct (isTestStatusPassed (trStatus res)); [apply IH|].
    wp_step. wp_step. wp_step.
    + wp_steps. split; [solve_Forall|]. right.
      eexists [], _, _, _. by split.
    + wp_use IH as Hl. destruct Hl as [Hc Hl]. split; [solve_Forall|].
      view_simpl. by apply updatesSpec_cons.
Qed.

(** X21: what [NormalizeTestCases] rewrites.  It returns an error without
    fetching test cases or writing anything (the report or the test cases
    could not be read); or it fetched test cases once, those of the set
    [id], got [tcs], and used the results [used]: those it was given or,
    when given none, the [Tests] of the report of the run for this set.
    Then it considers the test cases
    the selection names (all when the selection is empty), in stored
    order, and hands to [UpdateTestCase], for this set, exactly those
    whose recorded result is not [PASSED], each with the recorded
    response in place of the stored one and otherwise unchanged; it stops
    at the first one the store refuses and returns that error. *)
Theorem NormalizeTestCases_updates testRun id sel results s :
  let out := NormalizeTestCases r testRun id sel results s in
  (is_Some out.1.1 ∧ out.2 ≫= fetchedOf = [] ∧ out.2 ≫= updateTCOf = [])
  ∨ ∃ tcs used,
      out.2 ≫= fetchedOf = [tcs]
      ∧ CGetTestCases id (tcs, None) ∈ out.2
      ∧ ((results ≠ [] ∧ used = results ∧ out.2 ≫= getReportOf = [])
         ∨ (results = [] ∧ ∃ rep, CGetReport testRun id (rep, None) ∈ out.2
                                  ∧ used = Tests rep))
      ∧ updatesSpec id
          (normalized (testCaseResultMap_of used) (selectedCases sel tcs))
          out.1.1 (out.2 ≫= updateTCOf).
Proof.
  change (wp (NormalizeTestCases r testRun id sel results)
            (λ err _ t,
               (is_Some err ∧ t ≫= fetchedOf = [] ∧ t ≫= updateTCOf = [])
               ∨ ∃ tcs used,
                   t ≫= fetchedOf = [tcs]
                   ∧ CGetTestCases id (tcs, None) ∈ t
                   ∧ ((results ≠ [] ∧ used = results ∧ t ≫= getReportOf = [])
                      ∨ (results = [] ∧ ∃ rep, CGetReport testRun id (rep, None) ∈ t
                                               ∧ used = Tests rep))
                   ∧ updatesSpec id
                       (normalized (testCaseResultMap_of used) (selectedCases sel tcs))
                       err (t ≫= updateTCOf)) s).
  unfold NormalizeTestCases. wp_step.
  destruct (int_len results =? 0) eqn:Hres.
  - apply int_len_0 in Hres as ->.
    wp_step. wp_step. wp_step. wp_step; [wp_steps; left; by split; [eexists|]|].
    wp_step. wp_step. wp_step. wp_step. wp_step.
    { wp_steps. left. by split; [eexists|]. }
    wp_use NormalizeTestCases_loop_updates as Hl. destruct Hl as [Hc Hl].
    right. eexists _, _. split; [by view_simpl|].
    split; [set_solver|]. split.
    { right. split; [done|]. eexists. split; [by left|reflexivity]. }
    view_simpl. exact Hl.
  - wp_step. wp_step. wp_step. wp_step. wp_step.
    { wp_steps. left. by split; [eexists|]. }
    wp_use NormalizeTestCases_loop_updates as Hl. destruct Hl as [Hc Hl].
    right. eexists _, _. split; [by view_simpl|].
    split; [set_solver|]. split.
    { left. split; [by intros ->|]. split; [done|]. by view_simpl. }
    view_simpl. exact Hl.
Qed.

(** X22: which result counts.  When the results hold several entries for
    one test case, the map [NormalizeTestCases] builds keeps the last of
    them; a test case without an entry has none. *)
Theorem testCaseResultMap_of_last (results : list TestResult) (name : string) :
  testCaseResultMap_of results !! name
  = last (filter (λ res, TestCaseID res = name) results).
Proof.
  unfold testCaseResultMap_of.
  induction results as [|res results IH] using rev_ind; [done|].
  rewrite foldl_app, filter_app. simpl.
  destruct (decide (TestCaseID res = name)) as [<-|Hne].
  - rewrite lookup_insert_eq.
    rewrite filter_cons_True by done. rewrite filter_nil. by rewrite last_snoc.
  - rewrite lookup_insert_ne by done. rewrite IH.
    rewrite filter_cons_False by done. by rewrite filter_nil, app_nil_r.
Qed.

(** *** [Normalize] *)

Lemma NormalizeTestCases_report run id sel s :
  wp (NormalizeTestCases r run id sel [])
     (λ _ _ t, t ≫= getReportOf = [(run, id)]) s.
Proof.
  unfold NormalizeTestCases.
  change (int_len (@nil TestResult) =? 0) with true. cbv iota.
  wp_step. wp_step. wp_step. wp_step. wp_step; [by wp_steps|].
  wp_step. wp_step. wp_step. wp_step. wp_step; [by wp_steps|].
  wp_use NormalizeTestCases_loop_updates as Hl. destruct Hl as [Hc _].
  by view_simpl.
Qed.

Lemma Normalize_loop_visits run sel s :
  wp (Normalize_loop r run sel)
     (λ err _ t,
        ∃ visited rest,
          sel = visited ++ rest
          ∧ t ≫= getReportOf = (λ x, (run, stTestSet x)) <$> visited
          ∧ (err = None → rest = [])) s.
Proof.
  revert s. induction sel as [|x sel IH]; intros s; simpl.
  - wp_steps. by exists [], [].
  - wp_step. wp_use NormalizeTestCases_report as Hn. wp_step.
    + wp_steps. exists [x], sel. rewrite app_nil_r. by rewrite Hn.
    + wp_use IH as Hl. destruct Hl as (visited & rest & -> & Hl & Hrest).
      exists (x :: visited), rest. split; [done|]. split; [|done].
      by rewrite bind_app, Hn, Hl.
Qed.

(** X23: which reports [Normalize] reads.  When no run is configured and
    [Normalize] returns nil, it read the run ids of the store and then
    asked for one report of the last of them ([LastID]) per configured
    test set, in configured order; when no test set is configured, for
    each test set of the store, in stored order. *)
Theorem Normalize_reports s :
  nTestRun (Normalize_ (config r)) = "" →
  (Normalize r s).1.1 = None →
  ∃ runIDs sets,
    head (Normalize r s).2 = Some (CGetAllTestRunIDs (runIDs, None))
    ∧ (Normalize r s).2 ≫= getReportOf
      = (λ id, (LastID (runtime r) runIDs (TestRunTemplateName (runtime r)), id))
          <$> sets
    ∧ match nSelectedTests (Normalize_ (config r)) with
      | [] => CGetAllTestSetIDs (sets, None) ∈ (Normalize r s).2
      | configured => sets = stTestSet <$> configured
      end.
Proof.
  intros Hrun.
  change (wp (Normalize r)
            (λ err _ t, err = None →
               ∃ runIDs sets,
                 head t = Some (CGetAllTestRunIDs (runIDs, None))
                 ∧ t ≫= getReportOf
                   = (λ id, (LastID (runtime r) runIDs
                               (TestRunTemplateName (runtime r)), id)) <$> sets
                 ∧ match nSelectedTests (Normalize_ (config r)) with
                   | [] => CGetAllTestSetIDs (sets, None) ∈ t
                   | configured => sets = stTestSet <$> configured
                   end) s).
  unfold Normalize. cbv zeta. rewrite Hrun. simpl String.eqb. cbv iota.
  wp_step. wp_step. wp_step. wp_step. wp_step; [by wp_steps|].
  wp_step. cbv iota.
  destruct (nSelectedTests (Normalize_ (config r))) as [|x sel] eqn:Hsel.
  - change (int_len (@nil SelectedTests) =? 0) with true. cbv iota.
    wp_step. wp_step. wp_step. wp_step. wp_step; [by wp_steps|].
    wp_step. cbv iota. wp_use Normalize_loop_visits as Hl.
    destruct Hl as (visited & rest & Heq & Hl & Hrest).
    intros ->. rewrite (Hrest eq_refl), app_nil_r in Heq. subst visited.
    eexists _, _. split; [reflexivity|]. split; [|by right; left].
    view_simpl. rewrite Hl, app_nil_l, <- list_fmap_compose. done.
  - replace (int_len (x :: sel) =? 0) with false
      by (unfold int_len; simpl; lia).
    wp_step. wp_step. cbv iota. wp_use Normalize_loop_visits as Hl.
    destruct Hl as (visited & rest & Heq & Hl & Hrest).
    intros ->. rewrite (Hrest eq_refl), app_nil_r in Heq. subst visited.
    eexists _, _. split; [reflexivity|]. split; [|reflexivity].
    view_simpl. rewrite Hl, <- list_fmap_compose. done.
Qed.

End NormalizeFacts.
(** ** The warm-up delay, aborted runs and the two mock modes *)

Section Warmup.
Context {W : Type} (r : Replayer W).

Lemma beforeReport_setup p t :
  Forall (λ c, isSetupCall c = true) p →
  beforeReport (p ++ t) = p ++ beforeReport t.
Proof.
  induction 1 as [|c p Hc _ IH]; [done|].
  simpl. rewrite IH. by destruct c.
Qed.

Lemma beforeReport_bg (evs : list BgEvent) t :
  beforeReport ((CBackground <$> evs) ++ t) = (CBackground <$> evs) ++ beforeReport t.
Proof.
  induction evs as [|ev evs IH]; [done|].
  rewrite fmap_cons. cbn [Datatypes.app beforeReport isInsertReport].
  by rewrite IH.
Qed.

Lemma warmupSpec_prefix res p t :
  Forall (λ c, isSetupCall c = true) p → warmupSpec res t → warmupSpec res (p ++ t).
Proof.
  intros Hp Ht. unfold warmupSpec, canceledInWarmup.
  rewrite (beforeReport_setup _ _ Hp). intros [Hin|Hin]%elem_of_app.
  - apply (proj1 (Forall_forall _ _) Hp) in Hin. done.
  - destruct (Ht Hin) as [-> Hw]. split; [done|].
    apply Forall_app. split; [|done].
    eapply Forall_impl; [exact Hp|]. by intros [].
Qed.

Lemma warmupSpec_seeded res t : beforeReport t = [] → warmupSpec res t.
Proof.
  unfold warmupSpec, canceledInWarmup. intros ->. by intros ?%elem_of_nil.
Qed.

Lemma warmupSpec_nil res : warmupSpec res [].
Proof.
  unfold warmupSpec, canceledInWarmup. simpl. by intros ?%elem_of_nil.
Qed.

Lemma warmupSpec_bg res (evs : list BgEvent) t :
  ParentCanceled ∉ evs → warmupSpec res t →
  warmupSpec res ((CBackground <$> evs) ++ t).
Proof.
  intros Hevs Ht. unfold warmupSpec, canceledInWarmup.
  rewrite beforeReport_bg. intros [Hin|Hin]%elem_of_app.
  - apply list_elem_of_fmap in Hin as (ev & [= <-] & Hin). done.
  - destruct (Ht Hin) as [-> Hw]. split; [done|].
    apply Forall_app. split; [|done]. by apply Forall_fmap, Forall_true.
Qed.

(** Once the scope of the set is done, it stays done. *)
Lemma runTestSetCtxDone_bgStep tk ev :
  runTestSetCtxDone tk = true → runTestSetCtxDone (bgStep tk ev) = true.
Proof.
  intros Hd. destruct ev as [e| |b]; simpl; [|done|].
  - unfold appSupervisor. by destruct (supervisor tk).
  - unfold watcherSelect. rewrite Hd.
    destruct (watcher tk); [|done].
    destruct (appErrChan tk) as [err|]; [|done].
    destruct b; [done|].
    unfold watcherOnAppErr. by destruct (appErrorType err).
Qed.

Lemma runTestSetCtxDone_foldl evs tk :
  runTestSetCtxDone tk = true → runTestSetCtxDone (foldl bgStep tk evs) = true.
Proof.
  revert tk. induction evs as [|ev evs IH]; intros tk Hd; [done|].
  simpl. by apply IH, runTestSetCtxDone_bgStep.
Qed.

Lemma runTestSetCtxDone_canceled evs tk :
  ParentCanceled ∈ evs → runTestSetCtxDone (foldl bgStep tk evs) = true.
Proof.
  revert tk. induction evs as [|ev evs IH]; intros tk Hin.
  - by apply elem_of_nil in Hin.
  - apply elem_of_cons in Hin as [<-|Hin]; simpl.
    + by apply runTestSetCtxDone_foldl.
    + by apply IH.
Qed.

Lemma RunTestSet_report_seeded id run app post ip tcs tk s :
  wp (RunTestSet_report r id run app post ip tcs tk)
     (λ _ _ t, beforeReport t = []) s.
Proof.
  unfold RunTestSet_report. cbv zeta. wp_step. wp_step.
  apply wp_intro. intros res s' t _. done.
Qed.

Lemma RunTestSet_supervise_warmup id run app serve post tcs s :
  wp (RunTestSet_supervise r id run app serve post tcs)
     (λ res _ t, warmupSpec res t) s.
Proof.
  unfold RunTestSet_supervise. wp_step. wp_step. cbv zeta.
  wp_step.
  { wp_use RunTestSet_report_seeded as Hh. by apply warmupSpec_seeded. }
  wp_step.
  apply (wp_mono _ (λ _ s1 t1,
           Forall (λ c, isSetupCall c = true) t1
           ∧ ∀ tk, wp (observe r tk ≫= λ t,
                     if runTestSetCtxDone t
                     then mret (TestSetStatusUserAbort, Some context_Canceled)
                     else if IsDockerKind (runtime r) (CommandType (config r)) then
                       '(userIP, err) ← call (GetContainerIP (instrumentation r) app)
                                             (CGetContainerIP app);
                       match err with
                       | Some e => mret (TestSetStatusFailed, Some e)
                       | None => RunTestSet_report r id run app post userIP tcs t
                       end
                     else RunTestSet_report r id run app post "" tcs t)
                  (λ res _ t, warmupSpec res t) s1)).
  2:{ cbv beta. intros _ s1 t1 [Ht1 Hw].
      eapply wp_mono; [apply Hw|]. cbv beta. intros res s2 t2 Hres.
      by apply (warmupSpec_prefix res t1 t2). }
  apply wp_conj; [destruct serve; wp_steps; solve_Forall|].
  apply wp_intro. intros _ s1 t1 _ tk.
  wp_step. wp_step.
  destruct (runTestSetCtxDone (foldl bgStep tk evs)) eqn:Hdone.
  { wp_steps. intros _. split; [done|].
    rewrite app_nil_r. by apply Forall_fmap, Forall_true. }
  assert (ParentCanceled ∉ evs) as Hevs.
  { intros Hin. apply (runTestSetCtxDone_canceled _ tk) in Hin.
    rewrite Hin in Hdone. discriminate Hdone. }
  apply (wp_mono _ (λ res _ t, warmupSpec res t)).
  2:{ cbv beta. intros res s2 t2 Hw. by apply warmupSpec_bg. }
  wp_step.
  - wp_step. wp_step. wp_step. wp_step.
    + wp_steps. apply warmupSpec_prefix; [solve_Forall|apply warmupSpec_nil].
    + wp_use RunTestSet_report_seeded as Hh.
      apply warmupSpec_prefix; [solve_Forall|]. by apply warmupSpec_seeded.
  - wp_use RunTestSet_report_seeded as Hh. by apply warmupSpec_seeded.
Qed.

Lemma RunTestSet_cases_warmup id run app serve post s :
  wp (RunTestSet_cases r id run app serve post) (λ res _ t, warmupSpec res t) s.
Proof.
  pose proof warmupSpec_nil as Hnil.
  unfold RunTestSet_cases. wp_step. wp_step. wp_step. wp_step.
  { wp_steps. apply warmupSpec_prefix; [solve_Forall|done]. }
  wp_step; [wp_steps; apply warmupSpec_prefix; [solve_Forall|done]|].
  wp_step. wp_step. wp_step. wp_use SetupOrUpdateMocks_calls as Hm.
  wp_step.
  { wp_steps. repeat (apply warmupSpec_prefix; [solve_Forall|]). done. }
  wp_use RunTestSet_supervise_warmup as Hs.
  repeat (apply warmupSpec_prefix; [solve_Forall|]). done.
Qed.

Lemma RunTestSet_warmup id run app serve s :
  wp (RunTestSet r id run app serve) (λ res _ t, warmupSpec res t) s.
Proof.
  pose proof warmupSpec_nil as Hnil.
  unfold RunTestSet. wp_step; [|apply RunTestSet_cases_warmup].
  wp_step. wp_step. wp_step.
  wp_step; [wp_steps; apply warmupSpec_prefix; [solve_Forall|done]|].
  wp_step; [|wp_steps; apply warmupSpec_prefix; [solve_Forall|done]].
  wp_step. wp_use executeScript_calls as Hx. destruct Hx as [Hx _].
  wp_step.
  { wp_steps. repeat (apply warmupSpec_prefix; [solve_Forall|]). done. }
  wp_use RunTestSet_cases_warmup as Hc.
  repeat (apply warmupSpec_prefix; [solve_Forall|]). done.
Qed.

Lemma Start_loop_warmup run app n ids v s :
  wp (Start_loop r run app n ids v) (λ _ _ t, Forall warmupOK t) s.
Proof.
  revert v s. induction ids as [|id ids IH]; intros v s; simpl.
  - by wp_steps.
  - wp_step; [apply IH|].
    wp_step. wp_step. wp_step. wp_step. wp_step.
    wp_use RunTestSet_warmup as Hok. destruct a as [st e]. simpl in Hok.
    wp_step; [wp_steps; solve_Forall|].
    destruct st; cbn [fst snd]; wp_steps;
      lazymatch goal with
      | |- wp (Start_loop _ _ _ _ _ _) _ _ =>
          eapply wp_mono; [apply IH|]; cbv beta; intros exit s' t' Hl;
          solve_Forall
      | |- _ => solve_Forall
      end.
Qed.

Lemma Start_warmup s : wp (Start r) (λ _ _ t, Forall warmupOK t) s.
Proof.
  unfold Start, Start_body, printSummary.
  wp_step. wp_step. wp_step. wp_step. wp_step. wp_step.
  { wp_steps; solve_Forall. }
  wp_step; [wp_steps; solve_Forall|].
  wp_step. apply wp_lift, wp_intro. intros [testRunID e1] s1 t1 _.
  wp_step; [wp_steps; solve_Forall|].
  wp_step. apply wp_lift, wp_intro. intros [inst e2] s2 t2 _.
  wp_step; [wp_steps; solve_Forall|].
  wp_step. wp_use Start_loop_warmup as Hloop.
  wp_steps; solve_Forall.
Qed.

(** C6 (amended).  When the parent scope is canceled during the warm-up
    delay of [RunTestSet] (the cancellation is observed before the report
    of the set is seeded), [RunTestSet] returns [USER_ABORT] together with
    [context.Canceled] and has written nothing, so no report either; this
    holds of every run of [RunTestSet] and so of every test set [Start]
    runs, and [Start] then returns [context.Canceled].  A test set that
    returns [USER_ABORT] is the last event of [Start] before the calls of
    its deferred function: with a nil error [Start] returns nil, and the
    only error that comes with [USER_ABORT] is [context.Canceled], which
    [Start] returns as it is. *)
Theorem Start_user_abort :
  (∀ id run app serve s,
      canceledInWarmup (RunTestSet r id run app serve s).2 →
      (RunTestSet r id run app serve s).1.1
      = (TestSetStatusUserAbort, Some context_Canceled)
      ∧ Forall (λ c, isWrite c = false) (RunTestSet r id run app serve s).2)
  ∧ (∀ s id calls st e,
       ERunTestSet id calls st e ∈ (Start r s).2 →
       canceledInWarmup calls →
       st = TestSetStatusUserAbort ∧ e = Some context_Canceled
       ∧ (Start r s).1.1 = Some context_Canceled)
  ∧ (∀ s id calls e,
       ERunTestSet id calls TestSetStatusUserAbort e ∈ (Start r s).2 →
       (∃ pre cleanup,
           (Start r s).2
           = pre ++ ERunTestSet id calls TestSetStatusUserAbort e :: cleanup
           ∧ Forall (λ x, continues x = true) pre
           ∧ Forall (λ x, isCleanup x = true) cleanup)
       ∧ ((e = None ∧ (Start r s).1.1 = None)
          ∨ (e = Some context_Canceled
             ∧ (Start r s).1.1 = Some context_Canceled
             ∧ Forall (λ c, isWrite c = false) calls))).
Proof.
  split; [|split].
  - intros id run app serve s. apply (RunTestSet_warmup id run app serve s).
  - intros s id calls st e Hin Hc.
    pose proof (Start_warmup s) as Hw. unfold wp in Hw.
    apply (proj1 (Forall_forall _ _) Hw) in Hin as Hev. simpl in Hev.
    destruct (Hev Hc) as [[= -> ->] _]. split; [done|]. split; [done|].
    destruct (Start_user_abort_event r s id calls _ Hin)
      as [_ [[? _]|(_ & Hret & _)]]; done.
  - intros s id calls e. apply Start_user_abort_event.
Qed.

End Warmup.

Section Aborts.
Context {W : Type} (r : Replayer W).

(** C10 (amended).  Let a test set of a run of [Start] end with
    [APP_HALTED], [INTERNAL_ERR] or [FAULT_USER_APP].  When [RunTestSet]
    returned that status with a nil error, or stored a terminal report
    with it, [Start] returns a nil error and its trace ends with that test
    set, then the [TestRun] telemetry event with status "fail", then only
    the calls of the deferred function: no further test set is run and the
    summary is not printed.  When [RunTestSet] returned the status together
    with an error ([INTERNAL_ERR] after the terminal [InsertReport]
    failed), [Start] returns an error instead ("failed to run test set:
    ...", or [context.Canceled] itself), its trace ends with that test set
    and the calls of the deferred function, and it neither sends the
    [TestRun] event nor prints the summary. *)
Theorem Start_abort s ev st :
  ev ∈ (Start r s).2 →
  isAbortStatus st = true →
  (endedWith st ev →
   (Start r s).1.1 = None
   ∧ ∃ id calls pre p f n cleanup,
       ev = ERunTestSet id calls st None
       ∧ (Start r s).2 = pre ++ ev :: ECall (CTestRun p f n "fail") :: cleanup
       ∧ Forall (λ x, continues x = true) pre
       ∧ Forall (λ x, isCleanup x = true) cleanup)
  ∧ (∀ id calls e,
       ev = ERunTestSet id calls st (Some e) →
       (Start r s).1.1 = Some (runTestSetError r e)
       ∧ (∃ pre cleanup,
             (Start r s).2 = pre ++ ev :: cleanup
             ∧ Forall (λ x, continues x = true) pre
             ∧ Forall (λ x, isCleanup x = true) cleanup)
       ∧ (Start r s).2 ≫= testRunOf = []
       ∧ (Start r s).2 ≫= summaryOf = []).
Proof.
  intros Hin Hst. split.
  - intros Hend. by apply Start_abort_nil.
  - intros id calls e ->.
    destruct (Start_run_error r s id calls st e Hin) as [Hret Hshape].
    split; [done|]. split; [done|].
    pose proof (Start_end r s) as He. unfold wp in He.
    destruct He as [He|(ids & _ & Herr & _)]; [done|].
    rewrite Hret in Herr. discriminate Herr.
Qed.

End Aborts.

Section MockModes.
Context {W : Type} (r : Replayer W).

(** C3 (amended).  Without a configured base path: in the mock protocol
    of a run (the calls that fetch mocks, [SetMocks] and
    [SimulateRequest]), everything before the [SimulateRequest] of a test
    case is: the window of the initial setup, [[BaseTime, now]] with [now]
    the clock value read just before it; then, for each case driven
    earlier, its window followed by its request; then the window of this
    case, fetched for [[req.Timestamp, resp.Timestamp]] of the case as sent
    and installed by one [SetMocks].  So one [SetMocks] lies between two
    consecutive requests, and it precedes the request it belongs to.  With
    a base path: [SetupOrUpdateMocks] returns nil at once, without a call
    and without a change of state, and a run of [RunTestSet] fetches no
    mocks and calls neither [MockOutgoing] nor [SetMocks]. *)
Theorem RunTestSet_mock_windows id run app serve s :
  (BasePath (Test (config r)) = "" →
   ∀ pre app' tc id' res post,
     mockView (RunTestSet r id run app serve s).2
     = pre ++ CSimulateRequest app' tc id' res :: post →
     ∃ now f0 u0 driven f u t1 t2,
       pre = mockWindow app id (BaseTime (runtime r)) now f0 u0
             ++ (driven ≫= caseView app id)
             ++ mockWindow app id (ReqTimestamp (tcHTTPReq tc))
                  (RespTimestamp (tcHTTPResp tc)) f u
       ∧ app' = app ∧ id' = id
       ∧ (RunTestSet r id run app serve s).2
         = t1 ++ CNow now
              :: CGetFilteredMocks id (BaseTime (runtime r)) now (f0, None) :: t2
       ∧ mockView t1 = [])
  ∧ (BasePath (Test (config r)) ≠ "" →
     (∀ app' id' after before action s',
        SetupOrUpdateMocks r app' id' after before action s' = (None, s', []))
     ∧ Forall (λ c, isMockCall c = false) (RunTestSet r id run app serve s).2).
Proof.
  split.
  - intros Hbp pre app' tc id' res post.
    by apply RunTestSet_windows.
  - intros Hbp.
    assert (nonempty (BasePath (Test (config r))) = true) as Hne.
    { unfold nonempty. apply negb_true_iff. by apply String.eqb_neq. }
    split.
    + intros app' id' after before action s'.
      unfold SetupOrUpdateMocks. by rewrite Hne.
    + pose proof (RunTestSet_mode r id run app serve s) as Hm. unfold wp in Hm.
      eapply Forall_impl; [exact Hm|]. intros c. unfold modeOK. rewrite Hne.
      by destruct c.
Qed.

End MockModes.
(** ** More concrete runs in the in-memory world *)

Module MoreRuns.
Import Mem MemMore.

(** X3, witness: of the two cases of [worldChanged] one matches and one
    differs. *)
Lemma RunTestSet_counters_witness :
  let r := replayer cfgPlain in
  let out := RunTestSet r "test-set-0" "test-run-0" 7%N false (state0 worldChanged) in
  let rep := default emptyReport (terminalReport out.2) in
  let sims := simulated out.2 in
  terminalReport out.2 = Some rep
  ∧ (Success rep, Failure rep) = (1, 1)
  ∧ Success rep = int_wrap (Z.of_nat (countOf (countsSuccess r "test-set-0") sims))
  ∧ Failure rep = int_wrap (Z.of_nat (countOf (countsFailure r "test-set-0") sims))
  ∧ (Z.of_nat (length sims) < 2 ^ 63 →
     Success rep + Failure rep = Z.of_nat (length sims)).
Proof.
  intros r out rep sims.
  split; [by vm_compute|]. split; [by vm_compute|].
  apply (RunTestSet_counters r "test-set-0" "test-run-0" 7%N false
           (state0 worldChanged) rep).
  by vm_compute.
Defined.

(** X4, witness: the only case of [worldDown] gets no response. *)
Lemma RunTestSet_passed_report_witness :
  let r := replayer cfgPlain in
  let out := RunTestSet r "test-set-0" "test-run-0" 7%N false (state0 worldDown) in
  let rep := default emptyReport (terminalReport out.2) in
  let sims := simulated out.2 in
  length sims = 1%nat
  ∧ Forall (λ x, verdictOf r "test-set-0" x ≠ Some false) sims
  ∧ Failure rep = int_wrap (Z.of_nat (countOf noResponse sims)).
Proof.
  intros r out rep sims.
  split; [by vm_compute|].
  apply (RunTestSet_passed_report r "test-set-0" "test-run-0" 7%N false
           (state0 worldDown) rep); by vm_compute.
Defined.

(** X5, witness: the first case of [worldChanged] gets another body than
    the recorded one. *)
Lemma RunTestSet_failed_report_witness :
  let r := replayer cfgPlain in
  let out := RunTestSet r "test-set-0" "test-run-0" 7%N false (state0 worldChanged) in
  Exists (λ x, verdictOf r "test-set-0" x = Some false) (simulated out.2).
Proof.
  intros r out.
  apply (RunTestSet_failed_report r "test-set-0" "test-run-0" 7%N false
           (state0 worldChanged) (default emptyReport (terminalReport out.2)));
    by vm_compute.
Defined.

(** X8, witness: the script to run after the test cases fails. *)
Lemma RunTestSet_fault_script_witness :
  let out := RunTestSet scriptReplayer "test-set-0" "test-run-0" 7%N false
               (state0 worldOK) in
  (∃ script e pre,
      out.2 = pre ++ [CExecuteCommand script (Some e)]
      ∧ ((out.1.1.2 = Some (preScriptError e) ∧ out.2 ≫= insertReportOf = [])
         ∨ (out.1.1.2 = Some (postScriptError e)
            ∧ ∃ tcs, out.2 ≫= insertReportOf
                     = [("test-run-0", "test-set-0",
                         seedReport scriptReplayer "test-set-0" tcs, None)])))
  ∧ out.2 ≫= testSetRunOf = []
  ∧ globals out.1.2 = globals (state0 worldOK).
Proof.
  intros out.
  apply (RunTestSet_fault_script scriptReplayer "test-set-0" "test-run-0" 7%N
           false (state0 worldOK)).
  by vm_compute.
Defined.

(** X9, witness: a run with a base path. *)
Lemma RunTestSet_base_path_calls_witness :
  Forall (λ c, isInstrumentationCall c = false)
    (RunTestSet (replayer cfgBasePath) "test-set-0" "test-run-0" 7%N false
       (state0 worldOK)).2.
Proof.
  apply (RunTestSet_base_path_calls (replayer cfgBasePath) "test-set-0"
           "test-run-0" 7%N false (state0 worldOK)).
  reflexivity.
Defined.

(** X10, witness: a run without a base path. *)
Lemma RunTestSet_no_base_path_calls_witness :
  Forall (λ c, isOverrideCall c = false)
    (RunTestSet (replayer cfgPlain) "test-set-0" "test-run-0" 7%N false
       (state0 worldOK)).2.
Proof.
  apply (RunTestSet_no_base_path_calls (replayer cfgPlain) "test-set-0"
           "test-run-0" 7%N false (state0 worldOK)).
  reflexivity.
Defined.

(** X12, witness: the two cases of [worldOK]. *)
Lemma RunTestSet_simulation_order_witness :
  let r := replayer cfgPlain in
  let out := RunTestSet r "test-set-0" "test-run-0" 7%N false (state0 worldOK) in
  ∃ sent rest,
    List.filter (isSelected (selectedTestsOf (config r) "test-set-0")) [c1; c2]
    = sent ++ rest
    ∧ Forall2 sentFor (simulated out.2) sent.
Proof.
  intros r out.
  apply (RunTestSet_simulation_order r "test-set-0" "test-run-0" 7%N false
           (state0 worldOK) [c1; c2]).
  by vm_compute.
Defined.

(** X13, witness: the result recorded for the second case of [worldOK]. *)
Lemma RunTestSet_results_witness :
  let r := replayer cfgPlain in
  let out := RunTestSet r "test-set-0" "test-run-0" 7%N false (state0 worldOK) in
  let tr := resultAt out.2 25 in
  "test-run-0" = "test-run-0" ∧ "test-set-0" = "test-set-0"
  ∧ CNow (trStarted tr) ∈ out.2
  ∧ CNow (trCompleted tr) ∈ out.2
  ∧ ∃ tc resp,
      CSimulateRequest 7%N tc "test-set-0" (resp, None) ∈ out.2
      ∧ recordsSim r "test-set-0" tr tc resp.
Proof.
  intros r out tr.
  apply (RunTestSet_results r "test-set-0" "test-run-0" 7%N false
           (state0 worldOK) "test-run-0" "test-set-0" tr None).
  apply (list_elem_of_lookup_2 _ 25%nat). by vm_compute.
Defined.

(** X16, witness: the two test sets of [worldScript]. *)
Lemma Start_test_sets_witness :
  let r := replayer cfgPlain in
  let out := Start r (state0 (worldScript [])) in
  ∃ ran rest,
    List.filter (isSelectedSet (config r)) ["test-set-0"; "test-set-1"] = ran ++ rest
    ∧ out.2 ≫= setOf = ran ≫= λ id, [inl id; inr id].
Proof.
  intros r out.
  apply (Start_test_sets r (state0 (worldScript [])) ["test-set-0"; "test-set-1"]).
  by vm_compute.
Defined.

(** X18, witness: both test sets of [worldScript] pass, three tests in
    all. *)
Lemma Start_summary_witness :
  let r := replayer cfgPlain in
  let out := Start r (state0 (worldScript [])) in
  let suites := completeTestReport out.1.2 in
  (∃ pre n st cleanup,
      out.2 = pre ++ ECall (CTestRun 3 0 n st)
                  :: ECall (CPrintSummary 3 3 0 suites true) :: cleanup
      ∧ pre ≫= testRunOf = [] ∧ pre ≫= summaryOf = []
      ∧ Forall (λ x, isCleanup x = true) cleanup)
  ∧ out.2 ≫= summaryOf = [(3, 3, 0, suites, true)]
  ∧ (3, 3, 0, suites)
    = (totalTests out.1.2, totalTestPassed out.1.2, totalTestFailed out.1.2,
       completeTestReport out.1.2)
  ∧ true = negb (existsb setNotPassed out.2)
  ∧ 0 < 3
  ∧ out.1.1 = None
  ∧ Forall (λ x, continues x = true) out.2
  ∧ out.2 ≫= testRunOf ≠ [].
Proof.
  intros r out suites.
  apply (Start_summary r (state0 (worldScript [])) 3 3 0 suites true).
  apply (list_elem_of_lookup_2 _ 0%nat). by vm_compute.
Defined.

(** X20, witness: a run with a base path. *)
Lemma Start_one_run_witness :
  let r := replayer cfgBasePath in
  ∃ run app,
    Forall (ofRun r run app) (Start r (state0 (worldScript []))).2
    ∧ (nonempty (BasePath (Test (config r))) = true → app = 0%N).
Proof.
  apply (Start_one_run (replayer cfgBasePath) (state0 (worldScript []))).
Defined.

(** X23, witness: one past run with a failed case, and no run
    configured. *)
Lemma Normalize_reports_witness :
  let r := replayer (cfgNormalize "") in
  let out := Normalize r (state0 worldPastRun) in
  ∃ runIDs sets,
    head out.2 = Some (CGetAllTestRunIDs (runIDs, None))
    ∧ out.2 ≫= getReportOf
      = (λ id, (LastID (runtime r) runIDs (TestRunTemplateName (runtime r)), id))
          <$> sets
    ∧ CGetAllTestSetIDs (sets, None) ∈ out.2.
Proof.
  intros r out.
  apply (Normalize_reports r (state0 worldPastRun)); by vm_compute.
Defined.

(** X24, witness: the report store of [Mem] answers with the report
    stored last, here the terminal report of the run. *)
Lemma GetTestSetStatus_after_RunTestSet_witness :
  let r := replayer cfgPlain in
  let out := RunTestSet r "test-set-0" "test-run-0" 7%N false (state0 worldChanged) in
  let rep := default emptyReport (terminalReport out.2) in
  let got := GetTestSetStatus r statusOfString "test-run-0" "test-set-0" out.1.2 in
  out.1.1.1 = TestSetStatusFailed
  ∧ got.1.1 = (out.1.1.1, None)
  ∧ got.2 = [CGetReport "test-run-0" "test-set-0" (rep, None)].
Proof.
  intros r out rep got.
  split; [by vm_compute|].
  apply (GetTestSetStatus_after_RunTestSet r statusOfString "test-set-0"
           "test-run-0" 7%N false (state0 worldChanged) rep (world out.1.2)).
  - by intros [].
  - by vm_compute.
  - by vm_compute.
  - by vm_compute.
Defined.

End MoreRuns.
(** ** Concrete runs in the in-memory world *)

Module Runs.
Import Mem MemMore.

(** C1: the only test case of the set gets no answer ([SimulateRequest]
    returns an error): the loop counts a failure and goes on, and the
    terminal report is written with status [PASSED], [Total = 1],
    [Success = 0], [Failure = 1]; [RunTestSet] returns [PASSED]. *)
Theorem simulate_error_reported_passed :
  let run := RunTestSet (replayer cfgPlain) "test-set-0" "test-run-0" 7%N false
               (state0 worldDown) in
  (∃ tc e, CSimulateRequest 7%N tc "test-set-0" (noResp, Some e) ∈ run.2)
  ∧ run.1.1 = (TestSetStatusPassed, None)
  ∧ finalReport run.2
    = Some {| Version := "api.keploy.io/v1beta1"; rTestSet := "test-set-0";
              Status := "PASSED"; Total := 1; Success := 0; Failure := 1;
              Tests := [] |}.
Proof.
  split; [|by vm_compute].
  exists c1, (errors_New "connection refused").
  apply (list_elem_of_lookup_2 _ 12%nat). by vm_compute.
Qed.

(** C2: (a) the report store refuses the result of a passing case
    ([InsertTestCaseResult] returns an error that is not a cancellation):
    the loop breaks, and the terminal report is written with status
    [PASSED], not [INTERNAL_ERR].  (b) the matcher delivers no [Result] for
    a passing case: the loop breaks after the first of two cases, and the
    terminal report is again [PASSED]. *)
Theorem loop_fault_not_internal_err :
  let run := RunTestSet (replayer cfgPlain) "test-set-0" "test-run-0" 7%N false
               (state0 worldDiskFull) in
  let run' := RunTestSet (replayerWith nilMatch cfgPlain) "test-set-0" "test-run-0"
                7%N false (state0 worldOK) in
  ((∃ res, CInsertTestCaseResult "test-run-0" "test-set-0" res
             (Some (errors_New "disk full")) ∈ run.2)
   ∧ run.1.1 = (TestSetStatusPassed, None)
   ∧ Status <$> finalReport run.2 = Some "PASSED")
  ∧ (length (run'.2 ≫= λ c, if isSimulate c then [c] else []) = 1%nat
     ∧ run'.1.1 = (TestSetStatusPassed, None)
     ∧ Status <$> finalReport run'.2 = Some "PASSED").
Proof.
  split; [split|]; [|by vm_compute..].
  eexists. apply (list_elem_of_lookup_2 _ 16%nat). by vm_compute.
Qed.

(** C3, counterexample: with a base path configured, both cases of the
    set are simulated and [SetMocks] is never called (nor are mocks
    fetched): the mock protocol of the run consists of the two requests. *)
Lemma base_path_simulates_without_SetMocks :
  let run := RunTestSet (replayer cfgBasePath) "test-set-0" "test-run-0" 7%N false
               (state0 worldOK) in
  ∃ tc1 tc2 res1 res2,
    mockView run.2 = [CSimulateRequest 7%N tc1 "test-set-0" res1;
                      CSimulateRequest 7%N tc2 "test-set-0" res2]
    ∧ Name tc1 = "c1" ∧ Name tc2 = "c2".
Proof. vm_compute. by eexists _, _, _, _. Qed.

(** C3, witness: the second case of [worldOK], without base path; and the
    same run with a base path. *)
Lemma RunTestSet_mock_windows_witness :
  let out := RunTestSet (replayer cfgPlain) "test-set-0" "test-run-0" 7%N false
               (state0 worldOK) in
  let v := mockView out.2 in
  (∃ now f0 u0 driven f u t1 t2,
      take 10 v = mockWindow 7%N "test-set-0" 0 now f0 u0
                  ++ (driven ≫= caseView 7%N "test-set-0")
                  ++ mockWindow 7%N "test-set-0" 12 13 f u
      ∧ 7%N = 7%N ∧ "test-set-0" = "test-set-0"
      ∧ out.2 = t1 ++ CNow now :: CGetFilteredMocks "test-set-0" 0 now (f0, None) :: t2
      ∧ mockView t1 = [])
  ∧ ((∀ app' id' after before action s',
        SetupOrUpdateMocks (replayer cfgBasePath) app' id' after before action s'
        = (None, s', []))
     ∧ Forall (λ c, isMockCall c = false)
         (RunTestSet (replayer cfgBasePath) "test-set-0" "test-run-0" 7%N false
            (state0 worldOK)).2).
Proof.
  intros out v. split.
  - apply (proj1 (RunTestSet_mock_windows (replayer cfgPlain) "test-set-0"
                    "test-run-0" 7%N false (state0 worldOK)) eq_refl
             (take 10 v) 7%N c2 "test-set-0" (mkResp 201 "made" 61, None)
             (drop 11 v)).
    by vm_compute.
  - apply (proj2 (RunTestSet_mock_windows (replayer cfgBasePath) "test-set-0"
                    "test-run-0" 7%N false (state0 worldOK))).
    by vm_compute.
Defined.

(** C6, counterexample: the parent scope is canceled during the warm-up
    delay of the first set.  [RunTestSet] returns [USER_ABORT] with
    [context.Canceled], and [Start] returns [context.Canceled], not nil. *)
Lemma warmup_cancel_returns_error :
  let run := Start (replayer cfgPlain)
               (state0 (worldScript [[]; [ParentCanceled]])) in
  (∃ calls, ERunTestSet "test-set-0" calls TestSetStatusUserAbort
              (Some context_Canceled) ∈ run.2)
  ∧ run.1.1 = Some context_Canceled
  ∧ run.1.1 ≠ None.
Proof.
  split; [|by vm_compute].
  eexists. apply (list_elem_of_lookup_2 _ 5%nat). by vm_compute.
Qed.

(** C6, witness: the scope is canceled during the warm-up delay, in a
    run of [RunTestSet] and in the first test set of a run of [Start]; and
    it is canceled before the first case of a set. *)
Lemma Start_user_abort_witness :
  let r := replayer cfgPlain in
  let out := RunTestSet r "test-set-0" "test-run-0" 7%N false
               (state0 (worldScript [[ParentCanceled]])) in
  let s1 := state0 (worldScript [[]; [ParentCanceled]]) in
  let t1 := (Start r s1).2 in
  let s2 := state0 (worldScript [[]; []; [ParentCanceled; WatcherScheduled true]]) in
  let t2 := (Start r s2).2 in
  (out.1.1 = (TestSetStatusUserAbort, Some context_Canceled)
   ∧ Forall (λ c, isWrite c = false) out.2)
  ∧ (TestSetStatusUserAbort = TestSetStatusUserAbort
     ∧ Some context_Canceled = Some context_Canceled
     ∧ (Start r s1).1.1 = Some context_Canceled)
  ∧ ((∃ pre cleanup,
         t2 = pre ++ ERunTestSet "test-set-0" (callsAt t2 5) TestSetStatusUserAbort None
                :: cleanup
         ∧ Forall (λ x, continues x = true) pre
         ∧ Forall (λ x, isCleanup x = true) cleanup)
     ∧ ((@None error = None ∧ (Start r s2).1.1 = None)
        ∨ (None = Some context_Canceled
           ∧ (Start r s2).1.1 = Some context_Canceled
           ∧ Forall (λ c, isWrite c = false) (callsAt t2 5)))).
Proof.
  intros r out s1 t1 s2 t2. split; [|split].
  - apply (proj1 (Start_user_abort r) "test-set-0" "test-run-0" 7%N false
             (state0 (worldScript [[ParentCanceled]]))).
    apply (list_elem_of_lookup_2 _ 7%nat). by vm_compute.
  - apply (proj1 (proj2 (Start_user_abort r)) s1 "test-set-0" (callsAt t1 5)
             TestSetStatusUserAbort (Some context_Canceled)).
    + apply (list_elem_of_lookup_2 _ 5%nat). by vm_compute.
    + apply (list_elem_of_lookup_2 _ 7%nat). by vm_compute.
  - apply (proj2 (proj2 (Start_user_abort r)) s2 "test-set-0" (callsAt t2 5) None).
    apply (list_elem_of_lookup_2 _ 5%nat). by vm_compute.
Defined.

(** C7, counterexample: for a set without test cases [RunTestSet] returns
    [PASSED], and no report is handed to [InsertReport]: the report store
    is as empty as before, so no report with [Total = 0] is recorded. *)
Lemma empty_set_records_no_report :
  let run := RunTestSet (replayer cfgPlain) "test-set-0" "test-run-0" 7%N false
               (state0 worldEmptySet) in
  run.2 = [CGetTestCases "test-set-0" ([], None)]
  ∧ run.1.1 = (TestSetStatusPassed, None)
  ∧ run.2 ≫= reportOf = []
  ∧ reports (world run.1.2) = []
  ∧ ¬ ∃ run' id rep e, CInsertReport run' id rep e ∈ run.2 ∧ Total rep = 0.
Proof.
  repeat split; try by vm_compute.
  intros (run' & id & rep & e & Hin & _). vm_compute in Hin.
  apply list_elem_of_singleton in Hin. discriminate Hin.
Qed.

(** C7, witness. *)
Lemma RunTestSet_empty_test_set_witness :
  let run := RunTestSet (replayer cfgPlain) "test-set-0" "test-run-0" 7%N false
               (state0 worldEmptySet) in
  run.1.1 = (TestSetStatusPassed, None)
  ∧ Forall (λ c, isWrite c = false) run.2
  ∧ (∃ pre, run.2 = pre ++ [CGetTestCases "test-set-0" ([], None)])
  ∧ sameGlobals (state0 worldEmptySet) run.1.2.
Proof.
  intros run.
  apply (RunTestSet_empty_test_set (replayer cfgPlain) "test-set-0" "test-run-0"
           7%N false (state0 worldEmptySet) "test-set-0").
  apply (list_elem_of_lookup_2 _ 0%nat). by vm_compute.
Defined.

(** C8, witness: both cases pass with pruning enabled. *)
Lemma RunTestSet_UpdateMocks_witness :
  let run := RunTestSet (replayer cfgPrune) "test-set-0" "test-run-0" 7%N false
               (state0 worldOK) in
  let m := add_consumed ["m1"; "m2"; "m1"; "m2"] ∅ in
  RemoveUnusedMocks (Test (config (replayer cfgPrune))) = true
  ∧ BasePath (Test (config (replayer cfgPrune))) = ""
  ∧ run.1.1 = (TestSetStatusPassed, None)
  ∧ (∃ rep, finalReport run.2 = Some rep ∧ Status rep = "PASSED")
  ∧ updateMocksCalls run.2 = [("test-set-0", m)]
  ∧ "test-set-0" = "test-set-0"
  ∧ ∀ name, m !! name
            = if decide (name ∈ consumedNames run.2) then Some true else None.
Proof.
  intros run m.
  apply (RunTestSet_UpdateMocks (replayer cfgPrune) "test-set-0" "test-run-0"
           7%N false (state0 worldOK) "test-set-0" m None).
  apply (list_elem_of_lookup_2 _ 28%nat). by vm_compute.
Defined.

(** C9, witness: a store without test sets. *)
Lemma Start_no_test_sets_witness :
  is_Some (Start (replayer cfgPlain) (state0 world0)).1.1
  ∧ (@None error = None →
     (Start (replayer cfgPlain) (state0 world0)).1.1
     = Some (noTestSetsError (replayer cfgPlain)))
  ∧ Forall (λ e, readOnly e = true) (Start (replayer cfgPlain) (state0 world0)).2.
Proof.
  apply (Start_no_test_sets (replayer cfgPlain) (state0 world0) None world0).
  reflexivity.
Defined.

(** C10, counterexample: the report store refuses the terminal report of
    the first test set, so that [RunTestSet] returns [INTERNAL_ERR] with
    the error "failed to insert report".  [Start] returns an error, not
    nil, and sends no [TestRun] event. *)
Lemma terminal_insert_error_no_TestRun :
  let run := Start replayerOnce (state0 (worldScript [])) in
  (∃ calls, ERunTestSet "test-set-0" calls TestSetStatusInternalErr
              (Some (errors_New "failed to insert report")) ∈ run.2)
  ∧ run.1.1 = Some (errors_New "failed to run test set: failed to insert report")
  ∧ run.1.1 ≠ None
  ∧ run.2 ≫= testRunOf = [].
Proof.
  split; [|by vm_compute].
  eexists. apply (list_elem_of_lookup_2 _ 5%nat). by vm_compute.
Qed.

(** C10, witness: the application stops before the first case of the
    first of two test sets, and the terminal report of the set says
    [APP_HALTED]; and the report store refuses the terminal report of the
    first test set. *)
Lemma Start_abort_witness :
  let s := state0 (worldScript [[]; []; [AppExited appStopped; WatcherScheduled false]]) in
  let t := (Start (replayer cfgPlain) s).2 in
  let ev := default (ECall CHookCancel) (t !! 5%nat) in
  let s' := state0 (worldScript []) in
  let t' := (Start replayerOnce s').2 in
  let e' := errors_New "failed to insert report" in
  let ev' := ERunTestSet "test-set-0" (callsAt t' 5) TestSetStatusInternalErr (Some e') in
  ((Start (replayer cfgPlain) s).1.1 = None
   ∧ ∃ id calls pre p f n cleanup,
       ev = ERunTestSet id calls TestSetStatusAppHalted None
       ∧ t = pre ++ ev :: ECall (CTestRun p f n "fail") :: cleanup
       ∧ Forall (λ x, continues x = true) pre
       ∧ Forall (λ x, isCleanup x = true) cleanup)
  ∧ ((Start replayerOnce s').1.1 = Some (runTestSetError replayerOnce e')
     ∧ (∃ pre cleanup,
           t' = pre ++ ev' :: cleanup
           ∧ Forall (λ x, continues x = true) pre
           ∧ Forall (λ x, isCleanup x = true) cleanup)
     ∧ t' ≫= testRunOf = []
     ∧ t' ≫= summaryOf = []).
Proof.
  intros s t ev s' t' e' ev'. split.
  - assert (ev ∈ t) as Hin.
    { apply (list_elem_of_lookup_2 _ 5%nat). by vm_compute. }
    apply (proj1 (Start_abort (replayer cfgPlain) s ev TestSetStatusAppHalted
                    Hin eq_refl)).
    assert (ev = ERunTestSet "test-set-0" (callsAt t 5) TestSetStatusAppHalted None)
      as -> by (by vm_compute).
    right. exists "test-run-next", "test-set-0", (reportAt (callsAt t 5) 11).
    split; [|by vm_compute].
    apply (list_elem_of_lookup_2 _ 11%nat). by vm_compute.
  - assert (ev' ∈ t') as Hin.
    { apply (list_elem_of_lookup_2 _ 5%nat). by vm_compute. }
    apply (proj2 (Start_abort replayerOnce s' ev' TestSetStatusInternalErr
                    Hin eq_refl) "test-set-0" (callsAt t' 5) e').
    reflexivity.
Defined.

(** C5: a run to normalize from is configured ("test-run-1", whose report
    has a failed case).  [Normalize] asks the report store for the run with
    the empty name, gets no report, returns that error and leaves the test
    case as it was.  Left to choose the run itself, it takes "test-run-1"
    and overwrites the stored response of the failed case. *)
Theorem Normalize_ignores_configured_run :
  let run := Normalize (replayer (cfgNormalize "test-run-1")) (state0 worldPastRun) in
  let run' := Normalize (replayer (cfgNormalize "")) (state0 worldPastRun) in
  (run.2 = [CGetAllTestSetIDs (["test-set-0"], None);
            CGetReport "" "test-set-0"
              (emptyReport, Some (errors_New "report not found"))]
   ∧ run.1.1 = Some (fmt_Errorf_w "failed to get test report: "
                       (errors_New "report not found"))
   ∧ testSets (world run.1.2) = [("test-set-0", [c1])])
  ∧ (run'.1.1 = None
     ∧ testSets (world run'.1.2)
       = [("test-set-0", [tc_set_HTTPResp (mkResp 200 "new" 60) c1])]).
Proof. by vm_compute. Qed.

End Runs.
